(** * PM100: a shallow embedding of the Thorlabs power-meter wrapper

    The Python class [PM100] (src/PM100.py) is a thin wrapper around three
    collaborators: the pyvisa resource manager, the ThorlabsPM100 driver
    object and the terminal.  Its methods are embedded as computations in a
    small monad that threads the attributes of the controller object and
    the state of the outside world, propagates Python exceptions, and
    records every interaction with a collaborator in a chronological list
    of events. *)

From Stdlib Require Import Floats ZArith Arith Ascii String DecimalString List
  Bool Lia.
Import ListNotations.

#[local] Set Warnings "-inexact-float".
#[local] Open Scope string_scope.

(** ** Python values *)

(** The numbers stored in the [unit_types] dictionary: float literals such
    as [1E-9] and the int literal [1]. *)
Inductive pynum : Type :=
| PInt (z : Z)
| PFloat (f : float).

(** [float(z)] for a Python int, rounded to the nearest binary64 (the
    ints of the table are both 1; Python's [OverflowError] for ints
    beyond the binary64 range is left out). *)
Definition float_of_int (z : Z) : float :=
  SF2Prim (binary_normalize prec emax z 0 false).

Definition float_of_pynum (n : pynum) : float :=
  match n with
  | PInt z => float_of_int z
  | PFloat f => f
  end.

Definition pynum_is_zero (n : pynum) : bool :=
  match n with
  | PInt z => Z.eqb z 0
  | PFloat f => PrimFloat.eqb f 0%float
  end.

(** What a method hands back: [None], a float, or a numpy array of floats. *)
Inductive pyval : Type :=
| VNone
| VFloat (f : float)
| VArray (l : list float).

(** The exceptions that can travel through the wrapper.  [ExtError] stands
    for any [Exception] raised inside a collaborator (a VISA I/O error, an
    [EOFError] of [input], ...); [SystemExit] is what [sys.exit] raises and
    is the only one that is not an instance of [Exception].  Interrupts
    from outside the program ([KeyboardInterrupt]) are not modelled. *)
Inductive exn : Type :=
| AttributeError (attr : string)
| KeyError (key : string)
| ZeroDivisionError
| ExtError (msg : string)
| SystemExit (msg : string).

Definition is_Exception (e : exn) : bool :=
  match e with
  | SystemExit _ => false
  | _ => true
  end.

(** The newline character of ["\n"]. *)
Definition newline : string := String (Ascii.ascii_of_nat 10) EmptyString.

(** [repr] of a str.  The quote is ['], or the double quote when the str
    holds a ['] and no double quote; the quote in use and the backslash
    are escaped with a backslash, tab, newline and carriage return are
    written [\t], [\n], [\r], and the other control characters as [\x]
    and two hexadecimal digits.  Bytes above 127 are taken to belong to
    printable characters, which [repr] leaves as they are. *)
Definition single_quote : ascii := ascii_of_nat 39.
Definition double_quote : ascii := ascii_of_nat 34.
Definition backslash : ascii := ascii_of_nat 92.

Fixpoint contains (c : ascii) (s : string) : bool :=
  match s with
  | EmptyString => false
  | String c' s' => Ascii.eqb c c' || contains c s'
  end.

Definition hex_digit (n : nat) : ascii :=
  ascii_of_nat (if Nat.ltb n 10 then 48 + n else 87 + n).

Definition hex2 (n : nat) : string :=
  String (hex_digit (n / 16)) (String (hex_digit (n mod 16)) EmptyString).

Definition repr_char (quote c : ascii) : string :=
  let n := nat_of_ascii c in
  if Ascii.eqb c quote || Ascii.eqb c backslash then
    String backslash (String c EmptyString)
  else if Nat.eqb n 9 then String backslash "t"
  else if Nat.eqb n 10 then String backslash "n"
  else if Nat.eqb n 13 then String backslash "r"
  else if Nat.ltb n 32 || Nat.eqb n 127 then String backslash ("x" ++ hex2 n)
  else String c EmptyString.

Fixpoint repr_chars (quote : ascii) (s : string) : string :=
  match s with
  | EmptyString => EmptyString
  | String c s' => repr_char quote c ++ repr_chars quote s'
  end.

Definition repr_str (s : string) : string :=
  let quote :=
    if contains single_quote s && negb (contains double_quote s)
    then double_quote else single_quote in
  String quote (repr_chars quote s ++ String quote EmptyString).

(** [repr] of a tuple of str, as [rm.list_resources()] returns it. *)
Definition repr_tuple (l : list string) : string :=
  match l with
  | [] => "()"
  | [x] => "(" ++ repr_str x ++ ",)"
  | _ => "(" ++ String.concat ", " (map repr_str l) ++ ")"
  end.

(** [str(e)], as the f-strings of the [except] clauses print it. *)
Definition str_exn (e : exn) : string :=
  match e with
  | AttributeError a => "'PM100' object has no attribute '" ++ a ++ "'"
  | KeyError k => repr_str k
  | ZeroDivisionError => "float division by zero"
  | ExtError msg => msg
  | SystemExit msg => msg
  end.

(** A dict with str keys, in insertion order. *)
Fixpoint dict_get {V : Type} (k : string) (d : list (string * V)) : option V :=
  match d with
  | [] => None
  | (k', v) :: d' => if String.eqb k k' then Some v else dict_get k d'
  end.

Definition dict_mem {V : Type} (k : string) (d : list (string * V)) : bool :=
  match dict_get k d with
  | Some _ => true
  | None => false
  end.

(** The two dictionaries of the source. *)
Definition unit_types : list (string * pynum) :=
  [ ("nW", PFloat 1e-9);
    ("uW", PFloat 1e-6);
    ("mW", PFloat 1e-3);
    ("W", PInt 1);
    ("dBm", PInt 1) ].

Definition bandwidth : list (string * Z) :=
  [ ("low", 1%Z); ("high", 0%Z) ].

(** [f'{unit_types}'] *)
Definition unit_types_repr : string :=
  "{'nW': 1e-09, 'uW': 1e-06, 'mW': 0.001, 'W': 1, 'dBm': 1}".

(** ** Events: every interaction with a collaborator *)

(** [Console] is a line printed; [Sleep] the [time.sleep(0.2)] before the
    device prompt; [Input] a prompt shown by [input]; [Read] a query for a
    reading together with its answer; the others are calls into the VISA
    layer and the driver, recorded whether or not they go through. *)
Inductive event : Type :=
| Console (line : string)
| Sleep
| Input (prompt : string)
| ResourceManager
| ListResources
| OpenResource (device : string) (timeout : Z)
| WrapDriver
| CloseHandle
| Read (answer : string + float)
| SetUnit (mode : string)
| SetLpassState (v : Z)
| SetAverageCount (n : Z)
| ConfigureScalarPower
| SetRangeAuto (s : string)
| GetRangeUpper
| SetWavelength (nm : pynum).

(** The raw readings the device delivered, in order. *)
Fixpoint readings (evs : list event) : list float :=
  match evs with
  | [] => []
  | Read (inr v) :: evs' => v :: readings evs'
  | _ :: evs' => readings evs'
  end.

(** How often the device was asked for a reading. *)
Fixpoint read_count (evs : list event) : nat :=
  match evs with
  | [] => 0
  | Read _ :: evs' => S (read_count evs')
  | _ :: evs' => read_count evs'
  end.

Definition is_print (e : event) : bool :=
  match e with
  | Console _ => true
  | _ => false
  end.

(** Writes to a setting of the instrument. *)
Definition is_device_write (e : event) : bool :=
  match e with
  | SetUnit _ | SetLpassState _ | SetAverageCount _
  | SetRangeAuto _ | SetWavelength _ | ConfigureScalarPower => true
  | _ => false
  end.

Definition printed (evs : list event) : list event := filter is_print evs.
Definition device_writes (evs : list event) : list event :=
  filter is_device_write evs.

(** ** Collaborators *)

(** Library functions that only compute: numpy's [mean] and [std] of a
    float array, the built-in [round] on a float, [round] on a numpy
    float64, and [str] of a float. *)
Class Numerics : Type := {
  np_mean : list float -> float;
  np_std : list float -> float;
  round_float : float -> Z -> float;
  round_float64 : float -> Z -> float;
  str_float : float -> string
}.

(** The outside world: the VISA resource manager, the instrument behind
    the driver object, and the terminal.  Every operation takes the state
    of the world and answers with an error message (an [Exception]) or a
    value, and the next state. *)
Class Instrument (World Handle Meter : Type) : Type := {
  visa_ResourceManager : World -> (string + unit) * World;
  rm_list_resources : World -> (string + list string) * World;
  rm_open_resource : string -> Z -> World -> (string + Handle) * World;
  inst_close : Handle -> World -> (string + unit) * World;
  ThorlabsPM100 : Handle -> World -> (string + Meter) * World;
  pm_read : Meter -> World -> (string + float) * World;
  pm_set_unit : Meter -> string -> World -> (string + unit) * World;
  pm_set_lpass_state : Meter -> Z -> World -> (string + unit) * World;
  pm_set_average_count : Meter -> Z -> World -> (string + unit) * World;
  pm_configure_scalar_power : Meter -> World -> (string + unit) * World;
  pm_set_range_auto : Meter -> string -> World -> (string + unit) * World;
  pm_get_range_upper : Meter -> World -> (string + float) * World;
  pm_set_wavelength : Meter -> pynum -> World -> (string + unit) * World;
  input : string -> World -> (string + string) * World
}.

(** ** The controller object and the monad of its methods *)

Inductive result (A : Type) : Type :=
| Normal (a : A)
| Raised (e : exn).
Arguments Normal {A} a.
Arguments Raised {A} e.

Section Controller.

Context {World Handle Meter : Type}.
Context {INS : Instrument World Handle Meter}.

(** The attributes of a [PM100] object.  [devices], [unit] and [verbose]
    are assigned by [__init__]; the others exist only once a method has
    assigned them, and reading one before that raises [AttributeError]. *)
Record PM100 : Type := mkPM100 {
  devices : list string;
  unit : string;
  verbose : bool;
  device : option string;
  inst : option Handle;
  power_meter : option Meter;
  n_averages : option Z;
  unit_to_measure : option string;
  conversion : option pynum
}.

Definition set_unit (v : string) (o : PM100) : PM100 :=
  mkPM100 (devices o) v (verbose o) (device o) (inst o) (power_meter o)
          (n_averages o) (unit_to_measure o) (conversion o).
Definition set_device (v : string) (o : PM100) : PM100 :=
  mkPM100 (devices o) (unit o) (verbose o) (Some v) (inst o) (power_meter o)
          (n_averages o) (unit_to_measure o) (conversion o).
Definition set_inst (v : Handle) (o : PM100) : PM100 :=
  mkPM100 (devices o) (unit o) (verbose o) (device o) (Some v) (power_meter o)
          (n_averages o) (unit_to_measure o) (conversion o).
Definition set_power_meter (v : Meter) (o : PM100) : PM100 :=
  mkPM100 (devices o) (unit o) (verbose o) (device o) (inst o) (Some v)
          (n_averages o) (unit_to_measure o) (conversion o).
Definition set_n_averages (v : Z) (o : PM100) : PM100 :=
  mkPM100 (devices o) (unit o) (verbose o) (device o) (inst o) (power_meter o)
          (Some v) (unit_to_measure o) (conversion o).
Definition set_unit_to_measure (v : string) (o : PM100) : PM100 :=
  mkPM100 (devices o) (unit o) (verbose o) (device o) (inst o) (power_meter o)
          (n_averages o) (Some v) (conversion o).
Definition set_conversion (v : pynum) (o : PM100) : PM100 :=
  mkPM100 (devices o) (unit o) (verbose o) (device o) (inst o) (power_meter o)
          (n_averages o) (unit_to_measure o) (Some v).

(** A method body: from the object and the world to an outcome, the
    object and the world afterwards, and the events it caused. *)
Definition M (A : Type) : Type :=
  PM100 -> World -> result A * PM100 * World * list event.

Definition ret {A : Type} (a : A) : M A :=
  fun o w => (Normal a, o, w, []).

Definition raise {A : Type} (e : exn) : M A :=
  fun o w => (Raised e, o, w, []).

Definition bind {A B : Type} (c : M A) (k : A -> M B) : M B :=
  fun o w =>
    match c o w with
    | (Normal a, o1, w1, evs1) =>
        match k a o1 w1 with
        | (r, o2, w2, evs2) => (r, o2, w2, (evs1 ++ evs2)%list)
        end
    | (Raised e, o1, w1, evs1) => (Raised e, o1, w1, evs1)
    end.

(** [try: c  except Exception as e: h e].  Assignments and events of [c]
    up to the exception stay; a [SystemExit] passes through. *)
Definition try_except {A : Type} (c : M A) (h : exn -> M A) : M A :=
  fun o w =>
    match c o w with
    | (Normal a, o1, w1, evs1) => (Normal a, o1, w1, evs1)
    | (Raised e, o1, w1, evs1) =>
        if is_Exception e then
          match h e o1 w1 with
          | (r, o2, w2, evs2) => (r, o2, w2, (evs1 ++ evs2)%list)
          end
        else (Raised e, o1, w1, evs1)
    end.

(** [self.<attr>] read and written. *)
Definition getattr {A : Type} (name : string) (proj : PM100 -> option A)
    : M A :=
  fun o w =>
    match proj o with
    | Some a => (Normal a, o, w, [])
    | None => (Raised (AttributeError name), o, w, [])
    end.

Definition attr {A : Type} (proj : PM100 -> A) : M A :=
  fun o w => (Normal (proj o), o, w, []).

Definition setattr (upd : PM100 -> PM100) : M Datatypes.unit :=
  fun o w => (Normal tt, upd o, w, []).

(** A call into a collaborator. *)
Definition ext {A : Type} (ev : event)
    (f : World -> (string + A) * World) : M A :=
  fun o w =>
    match f w with
    | (inr a, w1) => (Normal a, o, w1, [ev])
    | (inl msg, w1) => (Raised (ExtError msg), o, w1, [ev])
    end.

(** [self.power_meter.read]: the query, with the answer kept in the event. *)
Definition ext_read (pm : Meter) : M float :=
  fun o w =>
    match pm_read pm w with
    | (inr v, w1) => (Normal v, o, w1, [Read (inr v)])
    | (inl msg, w1) => (Raised (ExtError msg), o, w1, [Read (inl msg)])
    end.

Definition print (line : string) : M Datatypes.unit :=
  fun o w => (Normal tt, o, w, [Console line]).

Definition sleep : M Datatypes.unit :=
  fun o w => (Normal tt, o, w, [Sleep]).

Definition when (b : bool) (c : M Datatypes.unit) : M Datatypes.unit :=
  if b then c else ret tt.

(** [x / c] on a float and a number of the table. *)
Definition truediv (x : float) (c : pynum) : M float :=
  if pynum_is_zero c then raise ZeroDivisionError
  else ret (PrimFloat.div x (float_of_pynum c)).

(** [[body for _ in range(n)]] *)
Fixpoint comprehension {A : Type} (n : nat) (body : M A) : M (list A) :=
  match n with
  | O => ret []
  | S k =>
      bind body (fun x =>
      bind (comprehension k body) (fun xs =>
      ret (x :: xs)))
  end.

End Controller.

Arguments PM100 : clear implicits.
Arguments M : clear implicits.

Declare Scope py_scope.
Delimit Scope py_scope with py.
Notation "x <- c ;; k" := (bind c (fun x => k))
  (at level 61, c at next level, right associativity) : py_scope.
Notation "c ;; k" := (bind c (fun _ => k))
  (at level 61, right associativity) : py_scope.

(** ** The methods of [PM100] *)

Section Methods.

Context {World Handle Meter : Type}.
Context {NUM : Numerics} {INS : Instrument World Handle Meter}.

#[local] Open Scope py_scope.

(** [PM100(verbose)]: [__init__] asks the resource manager for the list of
    devices and sets the default unit; no other attribute exists yet. *)
Definition PM100_init (verbose : bool) (w : World)
    : result (PM100 Handle Meter) * World * list event :=
  match visa_ResourceManager w with
  | (inr _, w0) =>
      match rm_list_resources w0 with
      | (inr devs, w1) =>
          (Normal (mkPM100 devs "W" verbose None None None None None None),
           w1, [ResourceManager; ListResources])
      | (inl msg, w1) =>
          (Raised (ExtError msg), w1, [ResourceManager; ListResources])
      end
  | (inl msg, w0) => (Raised (ExtError msg), w0, [ResourceManager])
  end.

Definition close : M World Handle Meter Datatypes.unit :=
  try_except
    (h <- getattr "inst" inst ;;
     ext CloseHandle (inst_close h) ;;
     v <- attr verbose ;;
     when v
       (d <- getattr "device" device ;;
        print ("Connection to device " ++ d ++ " ended")))
    (fun _ => print "No device connected!").

Definition device_prompt : string :=
  "Please enter the correct device from the list above".

(** The selection of the device at the head of [initialise]. *)
Definition select_device (dev : option string)
    : M World Handle Meter Datatypes.unit :=
  match dev with
  | Some d => setattr (set_device d)
  | None =>
      devs <- attr devices ;;
      if Nat.eqb (length devs) 1 then
        setattr (set_device (nth 0 devs ""))
      else if Nat.ltb 1 (length devs) then
        print ("Found the following devices: " ++ newline ++ " "
               ++ repr_tuple devs) ;;
        sleep ;;
        d <- ext (Input device_prompt) (input device_prompt) ;;
        setattr (set_device d)
      else
        raise (SystemExit "Could not find device")
  end.

Definition initialise (dev : option string)
    : M World Handle Meter Datatypes.unit :=
  try_except
    (select_device dev ;;
     d <- getattr "device" device ;;
     h <- ext (OpenResource d 2500) (rm_open_resource d 2500) ;;
     setattr (set_inst h) ;;
     pm <- ext WrapDriver (ThorlabsPM100 h) ;;
     setattr (set_power_meter pm) ;;
     v <- attr verbose ;;
     when v (print ("Connection to device " ++ d ++ " succesful!")))
    (fun e => print ("Connection to device unsuccesful " ++ str_exn e)).

(** [self.power_meter.read/self.conversion] *)
Definition scaled_read : M World Handle Meter float :=
  pm <- getattr "power_meter" power_meter ;;
  raw <- ext_read pm ;;
  c <- getattr "conversion" conversion ;;
  truediv raw c.

Definition average : M World Handle Meter (list float) :=
  n <- getattr "n_averages" n_averages ;;
  data <- comprehension (Z.to_nat n) scaled_read ;;
  v <- attr verbose ;;
  when v
    (u <- attr unit ;;
     print ("Average value : " ++ str_float (round_float64 (np_mean data) 2)
            ++ " " ++ u) ;;
     u' <- attr unit ;;
     print ("Standard Deviation : " ++ str_float (round_float64 (np_std data) 2)
            ++ " " ++ u')) ;;
  ret data.

Definition auto_range (state : bool) : M World Handle Meter Datatypes.unit :=
  if state then
    pm <- getattr "power_meter" power_meter ;;
    ext (SetRangeAuto "ON") (pm_set_range_auto pm "ON") ;;
    print "Auto-Range ON"
  else
    pm <- getattr "power_meter" power_meter ;;
    ext (SetRangeAuto "OFF") (pm_set_range_auto pm "OFF") ;;
    print "Auto-Range OFF".

Definition get_max_power : M World Handle Meter float :=
  pm <- getattr "power_meter" power_meter ;;
  ext GetRangeUpper (pm_get_range_upper pm).

Definition set_samples (n_samples : Z) : M World Handle Meter Datatypes.unit :=
  pm <- getattr "power_meter" power_meter ;;
  ext (SetAverageCount n_samples) (pm_set_average_count pm n_samples).

Definition measure (type : string) (sample_rate : Z) (n_avg : Z)
    : M World Handle Meter pyval :=
  set_samples sample_rate ;;
  setattr (set_n_averages n_avg) ;;
  pm <- getattr "power_meter" power_meter ;;
  ext ConfigureScalarPower (pm_configure_scalar_power pm) ;;
  if String.eqb type "average" then
    data <- average ;;
    ret (VArray data)
  else
    data <- scaled_read ;;
    u <- attr unit ;;
    print ("Power reading: " ++ str_float (round_float data 2) ++ u) ;;
    ret (VFloat data).

Definition set_bandwidth (state : string)
    : M World Handle Meter Datatypes.unit :=
  if negb (dict_mem state bandwidth) then
    print ("Invalid state '" ++ state
           ++ "'. Please enter either 'low' or 'high'")
  else
    try_except
      (v <- match dict_get state bandwidth with
            | Some v => ret v
            | None => raise (KeyError state)
            end ;;
       pm <- getattr "power_meter" power_meter ;;
       ext (SetLpassState v) (pm_set_lpass_state pm v) ;;
       print ("bandwidth set to " ++ state))
      (fun e => print ("An error occurred: " ++ str_exn e)).

(** [if unit:] a str is true when it is not empty. *)
Definition truthy (u : option string) : bool :=
  match u with
  | Some s => negb (String.eqb s "")
  | None => false
  end.

Definition unit_prompt : string :=
  "Please enter correct unit type from list: " ++ unit_types_repr.

(** The [try] statement at the end of [set_units]: the mode is written to
    the meter, then the scale factor is looked up and stored. *)
Definition push_unit : M World Handle Meter Datatypes.unit :=
  try_except
    (m <- getattr "unit_to_measure" unit_to_measure ;;
     pm <- getattr "power_meter" power_meter ;;
     ext (SetUnit m) (pm_set_unit pm m) ;;
     cur <- attr unit ;;
     c <- match dict_get cur unit_types with
          | Some c => ret c
          | None => raise (KeyError cur)
          end ;;
     setattr (set_conversion c) ;;
     v <- attr verbose ;;
     when v (cur <- attr unit ;; print ("Units set to " ++ cur)))
    (fun e => print ("Error changing unit type: " ++ str_exn e)).

Definition set_units (u : option string)
    : M World Handle Meter Datatypes.unit :=
  when (truthy u)
    (setattr (set_unit (match u with Some s => s | None => "" end))) ;;
  cur <- attr unit ;;
  when (negb (dict_mem cur unit_types))
    (typed <- ext (Input unit_prompt) (input unit_prompt) ;;
     setattr (set_unit typed)) ;;
  cur <- attr unit ;;
  (if String.eqb cur "dBm" then setattr (set_unit_to_measure "DBM")
   else setattr (set_unit_to_measure "W")) ;;
  push_unit.

Definition set_wavelength (wavelength : pynum)
    : M World Handle Meter Datatypes.unit :=
  pm <- getattr "power_meter" power_meter ;;
  ext (SetWavelength wavelength) (pm_set_wavelength pm wavelength).

(** ** Calls and reachable objects *)

Inductive call : Type :=
| Close
| Initialise (dev : option string)
| Average
| AutoRange (state : bool)
| GetMaxPower
| Measure (type : string) (sample_rate n_avg : Z)
| SetBandwidth (state : string)
| SetSamples (n_samples : Z)
| SetUnits (u : option string)
| SetWavelengthTo (wavelength : pynum).

Definition invoke (c : call) : M World Handle Meter pyval :=
  match c with
  | Close => close ;; ret VNone
  | Initialise dev => initialise dev ;; ret VNone
  | Average => data <- average ;; ret (VArray data)
  | AutoRange state => auto_range state ;; ret VNone
  | GetMaxPower => x <- get_max_power ;; ret (VFloat x)
  | Measure type sample_rate n_avg => measure type sample_rate n_avg
  | SetBandwidth state => set_bandwidth state ;; ret VNone
  | SetSamples n_samples => set_samples n_samples ;; ret VNone
  | SetUnits u => set_units u ;; ret VNone
  | SetWavelengthTo wavelength => set_wavelength wavelength ;; ret VNone
  end.

(** The objects a script can hold: a freshly constructed one, and whatever
    a method call makes of one, in whatever state the world is then. *)
Inductive reachable : PM100 Handle Meter -> Prop :=
| reach_init verbose w o w1 evs :
    PM100_init verbose w = (Normal o, w1, evs) -> reachable o
| reach_call c o w r o1 w1 evs :
    reachable o -> invoke c o w = (r, o1, w1, evs) -> reachable o1.

(** ** Notions used to state the properties *)

(** The unit symbol [set_units] works with once [if unit: self.unit = unit]
    has run. *)
Definition adopted (u : option string) (o : PM100 Handle Meter) : string :=
  match u with
  | Some s => if String.eqb s "" then unit o else s
  | None => unit o
  end.

(** The native mode that goes with a unit symbol: ['DBM'] for dBm, ['W']
    (linear power) for every other one. *)
Definition native_mode (symbol : string) : string :=
  if String.eqb symbol "dBm" then "DBM" else "W".

(** The first half of [set_units]: the symbol it settles on, the world
    after and the events, either without a prompt (the adopted symbol is
    in the table) or with the operator's answer to the one prompt. *)
Inductive selected (u : option string) (o : PM100 Handle Meter) (w : World)
    : string -> World -> list event -> Prop :=
| selected_valid :
    dict_mem (adopted u o) unit_types = true ->
    selected u o w (adopted u o) w []
| selected_typed typed w0 :
    dict_mem (adopted u o) unit_types = false ->
    input unit_prompt w = (inr typed, w0) ->
    selected u o w typed w0 [Input unit_prompt].

(** The attributes after [set_units] has settled on [symbol] and stored
    its mode, with [conv] as the scale factor. *)
Definition with_units (symbol : string) (conv : option pynum)
    (o : PM100 Handle Meter) : PM100 Handle Meter :=
  mkPM100 (devices o) symbol (verbose o) (device o) (inst o) (power_meter o)
          (n_averages o) (Some (native_mode symbol)) conv.

(** A run of successful readings: the values delivered, from one state of
    the world to another. *)
Inductive read_run (pm : Meter) : World -> list float -> World -> Prop :=
| read_run_nil w : read_run pm w [] w
| read_run_cons w raw w1 raws w2 :
    pm_read pm w = (inr raw, w1) ->
    read_run pm w1 raws w2 ->
    read_run pm w (raw :: raws) w2.

(** The stored mode agrees with the stored symbol: DBM exactly for dBm. *)
Definition mode_consistent (o : PM100 Handle Meter) : Prop :=
  forall m, unit_to_measure o = Some m -> m = native_mode (unit o).


(** The stored scale factor is some entry of the table. *)
Definition scale_from_table (o : PM100 Handle Meter) : Prop :=
  forall c, conversion o = Some c ->
    exists symbol, dict_get symbol unit_types = Some c.

(** The three attributes that describe the unit. *)
Definition unit_fields (o : PM100 Handle Meter)
    : string * option string * option pynum :=
  (unit o, unit_to_measure o, conversion o).

(** The two lines [average] prints when verbose. *)
Definition average_report (data : list float) (symbol : string) : list event :=
  [ Console ("Average value : "
             ++ str_float (round_float64 (np_mean data) 2) ++ " " ++ symbol);
    Console ("Standard Deviation : "
             ++ str_float (round_float64 (np_std data) 2) ++ " " ++ symbol) ].

(** The line [measure] prints for a single reading. *)
Definition single_report (x : float) (symbol : string) : event :=
  Console ("Power reading: " ++ str_float (round_float x 2) ++ symbol).

End Methods.

(** ** The example script and the footprint of a call *)

Section Script.

Context {World Handle Meter : Type}.
Context {NUM : Numerics} {INS : Instrument World Handle Meter}.

#[local] Open Scope py_scope.

(** The statements of src/PM100_example.py after [PM = PM100()]; the two
    readings it keeps are handed back. *)
Definition example_calls : M World Handle Meter (pyval * pyval) :=
  initialise (Some "enter deivce ID here") ;;
  set_units (Some "mW") ;;
  set_bandwidth "high" ;;
  auto_range true ;;
  set_wavelength (PInt 606) ;;
  single_read <- measure "single" 5 10 ;;
  average_read <- measure "average" 5 100 ;;
  close ;;
  ret (single_read, average_read).

(** The whole script: the constructor (verbose by default), then the
    calls on the object it made.  Without an object there is nothing to
    call. *)
Definition PM100_example (w : World)
    : result (pyval * pyval) * option (PM100 Handle Meter) * World
      * list event :=
  match PM100_init true w with
  | (Normal PM, w1, evs1) =>
      match example_calls PM w1 with
      | (r, o, w2, evs2) => (r, Some o, w2, (evs1 ++ evs2)%list)
      end
  | (Raised e, w1, evs1) => (Raised e, None, w1, evs1)
  end.

(** The events a call of each method can cause. *)
Definition may_cause (c : call) (e : event) : bool :=
  match c, e with
  | Close, (CloseHandle | Console _) => true
  | Initialise _, (Console _ | Sleep | Input _ | WrapDriver) => true
  | Initialise _, OpenResource _ timeout => Z.eqb timeout 2500
  | Average, (Read _ | Console _) => true
  | AutoRange _, (SetRangeAuto _ | Console _) => true
  | GetMaxPower, GetRangeUpper => true
  | Measure _ sample_rate _, SetAverageCount n => Z.eqb n sample_rate
  | Measure _ _ _, (ConfigureScalarPower | Read _ | Console _) => true
  | SetBandwidth _, (SetLpassState _ | Console _) => true
  | SetSamples n_samples, SetAverageCount n => Z.eqb n n_samples
  | SetUnits _, (Input _ | SetUnit _ | Console _) => true
  | SetWavelengthTo _, SetWavelength _ => true
  | _, _ => false
  end.

(** The exceptions a call of each method can let through. *)
Definition may_raise (c : call) (e : exn) : bool :=
  match c, e with
  | Initialise None, SystemExit msg => String.eqb msg "Could not find device"
  | SetUnits _, ExtError _ => true
  | (AutoRange _ | GetMaxPower | SetSamples _ | SetWavelengthTo _),
    ExtError _ => true
  | (AutoRange _ | GetMaxPower | SetSamples _ | SetWavelengthTo _),
    AttributeError a => String.eqb a "power_meter"
  | Measure _ _ _, (ExtError _ | ZeroDivisionError) => true
  | Measure _ _ _, AttributeError a =>
      String.eqb a "power_meter" || String.eqb a "conversion"
  | Average, (ExtError _ | ZeroDivisionError) => true
  | Average, AttributeError a =>
      String.eqb a "n_averages" || String.eqb a "power_meter"
      || String.eqb a "conversion"
  | _, _ => false
  end.

(** The attribute of that name is one a method reads and has not been
    assigned. *)
Definition missing (a : string) (o : PM100 Handle Meter) : Prop :=
  (a = "power_meter" /\ power_meter o = None) \/
  (a = "conversion" /\ conversion o = None) \/
  (a = "n_averages" /\ n_averages o = None).

(** The outcome of a run. *)
Definition outcome {A : Type}
    (run : result A * PM100 Handle Meter * World * list event) : result A :=
  fst (fst (fst run)).

(** The attributes that refer to the connection. *)
Definition link_fields (o : PM100 Handle Meter)
    : option string * option Handle * option Meter :=
  (device o, inst o, power_meter o).

(** A run of successful readings followed by one that fails. *)
Definition read_run_failing (pm : Meter) (w : World) (raws : list float)
    (msg : string) (w2 : World) : Prop :=
  exists w1, read_run pm w raws w1 /\ pm_read pm w1 = (inl msg, w2).

End Script.

(** ** A scripted world

    A world whose answers are fixed in advance, to run the methods on:
    the devices the resource manager lists, the lines the operator will
    type, one flag per call into the VISA layer or the driver ([true]: that
    call raises), and the readings the meter will deliver. *)

Module Mock.

Record world : Type := mkWorld {
  resources : list string;
  keyboard : list string;
  faults : list bool;
  samples : list float
}.

Definition answer {A : Type} (a : A) (w : world) : (string + A) * world :=
  match faults w with
  | true :: fs =>
      (inl "VI_ERROR_TMO", mkWorld (resources w) (keyboard w) fs (samples w))
  | false :: fs =>
      (inr a, mkWorld (resources w) (keyboard w) fs (samples w))
  | [] => (inr a, w)
  end.

Definition answer_read (w : world) : (string + float) * world :=
  match answer tt w with
  | (inl msg, w1) => (inl msg, w1)
  | (inr _, w1) =>
      match samples w1 with
      | v :: vs => (inr v, mkWorld (resources w1) (keyboard w1) (faults w1) vs)
      | [] => (inr 0%float, w1)
      end
  end.

Definition answer_input (w : world) : (string + string) * world :=
  match keyboard w with
  | line :: rest =>
      (inr line, mkWorld (resources w) rest (faults w) (samples w))
  | [] => (inl "EOF when reading a line", w)
  end.

#[export] Instance instrument : Instrument world string string := {
  visa_ResourceManager := fun w => (inr tt, w);
  rm_list_resources := fun w => (inr (resources w), w);
  rm_open_resource := fun d _ => answer d;
  inst_close := fun _ => answer tt;
  ThorlabsPM100 := fun h => answer h;
  pm_read := fun _ => answer_read;
  pm_set_unit := fun _ _ => answer tt;
  pm_set_lpass_state := fun _ _ => answer tt;
  pm_set_average_count := fun _ _ => answer tt;
  pm_configure_scalar_power := fun _ => answer tt;
  pm_set_range_auto := fun _ _ => answer tt;
  pm_get_range_upper := fun _ => answer 1%float;
  pm_set_wavelength := fun _ _ => answer tt;
  input := fun _ => answer_input
}.

(** Simple stand-ins for the numeric library functions.  They are not
    the library's algorithms: the theorems hold for every instance of
    [Numerics], and these serve only to run the methods on examples. *)
Definition mean (l : list float) : float :=
  PrimFloat.div (fold_left PrimFloat.add l 0%float)
                (float_of_int (Z.of_nat (length l))).

Definition std (l : list float) : float :=
  let m := mean l in
  PrimFloat.sqrt
    (mean (map (fun x => PrimFloat.mul (PrimFloat.sub x m) (PrimFloat.sub x m)) l)).

(** Nearest integer, for magnitudes below 2^52. *)
Definition rint (x : float) : float :=
  if PrimFloat.ltb x 0%float then
    PrimFloat.opp
      (PrimFloat.sub (PrimFloat.add (PrimFloat.opp x) 0x1p52%float) 0x1p52%float)
  else PrimFloat.sub (PrimFloat.add x 0x1p52%float) 0x1p52%float.

Definition pow10 (n : Z) : float := float_of_int (10 ^ n).

(** Scale, take the nearest integer, scale back.  Python's [round] rounds
    the exact decimal value instead, so the two can differ in the last
    place near a tie. *)
Definition round (x : float) (n : Z) : float :=
  PrimFloat.div (rint (PrimFloat.mul x (pow10 n))) (pow10 n).

Definition Z_of_float (x : float) : Z :=
  match Prim2SF x with
  | S754_finite s m e =>
      let v := if Z.ltb e 0 then Z.shiftr (Z.pos m) (- e)
               else Z.shiftl (Z.pos m) e in
      if s then Z.opp v else v
  | _ => 0%Z
  end.

Definition str_nat (n : Z) : string :=
  NilZero.string_of_uint (N.to_uint (Z.to_N n)).

(** A float printed with two decimals, whatever its value; Python's [str]
    prints the shortest digits that read back, and [nan] and [inf] by
    name. *)
Definition str (x : float) : string :=
  let h := Z_of_float (rint (PrimFloat.mul (PrimFloat.abs x) 100%float)) in
  (if PrimFloat.ltb x 0%float then "-" else "")
  ++ str_nat (h / 100) ++ "."
  ++ str_nat ((h mod 100) / 10) ++ str_nat (h mod 10).

#[export] Instance numerics : Numerics := {
  np_mean := mean;
  np_std := std;
  round_float := round;
  round_float64 := round;
  str_float := str
}.

(** A controller on the scripted world. *)
Definition controller : Type := PM100 string string.

(** A connected controller: attributes as [__init__] and a successful
    [initialise('USB0')] leave them. *)
Definition connected (verbose : bool) : controller :=
  mkPM100 ["USB0"] "W" verbose (Some "USB0") (Some "USB0") (Some "USB0")
          None None None.

(** A controller as [__init__] leaves it for a given list of devices, and
    for the one device of the worlds below. *)
Definition listing (devs : list string) (verbose : bool) : controller :=
  mkPM100 devs "W" verbose None None None None None None.

Definition fresh (verbose : bool) : controller := listing ["USB0"] verbose.

(** A world in which nothing goes wrong. *)
Definition calm (readings : list float) : world :=
  mkWorld ["USB0"] [] [] readings.

(** A world with the given faults ahead, and one with lines to be typed. *)
Definition faulty (flags : list bool) : world :=
  mkWorld ["USB0"] [] flags [].

Definition typing (lines : list string) : world :=
  mkWorld ["USB0"] lines [] [].

End Mock.

(** * Properties *)

Arguments dict_get : simpl never.
Arguments dict_mem : simpl never.

Ltac unfold_py :=
  unfold bind, ret, raise, try_except, getattr, attr, setattr, ext, ext_read,
    print, sleep, when, truediv in *.

Section Properties.

Context {World Handle Meter : Type}.
Context {NUM : Numerics} {INS : Instrument World Handle Meter}.

Implicit Types (o : PM100 Handle Meter) (w : World).

(** ** [set_bandwidth] *)

Lemma bandwidth_keys (s : string) :
  dict_mem s bandwidth = true <-> s = "low" \/ s = "high".
Proof.
  cbv [dict_mem dict_get bandwidth].
  destruct (String.eqb_spec s "low"); [tauto|].
  destruct (String.eqb_spec s "high"); [tauto|].
  split; [discriminate | tauto].
Qed.

(** ** [set_units] *)

Lemma selected_total (u : option string) o w :
  (exists cur w0 evs0, selected u o w cur w0 evs0) \/
  (dict_mem (adopted u o) unit_types = false /\
   exists msg w0, input unit_prompt w = (inl msg, w0)).
Proof.
  destruct (dict_mem (adopted u o) unit_types) eqn:E.
  - left. exists (adopted u o), w, []. now constructor.
  - destruct (input unit_prompt w) as [[msg|typed] w0] eqn:I.
    + right; eauto.
    + left. exists typed, w0, [Input unit_prompt]. now constructor.
Qed.

(** [set_units] up to its [try] statement, when a symbol is settled on. *)
Lemma set_units_head (u : option string) o w cur w0 evs0 :
  selected u o w cur w0 evs0 ->
  set_units u o w =
    match push_unit (with_units cur (conversion o) o) w0 with
    | (r, o2, w2, evs2) => (r, o2, w2, (evs0 ++ evs2)%list)
    end.
Proof.
  intros S. destruct o as [dv un vb dc ins pm na um cv].
  unfold set_units.
  inversion S as [E | typed' w0' E I]; subst; clear S;
    unfold adopted, truthy in *; simpl in *;
    destruct u as [s|]; [destruct (String.eqb s "") | | destruct (String.eqb s "") | ];
    simpl in *; unfold_py; simpl; rewrite ?E; simpl; rewrite ?I; simpl;
    unfold with_units, native_mode; simpl;
    match goal with
    | |- context [String.eqb ?c "dBm"] => destruct (String.eqb c "dBm")
    end; unfold set_unit_to_measure, set_unit; simpl;
    match goal with
    | |- context [push_unit ?a ?b] => destruct (push_unit a b) as [[[r o2] w2] evs2]
    end; reflexivity.
Qed.

(** When the prompt itself raises, [set_units] raises too: the [input]
    call is outside the [try] statement. *)
Lemma set_units_prompt_raises (u : option string) o w msg w0 :
  dict_mem (adopted u o) unit_types = false ->
  input unit_prompt w = (inl msg, w0) ->
  set_units u o w =
    (Raised (ExtError msg), set_unit (adopted u o) o, w0, [Input unit_prompt]).
Proof.
  intros E I. destruct o as [dv un vb dc ins pm na um cv].
  unfold set_units, adopted, truthy in *; simpl in *.
  destruct u as [s|]; [destruct (String.eqb s "") | ];
    simpl in *; unfold_py; simpl; rewrite ?E; simpl; rewrite ?I; reflexivity.
Qed.

Lemma push_unit_no_driver o w :
  power_meter o = None -> unit_to_measure o <> None ->
  push_unit o w =
    (Normal tt, o, w,
     [Console ("Error changing unit type: "
             ++ str_exn (AttributeError "power_meter"))]).
Proof.
  intros E U. unfold push_unit; unfold_py.
  destruct (unit_to_measure o); [|congruence]. rewrite E. reflexivity.
Qed.

Lemma push_unit_write_failed o w m pm msg w1 :
  unit_to_measure o = Some m -> power_meter o = Some pm ->
  pm_set_unit pm m w = (inl msg, w1) ->
  push_unit o w =
    (Normal tt, o, w1,
     [SetUnit m; Console ("Error changing unit type: " ++ msg)]).
Proof.
  intros U E P. unfold push_unit; unfold_py. rewrite U, E, P. reflexivity.
Qed.

Lemma push_unit_stored o w m pm w1 c :
  unit_to_measure o = Some m -> power_meter o = Some pm ->
  pm_set_unit pm m w = (inr tt, w1) ->
  dict_get (unit o) unit_types = Some c ->
  push_unit o w =
    (Normal tt, set_conversion c o, w1,
     SetUnit m :: if verbose o then [Console ("Units set to " ++ unit o)] else []).
Proof.
  intros U E P D. unfold push_unit; unfold_py. rewrite U, E, P, D. simpl.
  destruct (verbose o); reflexivity.
Qed.

Lemma push_unit_key_error o w m pm w1 :
  unit_to_measure o = Some m -> power_meter o = Some pm ->
  pm_set_unit pm m w = (inr tt, w1) ->
  dict_get (unit o) unit_types = None ->
  push_unit o w =
    (Normal tt, o, w1,
     [SetUnit m; Console ("Error changing unit type: " ++ repr_str (unit o))]).
Proof.
  intros U E P D. unfold push_unit; unfold_py. rewrite U, E, P, D. reflexivity.
Qed.

Lemma native_mode_cases (symbol : string) :
  (symbol = "dBm" -> native_mode symbol = "DBM") /\
  (symbol <> "dBm" -> native_mode symbol = "W").
Proof.
  unfold native_mode.
  destruct (String.eqb_spec symbol "dBm"); split; congruence.
Qed.

(** Whatever happens inside the [try] statement, it returns normally,
    asks the operator nothing and touches no attribute but the scale
    factor. *)
Lemma push_unit_cases o w m :
  unit_to_measure o = Some m ->
  exists o1 w1 evs,
    push_unit o w = (Normal tt, o1, w1, evs) /\
    (forall p, ~ In (Input p) evs) /\
    unit o1 = unit o /\ unit_to_measure o1 = Some m /\
    power_meter o1 = power_meter o /\
    (conversion o1 = conversion o \/
     exists c, dict_get (unit o) unit_types = Some c /\ conversion o1 = Some c) /\
    (forall pm, power_meter o = Some pm ->
       w1 = snd (pm_set_unit pm m w) /\ device_writes evs = [SetUnit m]).
Proof.
  intros U.
  destruct (power_meter o) as [pm|] eqn:E;
    [destruct (pm_set_unit pm m w) as [[msg|[]] w1] eqn:P;
     [rewrite (push_unit_write_failed o w m pm msg w1 U E P)
     |destruct (dict_get (unit o) unit_types) as [c|] eqn:D;
      [rewrite (push_unit_stored o w m pm w1 c U E P D)
      |rewrite (push_unit_key_error o w m pm w1 U E P D)]]
    |rewrite (push_unit_no_driver o w E) by congruence].
  all: do 3 eexists; (split; [reflexivity|]); simpl.
  all: split;
    [intros p I; try destruct (verbose o); simpl in I; intuition discriminate|].
  all: split; [reflexivity|]; split; [exact U|]; split; [exact E|].
  all: split; [first [left; reflexivity | right; eauto]|].
  all: intros pm' Epm'; try discriminate Epm'; inversion Epm'; subst.
  all: rewrite P; simpl; split; [reflexivity|].
  all: try destruct (verbose o); reflexivity.
Qed.

Lemma set_units_write_failed (u : option string) o w cur w0 evs0 pm msg w1 :
  selected u o w cur w0 evs0 ->
  power_meter o = Some pm ->
  pm_set_unit pm (native_mode cur) w0 = (inl msg, w1) ->
  set_units u o w =
    (Normal tt, with_units cur (conversion o) o, w1,
     (evs0 ++ [SetUnit (native_mode cur);
               Console ("Error changing unit type: " ++ msg)])%list).
Proof.
  intros S E P. rewrite (set_units_head u o w cur w0 evs0 S).
  now rewrite (push_unit_write_failed _ w0 (native_mode cur) pm msg w1).
Qed.

Lemma set_units_stored (u : option string) o w cur w0 evs0 pm w1 c :
  selected u o w cur w0 evs0 ->
  power_meter o = Some pm ->
  pm_set_unit pm (native_mode cur) w0 = (inr tt, w1) ->
  dict_get cur unit_types = Some c ->
  set_units u o w =
    (Normal tt, with_units cur (Some c) o, w1,
     (evs0 ++ SetUnit (native_mode cur)
           :: if verbose o then [Console ("Units set to " ++ cur)] else [])%list).
Proof.
  intros S E P D. rewrite (set_units_head u o w cur w0 evs0 S).
  now rewrite (push_unit_stored _ w0 (native_mode cur) pm w1 c).
Qed.

Lemma set_units_key_error (u : option string) o w cur w0 evs0 pm w1 :
  selected u o w cur w0 evs0 ->
  power_meter o = Some pm ->
  pm_set_unit pm (native_mode cur) w0 = (inr tt, w1) ->
  dict_get cur unit_types = None ->
  set_units u o w =
    (Normal tt, with_units cur (conversion o) o, w1,
     (evs0 ++ [SetUnit (native_mode cur);
               Console ("Error changing unit type: " ++ str_exn (KeyError cur))])%list).
Proof.
  intros S E P D. rewrite (set_units_head u o w cur w0 evs0 S).
  now rewrite (push_unit_key_error _ w0 (native_mode cur) pm w1).
Qed.

Lemma dict_mem_get {V : Type} (k : string) (d : list (string * V)) :
  dict_mem k d = true <-> exists v, dict_get k d = Some v.
Proof.
  unfold dict_mem. destruct (dict_get k d) as [v|]; split.
  - eauto.
  - reflexivity.
  - discriminate.
  - intros [v H]; discriminate H.
Qed.

Lemma dict_mem_none {V : Type} (k : string) (d : list (string * V)) :
  dict_mem k d = false <-> dict_get k d = None.
Proof.
  unfold dict_mem. destruct (dict_get k d); split; congruence.
Qed.

Lemma adopted_some (u : string) o :
  dict_mem u unit_types = true -> adopted (Some u) o = u.
Proof.
  intros H. unfold adopted.
  destruct (String.eqb_spec u ""); [subst; discriminate H | reflexivity].
Qed.

(** ** Readings *)

Lemma scaled_read_ok o w pm raw w1 c :
  power_meter o = Some pm ->
  pm_read pm w = (inr raw, w1) ->
  conversion o = Some c ->
  pynum_is_zero c = false ->
  scaled_read o w =
    (Normal (PrimFloat.div raw (float_of_pynum c)), o, w1, [Read (inr raw)]).
Proof.
  intros E R C Z. unfold scaled_read; unfold_py. rewrite E, R, C, Z. reflexivity.
Qed.

(** One evaluation of [self.power_meter.read/self.conversion]: at most one
    query, nothing printed, no attribute changed; a value comes out only
    as the reading divided by the stored scale factor. *)
Lemma scaled_read_inv o w r o1 w1 evs :
  scaled_read o w = (r, o1, w1, evs) ->
  o1 = o /\ printed evs = [] /\ device_writes evs = [] /\ read_count evs <= 1 /\
  forall x, r = Normal x ->
    exists raw c,
      conversion o = Some c /\ evs = [Read (inr raw)] /\
      x = PrimFloat.div raw (float_of_pynum c).
Proof.
  unfold scaled_read; unfold_py.
  destruct (power_meter o) as [pm|]; simpl.
  - destruct (pm_read pm w) as [[msg|raw] w2]; simpl.
    + intros H; inversion H; subst; simpl. repeat split; auto. discriminate.
    + destruct (conversion o) as [c|]; simpl.
      * destruct (pynum_is_zero c); simpl;
          intros H; inversion H; subst; simpl; repeat split; auto;
          try discriminate.
        intros x Hx; inversion Hx; subst. eauto.
      * intros H; inversion H; subst; simpl. repeat split; auto. discriminate.
  - intros H; inversion H; subst; simpl. repeat split; auto. discriminate.
Qed.

Lemma readings_app (a b : list event) :
  readings (a ++ b) = (readings a ++ readings b)%list.
Proof.
  induction a as [|e a IH]; simpl; [reflexivity|].
  destruct e as [| | | | | | | |[msg|v]| | | | | | |]; simpl; now rewrite ?IH.
Qed.

Lemma read_count_app (a b : list event) :
  read_count (a ++ b) = read_count a + read_count b.
Proof.
  induction a as [|e a IH]; simpl; [reflexivity|].
  destruct e; simpl; now rewrite ?IH.
Qed.

Lemma printed_app (a b : list event) :
  printed (a ++ b) = (printed a ++ printed b)%list.
Proof. apply filter_app. Qed.

Lemma device_writes_app (a b : list event) :
  device_writes (a ++ b) = (device_writes a ++ device_writes b)%list.
Proof. apply filter_app. Qed.

(** The list comprehension of [average]: never more than [n] queries; when
    it yields a list, exactly [n] queries, and the list holds the [n]
    readings, each divided by the stored scale factor. *)
Lemma comprehension_inv (n : nat) o w r o1 w1 evs :
  comprehension n scaled_read o w = (r, o1, w1, evs) ->
  o1 = o /\ printed evs = [] /\ device_writes evs = [] /\ read_count evs <= n /\
  forall data, r = Normal data ->
    read_count evs = n /\ length data = n /\ length (readings evs) = n /\
    forall c, conversion o = Some c ->
      data = map (fun raw => PrimFloat.div raw (float_of_pynum c)) (readings evs).
Proof.
  revert o w r o1 w1 evs.
  induction n as [|n IH]; intros o w r o1 w1 evs; simpl.
  - unfold ret. intros H; inversion H; subst; simpl.
    do 3 (split; [reflexivity|]). split; [lia|].
    intros data Hd; inversion Hd; subst; simpl.
    do 3 (split; [reflexivity|]). reflexivity.
  - unfold bind at 1.
    destruct (scaled_read o w) as [[[r0 o0] w0] evs0] eqn:SR.
    destruct (scaled_read_inv _ _ _ _ _ _ SR) as (-> & P0 & D0 & C0 & V0).
    destruct r0 as [x|e].
    + unfold bind at 1.
      destruct (comprehension n scaled_read o w0) as [[[r1 o2] w2] evs1] eqn:CR.
      destruct (IH _ _ _ _ _ _ CR) as (-> & P1 & D1 & C1 & V1).
      destruct (V0 x eq_refl) as (raw & c & Cv & -> & ->).
      destruct r1 as [xs|e]; unfold ret; simpl;
        intros H; inversion H; subst; clear H;
        rewrite ?app_nil_r; simpl;
        (split; [reflexivity|]); (split; [exact P1|]); (split; [exact D1|]).
      * destruct (V1 xs eq_refl) as (R1 & L1 & L2 & M1).
        split; [lia|]. intros data Hd; inversion Hd; subst; clear Hd. simpl.
        do 3 (split; [lia|]).
        intros c' Cv'. rewrite Cv in Cv'; inversion Cv'; subst.
        now rewrite <- (M1 c' Cv).
      * split; [lia|]. discriminate.
    + intros H; inversion H; subst; clear H.
      do 3 (split; [auto|]). split; [lia|]. discriminate.
Qed.

Lemma comprehension_ok o pm c w raws w1 :
  power_meter o = Some pm ->
  conversion o = Some c ->
  pynum_is_zero c = false ->
  read_run pm w raws w1 ->
  comprehension (length raws) scaled_read o w =
    (Normal (map (fun raw => PrimFloat.div raw (float_of_pynum c)) raws),
     o, w1, map (fun raw => Read (inr raw)) raws).
Proof.
  intros E C Z R. induction R as [w | w raw w1 raws w2 R1 R2 IH]; simpl.
  - reflexivity.
  - unfold bind at 1. rewrite (scaled_read_ok o w pm raw w1 c E R1 C Z).
    unfold bind at 1. rewrite IH. unfold ret. simpl.
    now rewrite app_nil_r.
Qed.

(** ** [average] and [measure] *)

Lemma average_inv o w r o1 w1 evs :
  average o w = (r, o1, w1, evs) ->
  o1 = o /\ device_writes evs = [] /\
  (forall N, n_averages o = Some N -> read_count evs <= Z.to_nat N) /\
  (verbose o = false -> printed evs = []) /\
  forall data, r = Normal data ->
    exists N,
      n_averages o = Some N /\
      read_count evs = Z.to_nat N /\
      length data = Z.to_nat N /\
      length (readings evs) = Z.to_nat N /\
      printed evs = (if verbose o then average_report data (unit o) else []) /\
      forall c, conversion o = Some c ->
        data = map (fun raw => PrimFloat.div raw (float_of_pynum c)) (readings evs).
Proof.
  unfold average. unfold bind at 1, getattr.
  destruct (n_averages o) as [N|] eqn:EN.
  - unfold bind at 1.
    destruct (comprehension (Z.to_nat N) scaled_read o w)
      as [[[r0 o0] w0] evs0] eqn:CR.
    destruct (comprehension_inv _ _ _ _ _ _ _ CR) as (-> & P0 & D0 & C0 & V0).
    destruct r0 as [data|e].
    + destruct (V0 data eq_refl) as (R1 & L1 & L2 & M1).
      unfold_py. unfold average_report.
      destruct (verbose o) eqn:EV; simpl;
        intros H; inversion H; subst; clear H;
        rewrite ?app_nil_r, ?printed_app, ?device_writes_app, ?read_count_app,
          ?readings_app, ?P0, ?D0; simpl;
        rewrite ?app_nil_r, ?Nat.add_0_r;
        (split; [reflexivity|]); (split; [reflexivity|]);
        (split; [intros N' HN'; inversion HN'; subst; lia|]);
        (split; [congruence|]);
        intros data' Hd; inversion Hd; subst; exists N; auto 10.
    + intros H; inversion H; subst; clear H. simpl.
      split; [reflexivity|]. split; [exact D0|].
      split; [intros N' HN'; inversion HN'; subst; simpl; lia|].
      split; [auto|]. discriminate.
  - intros H; inversion H; subst; clear H. simpl.
    do 2 (split; [reflexivity|]). split; [discriminate|].
    split; [reflexivity|]. discriminate.
Qed.

Lemma average_ok o pm c N w raws w1 :
  power_meter o = Some pm ->
  conversion o = Some c ->
  pynum_is_zero c = false ->
  n_averages o = Some N ->
  read_run pm w raws w1 ->
  length raws = Z.to_nat N ->
  average o w =
    (Normal (map (fun raw => PrimFloat.div raw (float_of_pynum c)) raws),
     o, w1,
     (map (fun raw => Read (inr raw)) raws
      ++ if verbose o
         then average_report
                (map (fun raw => PrimFloat.div raw (float_of_pynum c)) raws)
                (unit o)
         else [])%list).
Proof.
  intros E C Z EN R L. unfold average. unfold bind at 1, getattr. rewrite EN.
  unfold bind at 1. rewrite <- L.
  rewrite (comprehension_ok o pm c w raws w1 E C Z R).
  unfold_py. unfold average_report. destruct (verbose o); reflexivity.
Qed.

Lemma measure_inv (type : string) (sample_rate n : Z) o w r o1 w1 evs :
  measure type sample_rate n o w = (r, o1, w1, evs) ->
  unit_fields o1 = unit_fields o /\
  (String.eqb type "average" = true -> verbose o = false -> printed evs = []) /\
  forall x, r = Normal x ->
    o1 = set_n_averages n o /\
    if String.eqb type "average" then
      exists data,
        x = VArray data /\
        read_count evs = Z.to_nat n /\
        length data = Z.to_nat n /\
        printed evs = (if verbose o then average_report data (unit o) else []) /\
        forall c, conversion o = Some c ->
          data = map (fun raw => PrimFloat.div raw (float_of_pynum c))
                     (readings evs)
    else
      exists raw c,
        conversion o = Some c /\
        x = VFloat (PrimFloat.div raw (float_of_pynum c)) /\
        readings evs = [raw] /\ read_count evs = 1 /\
        printed evs =
          [single_report (PrimFloat.div raw (float_of_pynum c)) (unit o)].
Proof.
  unfold measure, set_samples.
  unfold bind at 1. unfold bind at 1, getattr.
  destruct (power_meter o) as [pm|] eqn:E;
    [|intros H; inversion H; subst; simpl;
      split; [reflexivity|]; split; [reflexivity|]; discriminate].
  unfold ext at 1.
  destruct (pm_set_average_count pm sample_rate w) as [[msg|[]] w2];
    [intros H; inversion H; subst; simpl;
      split; [reflexivity|]; split; [reflexivity|]; discriminate|].
  unfold bind at 1, setattr at 1. unfold bind at 1. simpl power_meter. rewrite E.
  unfold bind at 1, ext at 1.
  destruct (pm_configure_scalar_power pm w2) as [[msg|[]] w3];
    [intros H; inversion H; subst; simpl;
      split; [reflexivity|]; split; [reflexivity|]; discriminate|].
  destruct (String.eqb type "average").
  - unfold bind at 1.
    destruct (average (set_n_averages n o) w3) as [[[r0 o0] w0] evs0] eqn:AV.
    destruct (average_inv _ _ _ _ _ _ AV) as (-> & D0 & C0 & Q0 & V0).
    destruct r0 as [data|e]; unfold ret;
      intros H; inversion H; subst; clear H; simpl;
      rewrite ?app_nil_r; (split; [reflexivity|]).
    + split; [intros _ Hv; now apply Q0|].
      intros x Hx; inversion Hx; subst; clear Hx. split; [reflexivity|].
      destruct (V0 data eq_refl) as (N & EN & R1 & L1 & L2 & P1 & M1).
      simpl in EN; inversion EN; subst. exists data. auto 10.
    + split; [intros _ Hv; now apply Q0|]. discriminate.
  - unfold bind at 1.
    destruct (scaled_read (set_n_averages n o) w3) as [[[r0 o0] w0] evs0] eqn:SR.
    destruct (scaled_read_inv _ _ _ _ _ _ SR) as (-> & P0 & D0 & C0 & V0).
    destruct r0 as [x|e]; unfold_py;
      intros H; inversion H; subst; clear H; simpl;
      (split; [reflexivity|]); (split; [discriminate|]); [|discriminate].
    intros x' Hx; inversion Hx; subst; clear Hx. split; [reflexivity|].
    destruct (V0 x eq_refl) as (raw & c & Cv & -> & ->).
    exists raw, c. simpl in Cv. auto 10.
Qed.

Lemma measure_single_ok (type : string) (sample_rate n : Z) o w pm w1 w2 raw w3 c :
  String.eqb type "average" = false ->
  power_meter o = Some pm ->
  pm_set_average_count pm sample_rate w = (inr tt, w1) ->
  pm_configure_scalar_power pm w1 = (inr tt, w2) ->
  pm_read pm w2 = (inr raw, w3) ->
  conversion o = Some c ->
  pynum_is_zero c = false ->
  measure type sample_rate n o w =
    (Normal (VFloat (PrimFloat.div raw (float_of_pynum c))),
     set_n_averages n o, w3,
     [SetAverageCount sample_rate; ConfigureScalarPower; Read (inr raw);
      single_report (PrimFloat.div raw (float_of_pynum c)) (unit o)]).
Proof.
  intros T E S P R C Z. unfold measure, set_samples, scaled_read; unfold_py.
  repeat (rewrite ?E, ?S, ?P, ?T, ?R, ?C, ?Z; simpl). reflexivity.
Qed.

Lemma measure_average_ok (sample_rate N : Z) o w pm w1 w2 raws w3 c :
  power_meter o = Some pm ->
  pm_set_average_count pm sample_rate w = (inr tt, w1) ->
  pm_configure_scalar_power pm w1 = (inr tt, w2) ->
  read_run pm w2 raws w3 ->
  length raws = Z.to_nat N ->
  conversion o = Some c ->
  pynum_is_zero c = false ->
  measure "average" sample_rate N o w =
    (Normal (VArray (map (fun raw => PrimFloat.div raw (float_of_pynum c)) raws)),
     set_n_averages N o, w3,
     (SetAverageCount sample_rate :: ConfigureScalarPower
      :: map (fun raw => Read (inr raw)) raws
      ++ if verbose o
         then average_report
                (map (fun raw => PrimFloat.div raw (float_of_pynum c)) raws)
                (unit o)
         else [])%list).
Proof.
  intros E S P R L C Z. unfold measure, set_samples.
  unfold bind at 1. unfold bind at 1, getattr. rewrite E. unfold ext at 1.
  rewrite S. unfold bind at 1, setattr at 1. unfold bind at 1.
  simpl power_meter. rewrite E. unfold bind at 1, ext at 1. rewrite P.
  rewrite String.eqb_refl. unfold bind at 1.
  rewrite (average_ok (set_n_averages N o) pm c N w2 raws w3); auto.
  unfold ret. simpl. now rewrite app_nil_r.
Qed.

Lemma unit_types_scales (u : string) (c : pynum) :
  dict_get u unit_types = Some c ->
  In (u, float_of_pynum c)
     [("nW", 1e-9); ("uW", 1e-6); ("mW", 1e-3); ("W", 1); ("dBm", 1)]%float /\
  pynum_is_zero c = false.
Proof.
  cbv [dict_get unit_types].
  destruct (String.eqb_spec u "nW");
    [intros H; inversion H; subst; split; [simpl; auto | reflexivity]|].
  destruct (String.eqb_spec u "uW");
    [intros H; inversion H; subst; split; [simpl; auto | reflexivity]|].
  destruct (String.eqb_spec u "mW");
    [intros H; inversion H; subst; split; [simpl; auto | reflexivity]|].
  destruct (String.eqb_spec u "W");
    [intros H; inversion H; subst; split; [simpl; auto 6 | reflexivity]|].
  destruct (String.eqb_spec u "dBm");
    [intros H; inversion H; subst; split; [simpl; auto 6 | reflexivity]|].
  discriminate.
Qed.

(** ** [initialise] *)

(** What the selection at the head of [initialise] does in each case. *)
Lemma select_device_given (d : string) o w :
  select_device (Some d) o w = (Normal tt, set_device d o, w, []).
Proof. reflexivity. Qed.

Lemma select_device_none o w :
  devices o = [] ->
  select_device None o w = (Raised (SystemExit "Could not find device"), o, w, []).
Proof. intros E. unfold select_device; unfold_py. rewrite E. reflexivity. Qed.

Lemma select_device_only (d : string) o w :
  devices o = [d] ->
  select_device None o w = (Normal tt, set_device d o, w, []).
Proof. intros E. unfold select_device; unfold_py. rewrite E. reflexivity. Qed.

Lemma select_device_many o w :
  2 <= length (devices o) ->
  select_device None o w =
    match input device_prompt w with
    | (inr typed, w0) =>
        (Normal tt, set_device typed o, w0,
         [Console ("Found the following devices: " ++ newline ++ " "
                 ++ repr_tuple (devices o));
          Sleep; Input device_prompt])
    | (inl msg, w0) =>
        (Raised (ExtError msg), o, w0,
         [Console ("Found the following devices: " ++ newline ++ " "
                 ++ repr_tuple (devices o));
          Sleep; Input device_prompt])
    end.
Proof.
  intros L. unfold select_device; unfold_py.
  destruct (devices o) as [|a [|b l]]; simpl in L; try lia.
  simpl. destruct (input device_prompt w) as [[msg|typed] w0]; reflexivity.
Qed.

(** The selection raises nothing but the [SystemExit] of the empty list or
    an exception of the prompt, and assigns nothing but [device]. *)
Lemma select_device_inv (dev : option string) o w r o0 w0 evs0 :
  select_device dev o w = (r, o0, w0, evs0) ->
  inst o0 = inst o /\ power_meter o0 = power_meter o /\
  unit_fields o0 = unit_fields o /\
  (forall p, In (Input p) evs0 -> dev = None /\ 2 <= length (devices o)) /\
  (r = Normal tt -> exists d, device o0 = Some d) /\
  (forall e, r = Raised e ->
     (is_Exception e = true /\ o0 = o) \/
     (e = SystemExit "Could not find device" /\ dev = None /\ devices o = []
      /\ o0 = o /\ w0 = w /\ evs0 = [])).
Proof.
  destruct dev as [d|].
  - rewrite select_device_given. intros H; inversion H; subst; simpl.
    do 3 (split; [reflexivity|]). split; [intros p []|].
    split; [eauto|discriminate].
  - destruct (devices o) as [|a [|b l]] eqn:E.
    + rewrite (select_device_none o w E). intros H; inversion H; subst.
      do 3 (split; [reflexivity|]). split; [intros p []|].
      split; [discriminate|]. intros e He; inversion He; subst. right; auto 10.
    + rewrite (select_device_only a o w E). intros H; inversion H; subst; simpl.
      do 3 (split; [reflexivity|]). split; [intros p []|].
      split; [eauto|discriminate].
    + rewrite select_device_many by (rewrite E; simpl; lia).
      destruct (input device_prompt w) as [[msg|typed] w1];
        intros H; inversion H; subst; simpl;
        (do 3 (split; [reflexivity|]));
        (split; [intros p _; split; [reflexivity | lia]|]).
      * split; [discriminate|]. intros e He; inversion He; subst. left; auto.
      * split; [eauto|discriminate].
Qed.

(** The body of [initialise] after a selection that went through. *)
Lemma initialise_after_select (dev : option string) o w o0 w0 evs0 d :
  select_device dev o w = (Normal tt, o0, w0, evs0) ->
  device o0 = Some d ->
  initialise dev o w =
    match rm_open_resource d 2500 w0 with
    | (inl msg, w1) =>
        (Normal tt, o0, w1,
         (evs0 ++ [OpenResource d 2500;
                   Console ("Connection to device unsuccesful " ++ msg)])%list)
    | (inr h, w1) =>
        match ThorlabsPM100 h w1 with
        | (inl msg, w2) =>
            (Normal tt, set_inst h o0, w2,
             (evs0 ++ [OpenResource d 2500; WrapDriver;
                       Console ("Connection to device unsuccesful " ++ msg)])%list)
        | (inr pm, w2) =>
            (Normal tt, set_power_meter pm (set_inst h o0), w2,
             (evs0 ++ OpenResource d 2500 :: WrapDriver
                   :: if verbose o0
                      then [Console ("Connection to device " ++ d ++ " succesful!")]
                      else [])%list)
        end
    end.
Proof.
  intros S D. unfold initialise.
  unfold try_except, bind at 1. rewrite S.
  unfold bind at 1, getattr at 1. rewrite D.
  unfold bind at 1, ext at 1.
  destruct (rm_open_resource d 2500 w0) as [[msg|h] w1];
    [unfold print; simpl; now rewrite <- !app_assoc|].
  unfold_py. simpl.
  destruct (ThorlabsPM100 h w1) as [[msg|pm] w2];
    [simpl; now rewrite <- !app_assoc|].
  simpl. destruct (verbose o0); simpl; now rewrite <- ?app_assoc, ?app_nil_r.
Qed.

Lemma initialise_select_raised (dev : option string) o w e o0 w0 evs0 :
  select_device dev o w = (Raised e, o0, w0, evs0) ->
  initialise dev o w =
    if is_Exception e then
      (Normal tt, o0, w0,
       (evs0 ++ [Console ("Connection to device unsuccesful " ++ str_exn e)])%list)
    else (Raised e, o0, w0, evs0).
Proof.
  intros S. unfold initialise. unfold try_except, bind at 1. rewrite S.
  destruct (is_Exception e); reflexivity.
Qed.

Lemma initialise_outcome (dev : option string) o w r o1 w1 evs :
  initialise dev o w = (r, o1, w1, evs) ->
  unit_fields o1 = unit_fields o /\
  (r = Normal tt \/
   (r = Raised (SystemExit "Could not find device") /\ dev = None /\
    devices o = [])).
Proof.
  destruct (select_device dev o w) as [[[r0 o0] w0] evs0] eqn:S.
  destruct (select_device_inv _ _ _ _ _ _ _ S) as (_ & _ & U & _ & DV & EX).
  destruct r0 as [[]|e].
  - destruct (DV eq_refl) as [d D].
    rewrite (initialise_after_select dev o w o0 w0 evs0 d S D).
    destruct (rm_open_resource d 2500 w0) as [[msg|h] w2];
      [|destruct (ThorlabsPM100 h w2) as [[msg|pm] w3]];
      intros H; inversion H; subst; auto.
  - rewrite (initialise_select_raised dev o w e o0 w0 evs0 S).
    destruct (EX e eq_refl) as [[X ->] | (-> & -> & E & -> & -> & ->)].
    + rewrite X. intros H; inversion H; subst; auto.
    + simpl. intros H; inversion H; subst; auto.
Qed.

(** ** The unit attributes over the life of a controller *)

Lemma bind_ret_attrs {A B : Type} (c : M World Handle Meter A) (f : A -> B)
    o w r o1 w1 evs :
  bind c (fun x => ret (f x)) o w = (r, o1, w1, evs) ->
  exists r', c o w = (r', o1, w1, evs).
Proof.
  unfold bind, ret. destruct (c o w) as [[[r0 o0] w0] evs0].
  destruct r0; intros H; inversion H; subst; rewrite ?app_nil_r; eauto.
Qed.

Lemma close_attrs o w r o1 w1 evs :
  close o w = (r, o1, w1, evs) -> o1 = o.
Proof.
  unfold close; unfold_py.
  destruct (inst o) as [h|]; simpl;
    [destruct (inst_close h w) as [[msg|[]] w2]; simpl;
     [|destruct (verbose o); simpl; [destruct (device o); simpl|]]|];
    intros H; inversion H; reflexivity.
Qed.

Lemma auto_range_attrs (state : bool) o w r o1 w1 evs :
  auto_range state o w = (r, o1, w1, evs) -> o1 = o.
Proof.
  unfold auto_range; destruct state; unfold_py;
    (destruct (power_meter o) as [pm|]; simpl;
     [match goal with
      | |- context [pm_set_range_auto pm ?s w] =>
          destruct (pm_set_range_auto pm s w) as [[msg|[]] w2]
      end; simpl|]);
    intros H; inversion H; reflexivity.
Qed.

Lemma get_max_power_attrs o w r o1 w1 evs :
  get_max_power o w = (r, o1, w1, evs) -> o1 = o.
Proof.
  unfold get_max_power; unfold_py.
  destruct (power_meter o) as [pm|]; simpl;
    [destruct (pm_get_range_upper pm w) as [[msg|x] w2]; simpl|];
    intros H; inversion H; reflexivity.
Qed.

Lemma set_samples_attrs (n : Z) o w r o1 w1 evs :
  set_samples n o w = (r, o1, w1, evs) -> o1 = o.
Proof.
  unfold set_samples; unfold_py.
  destruct (power_meter o) as [pm|]; simpl;
    [destruct (pm_set_average_count pm n w) as [[msg|[]] w2]; simpl|];
    intros H; inversion H; reflexivity.
Qed.

Lemma set_wavelength_attrs (nm : pynum) o w r o1 w1 evs :
  set_wavelength nm o w = (r, o1, w1, evs) -> o1 = o.
Proof.
  unfold set_wavelength; unfold_py.
  destruct (power_meter o) as [pm|]; simpl;
    [destruct (pm_set_wavelength pm nm w) as [[msg|[]] w2]; simpl|];
    intros H; inversion H; reflexivity.
Qed.

Lemma set_bandwidth_attrs (state : string) o w r o1 w1 evs :
  set_bandwidth state o w = (r, o1, w1, evs) -> o1 = o.
Proof.
  unfold set_bandwidth.
  destruct (dict_mem state bandwidth); simpl;
    [|unfold print; intros H; inversion H; reflexivity].
  unfold_py.
  destruct (dict_get state bandwidth) as [v|]; simpl;
    [destruct (power_meter o) as [pm|]; simpl;
     [destruct (pm_set_lpass_state pm v w) as [[msg|[]] w2]; simpl|]|];
    intros H; inversion H; reflexivity.
Qed.

(** Every method but [set_units] leaves the unit symbol, the mode and the
    scale factor alone. *)
Lemma invoke_unit_fields (c : call) o w r o1 w1 evs :
  invoke c o w = (r, o1, w1, evs) ->
  (forall u, c <> SetUnits u) ->
  unit_fields o1 = unit_fields o.
Proof.
  intros H NS. destruct c; simpl in H;
    try (apply bind_ret_attrs in H; destruct H as [r' H]).
  - now rewrite (close_attrs _ _ _ _ _ _ H).
  - now apply initialise_outcome in H.
  - now destruct (average_inv _ _ _ _ _ _ H) as (-> & _).
  - now rewrite (auto_range_attrs _ _ _ _ _ _ _ H).
  - now rewrite (get_max_power_attrs _ _ _ _ _ _ H).
  - now apply measure_inv in H.
  - now rewrite (set_bandwidth_attrs _ _ _ _ _ _ _ H).
  - now rewrite (set_samples_attrs _ _ _ _ _ _ _ H).
  - now elim (NS u).
  - now rewrite (set_wavelength_attrs _ _ _ _ _ _ _ H).
Qed.

(** What [set_units] keeps true, however it ends. *)
Lemma set_units_invariant (u : option string) o w r o1 w1 evs :
  set_units u o w = (r, o1, w1, evs) ->
  (dict_mem (unit o1) unit_types = true -> mode_consistent o1) /\
  (scale_from_table o -> scale_from_table o1).
Proof.
  intros H.
  destruct (selected_total u o w)
    as [(cur & w0 & evs0 & S) | (V & msg & w0 & I)].
  - rewrite (set_units_head u o w cur w0 evs0 S) in H.
    destruct (push_unit_cases (with_units cur (conversion o) o) w0
                (native_mode cur) eq_refl)
      as (o2 & w2 & evs2 & R & _ & U & UM & _ & CV & _).
    rewrite R in H; inversion H; subst; clear H.
    simpl in U, CV. split.
    + intros _ m Hm. rewrite UM in Hm; inversion Hm. now rewrite U.
    + intros T c Hc. destruct CV as [CV | (c' & D & CV)].
      * apply T. now rewrite <- CV.
      * rewrite CV in Hc; inversion Hc; subst. eauto.
  - rewrite (set_units_prompt_raises u o w msg w0 V I) in H.
    inversion H; subst; clear H. simpl. split.
    + rewrite V. discriminate.
    + auto.
Qed.

Lemma reachable_units o :
  reachable o ->
  (dict_mem (unit o) unit_types = true -> mode_consistent o) /\
  scale_from_table o.
Proof.
  induction 1 as [vb w o w1 evs I | c o w r o1 w1 evs R [IH1 IH2] H].
  - unfold PM100_init in I.
    destruct (visa_ResourceManager w) as [[msg|[]] w0]; [discriminate I|].
    destruct (rm_list_resources w0) as [[msg|devs] w2];
      inversion I; subst; clear I.
    split; [intros _ m Hm | intros c Hc]; discriminate.
  - destruct c;
      try (assert (U : unit_fields o1 = unit_fields o)
             by (eapply invoke_unit_fields; [exact H | discriminate]);
           unfold unit_fields in U; inversion U as [[U1 U2 U3]];
           unfold mode_consistent, scale_from_table in *;
           rewrite U1, U2, U3; auto).
    simpl in H. apply bind_ret_attrs in H. destruct H as [r' H].
    apply set_units_invariant in H. tauto.
Qed.

(** ** The readings in the events of a successful run *)

Lemma readings_reads (raws : list float) :
  readings (map (fun raw => Read (inr raw)) raws) = raws.
Proof. induction raws as [|x l IH]; simpl; congruence. Qed.

Lemma readings_average_run (raws data : list float) (v : bool) (symbol : string) :
  readings (map (fun raw => Read (inr raw)) raws
            ++ if v then average_report data symbol else []) = raws.
Proof.
  rewrite readings_app, readings_reads.
  destruct v; simpl; now rewrite app_nil_r.
Qed.

(** ** The claims of the specification *)

(** C1. Let [u] be one of nW, uW, mW, W, dBm and let [set_units(u)]
    succeed, that is, the write of the mode to the meter goes through.
    Then the scale factor stored is the table's entry for [u] (1e-9, 1e-6,
    1e-3, 1 and 1); no later call other than [set_units] changes it; and
    as long as it is stored, every value that [measure] hands back for a
    single reading, and every entry of the array that [average] or
    [measure('average')] hands back, is the raw reading the meter
    delivered divided by that scale factor.  These values are handed
    back: when the meter answers, a single [measure] returns its one
    reading divided by the scale factor, and [average] and
    [measure('average')] return the array of all [n_averages] readings,
    each divided by the scale factor, in the order they were taken. *)
Theorem readings_scaled_by_unit (u : string) (c : pynum) o w pm w1 :
  dict_get u unit_types = Some c ->
  power_meter o = Some pm ->
  pm_set_unit pm (native_mode u) w = (inr tt, w1) ->
  In (u, float_of_pynum c)
     [("nW", 1e-9); ("uW", 1e-6); ("mW", 1e-3); ("W", 1); ("dBm", 1)]%float /\
  (exists o1 evs1,
     set_units (Some u) o w = (Normal tt, o1, w1, evs1) /\
     conversion o1 = Some c) /\
  (forall k o2 w2 r o3 w3 evs,
     invoke k o2 w2 = (r, o3, w3, evs) ->
     (forall u', k <> SetUnits u') ->
     conversion o3 = conversion o2) /\
  (forall o2,
     conversion o2 = Some c ->
     (forall type sample_rate n w2 x o3 w3 evs,
        String.eqb type "average" = false ->
        measure type sample_rate n o2 w2 = (Normal x, o3, w3, evs) ->
        exists raw,
          readings evs = [raw] /\
          x = VFloat (PrimFloat.div raw (float_of_pynum c))) /\
     (forall sample_rate n w2 x o3 w3 evs,
        measure "average" sample_rate n o2 w2 = (Normal x, o3, w3, evs) ->
        x = VArray (map (fun raw => PrimFloat.div raw (float_of_pynum c))
                        (readings evs))) /\
     (forall w2 data o3 w3 evs,
        average o2 w2 = (Normal data, o3, w3, evs) ->
        data = map (fun raw => PrimFloat.div raw (float_of_pynum c))
                   (readings evs))) /\
  (forall o2 pm2,
     conversion o2 = Some c ->
     power_meter o2 = Some pm2 ->
     (forall type sample_rate n w2 wa wb raw w3,
        String.eqb type "average" = false ->
        pm_set_average_count pm2 sample_rate w2 = (inr tt, wa) ->
        pm_configure_scalar_power pm2 wa = (inr tt, wb) ->
        pm_read pm2 wb = (inr raw, w3) ->
        exists o3 evs,
          measure type sample_rate n o2 w2 =
            (Normal (VFloat (PrimFloat.div raw (float_of_pynum c))),
             o3, w3, evs) /\
          readings evs = [raw]) /\
     (forall sample_rate N w2 wa wb raws w3,
        pm_set_average_count pm2 sample_rate w2 = (inr tt, wa) ->
        pm_configure_scalar_power pm2 wa = (inr tt, wb) ->
        read_run pm2 wb raws w3 ->
        length raws = Z.to_nat N ->
        exists o3 evs,
          measure "average" sample_rate N o2 w2 =
            (Normal (VArray (map (fun raw =>
                                    PrimFloat.div raw (float_of_pynum c)) raws)),
             o3, w3, evs) /\
          readings evs = raws) /\
     (forall N w2 raws w3,
        n_averages o2 = Some N ->
        read_run pm2 w2 raws w3 ->
        length raws = Z.to_nat N ->
        exists evs,
          average o2 w2 =
            (Normal (map (fun raw => PrimFloat.div raw (float_of_pynum c)) raws),
             o2, w3, evs) /\
          readings evs = raws)).
Proof.
  intros D E P.
  destruct (unit_types_scales u c D) as [T NZ].
  split; [exact T|].
  split; [|split; [|split]].
  - assert (V : dict_mem u unit_types = true) by (apply dict_mem_get; eauto).
    assert (S : selected (Some u) o w u w []).
    { rewrite <- (adopted_some u o V) at 2. constructor.
      now rewrite adopted_some. }
    rewrite (set_units_stored (Some u) o w u w [] pm w1 c S E P D).
    do 2 eexists; split; reflexivity.
  - intros k o2 w2 r o3 w3 evs H NS.
    pose proof (invoke_unit_fields k o2 w2 r o3 w3 evs H NS) as U.
    unfold unit_fields in U. congruence.
  - intros o2 C. split; [|split].
    + intros type sr n w2 x o3 w3 evs T' Hm.
      destruct (measure_inv _ _ _ _ _ _ _ _ _ Hm) as (_ & _ & V0).
      destruct (V0 x eq_refl) as (_ & V'). rewrite T' in V'.
      destruct V' as (raw & c' & C' & -> & R & _).
      rewrite C in C'; inversion C'; subst. eauto.
    + intros sr n w2 x o3 w3 evs Hm.
      destruct (measure_inv _ _ _ _ _ _ _ _ _ Hm) as (_ & _ & V0).
      destruct (V0 x eq_refl) as (_ & data & -> & _ & _ & _ & M).
      now rewrite (M c C).
    + intros w2 data o3 w3 evs A.
      destruct (average_inv _ _ _ _ _ _ A) as (_ & _ & _ & _ & V0).
      destruct (V0 data eq_refl) as (N & _ & _ & _ & _ & _ & M).
      now apply M.
  - intros o2 pm2 C E2. split; [|split].
    + intros type sr n w2 wa wb raw w3 T' S1 P1 R1.
      rewrite (measure_single_ok type sr n o2 w2 pm2 wa wb raw w3 c
                 T' E2 S1 P1 R1 C NZ).
      do 2 eexists; split; reflexivity.
    + intros sr N w2 wa wb raws w3 S1 P1 RR L.
      rewrite (measure_average_ok sr N o2 w2 pm2 wa wb raws w3 c
                 E2 S1 P1 RR L C NZ).
      do 2 eexists; split; [reflexivity|].
      simpl. apply readings_average_run.
    + intros N w2 raws w3 EN RR L.
      rewrite (average_ok o2 pm2 c N w2 raws w3 E2 C NZ EN RR L).
      eexists; split; [reflexivity|]. apply readings_average_run.
Qed.


(** C3 (amended).  [initialise()] without a device argument: with no
    device discovered it raises [SystemExit] at once, before any call to
    the resource manager; with exactly one it opens that one and never
    prompts; with more than one it prints the list, waits and prompts, and
    opens what the operator typed.  A failure to open the resource or to
    wrap it in the driver is caught and printed and [initialise] returns
    normally; it leaves [power_meter] as it was before the call, so a
    controller that had no driver still has none, and after a failed wrap
    the handle that was just opened is stored in [inst].  The only
    exception [initialise] ever lets through is that [SystemExit]. *)
Theorem initialise_selection_and_failure o w :
  (devices o = [] ->
   initialise None o w =
     (Raised (SystemExit "Could not find device"), o, w, [])) /\
  (forall d,
     devices o = [d] ->
     exists o1 w1 evs,
       initialise None o w = (Normal tt, o1, w1, OpenResource d 2500 :: evs) /\
       forall p, ~ In (Input p) evs) /\
  (2 <= length (devices o) ->
   exists o1 w1 evs,
     initialise None o w =
       (Normal tt, o1, w1,
        Console ("Found the following devices: " ++ newline ++ " "
               ++ repr_tuple (devices o))
        :: Sleep :: Input device_prompt :: evs) /\
     forall typed w0,
       input device_prompt w = (inr typed, w0) ->
       exists evs', evs = OpenResource typed 2500 :: evs') /\
  (forall dev o0 w0 evs0 d,
     select_device dev o w = (Normal tt, o0, w0, evs0) ->
     device o0 = Some d ->
     (forall msg w1,
        rm_open_resource d 2500 w0 = (inl msg, w1) ->
        exists o1 evs,
          initialise dev o w = (Normal tt, o1, w1, evs) /\
          In (Console ("Connection to device unsuccesful " ++ msg)) evs /\
          inst o1 = inst o /\ power_meter o1 = power_meter o) /\
     (forall h w1 msg w2,
        rm_open_resource d 2500 w0 = (inr h, w1) ->
        ThorlabsPM100 h w1 = (inl msg, w2) ->
        exists o1 evs,
          initialise dev o w = (Normal tt, o1, w2, evs) /\
          In (Console ("Connection to device unsuccesful " ++ msg)) evs /\
          inst o1 = Some h /\ power_meter o1 = power_meter o)) /\
  (forall dev r o1 w1 evs,
     initialise dev o w = (r, o1, w1, evs) ->
     r = Normal tt \/
     (r = Raised (SystemExit "Could not find device") /\ dev = None /\
      devices o = [])).
Proof.
  split; [|split; [|split; [|split]]].
  - intros E.
    now rewrite (initialise_select_raised None o w _ o w [] (select_device_none o w E)).
  - intros d E.
    rewrite (initialise_after_select None o w (set_device d o) w [] d
               (select_device_only d o w E) eq_refl).
    destruct (rm_open_resource d 2500 w) as [[msg|h] w1];
      [|destruct (ThorlabsPM100 h w1) as [[msg|pm] w2];
        [|destruct (verbose (set_device d o))]];
      simpl; do 3 eexists; (split; [reflexivity|]);
      intros p I; simpl in I; intuition discriminate.
  - intros L.
    pose proof (select_device_many o w L) as S.
    destruct (input device_prompt w) as [[msg|typed] w0] eqn:I.
    + rewrite (initialise_select_raised None o w _ _ _ _ S). simpl.
      do 3 eexists; split; [reflexivity|]. intros typed w0' H; discriminate H.
    + rewrite (initialise_after_select None o w _ _ _ typed S eq_refl).
      destruct (rm_open_resource typed 2500 w0) as [[msg|h] w1];
        [|destruct (ThorlabsPM100 h w1) as [[msg|pm] w2]];
        simpl; do 3 eexists; (split; [reflexivity|]);
        intros typed' w0' H; inversion H; subst; eauto.
  - intros dev o0 w0 evs0 d S D.
    destruct (select_device_inv _ _ _ _ _ _ _ S) as (I0 & P0 & _).
    split.
    + intros msg w1 O.
      rewrite (initialise_after_select dev o w o0 w0 evs0 d S D), O.
      do 2 eexists; split; [reflexivity|].
      split; [apply in_or_app; right; simpl; auto | auto].
    + intros h w1 msg w2 O W.
      rewrite (initialise_after_select dev o w o0 w0 evs0 d S D), O, W.
      do 2 eexists; split; [reflexivity|].
      split; [apply in_or_app; right; simpl; auto | auto].
  - intros dev r o1 w1 evs H. now apply initialise_outcome in H.
Qed.

(** C4 (amended). When the write of the native mode to the meter fails in
    [set_units], the call returns normally, the failure is printed and the
    stored scale factor is the one from before the call; the stored unit
    symbol and the stored native mode are those of the symbol the call
    settled on, since both are assigned before the write is tried. *)
Theorem set_units_failed_write (u : option string) o w cur w0 evs0 pm msg w1 :
  selected u o w cur w0 evs0 ->
  power_meter o = Some pm ->
  pm_set_unit pm (native_mode cur) w0 = (inl msg, w1) ->
  exists o1 evs,
    set_units u o w = (Normal tt, o1, w1, evs) /\
    In (Console ("Error changing unit type: " ++ msg)) evs /\
    conversion o1 = conversion o /\
    unit o1 = cur /\
    unit_to_measure o1 = Some (native_mode cur).
Proof.
  intros S E P.
  rewrite (set_units_write_failed u o w cur w0 evs0 pm msg w1 S E P).
  do 2 eexists; split; [reflexivity|].
  split; [|now repeat split].
  apply in_or_app; right; simpl; auto.
Qed.

(** C5. For every unit symbol of the table given to [set_units] on a
    controller that holds a driver, exactly one setting is written to the
    meter: its unit, with the value ['DBM'] when the symbol is dBm and
    with ['W'] (linear power) for every other symbol. *)
Theorem set_units_pushes_native_mode (u : string) o w pm :
  dict_mem u unit_types = true ->
  power_meter o = Some pm ->
  exists o1 evs,
    set_units (Some u) o w =
      (Normal tt, o1, snd (pm_set_unit pm (native_mode u) w), evs) /\
    device_writes evs = [SetUnit (native_mode u)] /\
    (u = "dBm" -> native_mode u = "DBM") /\
    (u <> "dBm" -> native_mode u = "W").
Proof.
  intros V E.
  assert (S : selected (Some u) o w u w []).
  { rewrite <- (adopted_some u o V) at 2. constructor.
    now rewrite adopted_some. }
  rewrite (set_units_head _ o w u w [] S).
  destruct (push_unit_cases (with_units u (conversion o) o) w (native_mode u)
              eq_refl) as (o1 & w1 & evs & R & _ & _ & _ & _ & _ & W).
  destruct (W pm E) as [W1 W2]. rewrite R. simpl.
  exists o1, evs. subst w1.
  split; [reflexivity|]. split; [exact W2|]. apply native_mode_cases.
Qed.

(** C6. [close] never raises: whatever the attributes of the controller
    and the state of the world, it returns normally and leaves the
    attributes as they were.  When no handle is stored (as on a controller
    just constructed, or after an [initialise] that could not open the
    resource), and when releasing the stored handle raises, the exception
    is caught and "No device connected!" is printed. *)
Theorem close_never_raises o w :
  (exists w1 evs, close o w = (Normal tt, o, w1, evs)) /\
  (inst o = None ->
   close o w = (Normal tt, o, w, [Console "No device connected!"])) /\
  (forall h msg w1,
     inst o = Some h -> inst_close h w = (inl msg, w1) ->
     close o w = (Normal tt, o, w1, [CloseHandle; Console "No device connected!"])) /\
  (forall h w1 d,
     inst o = Some h -> inst_close h w = (inr tt, w1) -> device o = Some d ->
     close o w =
       (Normal tt, o, w1,
        CloseHandle ::
          if verbose o then [Console ("Connection to device " ++ d ++ " ended")]
          else [])) /\
  (forall vb w0 o' w1 evs,
     PM100_init vb w0 = (Normal o', w1, evs) ->
     close o' w = (Normal tt, o', w, [Console "No device connected!"])).
Proof.
  unfold close; unfold_py.
  split; [|split; [|split; [|split]]].
  - destruct (inst o) as [h|]; simpl; [|eauto].
    destruct (inst_close h w) as [[msg|[]] w1]; simpl; [eauto|].
    destruct (verbose o); simpl; [|eauto].
    destruct (device o); simpl; eauto.
  - intros E; rewrite E; reflexivity.
  - intros h msg w1 E1 E2; rewrite E1, E2; reflexivity.
  - intros h w1 d E1 E2 E3; rewrite E1, E2; simpl.
    destruct (verbose o); simpl; [rewrite E3|]; reflexivity.
  - intros vb w0 o' w1 evs I. unfold PM100_init in I.
    destruct (visa_ResourceManager w0) as [[msg|[]] w2]; [discriminate I|].
    destruct (rm_list_resources w2) as [[msg|devs] w3];
      inversion I; subst; reflexivity.
Qed.

(** C7. Let [n_averages] be N >= 1.  Whenever [average] returns, it has
    queried the meter exactly N times and its array has N entries; when
    verbose, the two lines it prints are the mean and the standard
    deviation of that same array, each rounded to 2 decimals (and nothing
    is printed otherwise).  It never queries more than N times, and it
    does return when the meter answers N queries and a non-zero scale
    factor is stored.  [measure('average', n_averages=N)] stores N and
    hands back what [average] returns. *)
Theorem average_reads_and_reports (N : Z) :
  (1 <= N)%Z ->
  (forall o w,
     n_averages o = Some N ->
     (forall data o1 w1 evs,
        average o w = (Normal data, o1, w1, evs) ->
        Z.of_nat (read_count evs) = N /\
        Z.of_nat (length data) = N /\
        printed evs = if verbose o then average_report data (unit o) else []) /\
     (forall r o1 w1 evs,
        average o w = (r, o1, w1, evs) -> (Z.of_nat (read_count evs) <= N)%Z) /\
     (forall pm c raws w1,
        power_meter o = Some pm -> conversion o = Some c ->
        pynum_is_zero c = false ->
        read_run pm w raws w1 -> Z.of_nat (length raws) = N ->
        exists evs,
          average o w =
            (Normal (map (fun raw => PrimFloat.div raw (float_of_pynum c)) raws),
             o, w1, evs) /\
          readings evs = raws)) /\
  (forall sample_rate o w x o1 w1 evs,
     measure "average" sample_rate N o w = (Normal x, o1, w1, evs) ->
     n_averages o1 = Some N /\
     exists data,
       x = VArray data /\
       Z.of_nat (read_count evs) = N /\
       Z.of_nat (length data) = N /\
       printed evs = if verbose o then average_report data (unit o) else []).
Proof.
  intros HN. split.
  - intros o w EN. split; [|split].
    + intros data o1 w1 evs A.
      destruct (average_inv _ _ _ _ _ _ A) as (_ & _ & _ & _ & V).
      destruct (V data eq_refl) as (N' & EN' & R & L & _ & P & _).
      rewrite EN in EN'; inversion EN'; subst N'.
      rewrite R, L, Z2Nat.id by lia. auto.
    + intros r o1 w1 evs A.
      destruct (average_inv _ _ _ _ _ _ A) as (_ & _ & C & _).
      specialize (C N EN). lia.
    + intros pm c raws w1 E C Z R L.
      rewrite (average_ok o pm c N w raws w1 E C Z EN R) by lia.
      eexists; split; [reflexivity|].
      rewrite readings_app.
      assert (NR : readings (if verbose o
                             then average_report
                                    (map (fun raw => PrimFloat.div raw (float_of_pynum c)) raws)
                                    (unit o)
                             else []) = []) by (destruct (verbose o); reflexivity).
      rewrite NR, app_nil_r. clear. induction raws; simpl; congruence.
  - intros sr o w x o1 w1 evs Hm.
    destruct (measure_inv _ _ _ _ _ _ _ _ _ Hm) as (_ & _ & V).
    destruct (V x eq_refl) as (-> & data & -> & R & L & P & _).
    split; [reflexivity|]. exists data.
    rewrite R, L, Z2Nat.id by lia. auto.
Qed.

(** C8. When the symbol [set_units] starts from is not in the table, the
    operator is prompted once and what is typed becomes the stored symbol
    without a second look at the table: no further prompt follows.  If
    the typed symbol is not in the table either and the write of the mode
    (['W'], as for every symbol but dBm) succeeds, the symbol is used as
    the key of the scale table all the same: the lookup raises [KeyError],
    which is caught and printed, and the scale factor stays as it was. *)
Theorem set_units_single_prompt (u : option string) o w typed w0 :
  dict_mem (adopted u o) unit_types = false ->
  input unit_prompt w = (inr typed, w0) ->
  (exists o1 w1 evs,
     set_units u o w = (Normal tt, o1, w1, Input unit_prompt :: evs) /\
     (forall p, ~ In (Input p) evs) /\
     unit o1 = typed) /\
  (dict_mem typed unit_types = false ->
   forall pm w1,
     power_meter o = Some pm ->
     pm_set_unit pm "W" w0 = (inr tt, w1) ->
     set_units u o w =
       (Normal tt, with_units typed (conversion o) o, w1,
        [Input unit_prompt; SetUnit "W";
         Console ("Error changing unit type: " ++ str_exn (KeyError typed))])).
Proof.
  intros V I.
  assert (S : selected u o w typed w0 [Input unit_prompt]) by now constructor.
  split.
  - rewrite (set_units_head u o w typed w0 _ S).
    destruct (push_unit_cases (with_units typed (conversion o) o) w0
                (native_mode typed) eq_refl)
      as (o1 & w1 & evs & R & NI & U1 & _).
    rewrite R. exists o1, w1, evs. simpl. auto.
  - intros V' pm w1 E P.
    assert (N : native_mode typed = "W").
    { apply native_mode_cases. intros ->. discriminate V'. }
    rewrite <- N in P.
    rewrite (set_units_key_error u o w typed w0 _ pm w1 S E P).
    + rewrite N. reflexivity.
    + now apply dict_mem_none.
Qed.

(** C9. On a controller that holds a driver, [set_bandwidth('low')] writes
    1 to the low-pass filter state and [set_bandwidth('high')] writes 0,
    and that is the only write; for any other string nothing is written,
    the invalid-state message is printed and the call returns normally.
    No call of [set_bandwidth] raises. *)
Theorem set_bandwidth_writes o w :
  (forall pm,
     power_meter o = Some pm ->
     exists r evs,
       set_bandwidth "low" o w = (r, o, snd (pm_set_lpass_state pm 1 w), evs) /\
       device_writes evs = [SetLpassState 1]) /\
  (forall pm,
     power_meter o = Some pm ->
     exists r evs,
       set_bandwidth "high" o w = (r, o, snd (pm_set_lpass_state pm 0 w), evs) /\
       device_writes evs = [SetLpassState 0]) /\
  (forall s,
     s <> "low" -> s <> "high" ->
     set_bandwidth s o w =
       (Normal tt, o, w,
        [Console ("Invalid state '" ++ s
                ++ "'. Please enter either 'low' or 'high'")])) /\
  (forall s, exists w1 evs, set_bandwidth s o w = (Normal tt, o, w1, evs)).
Proof.
  split; [|split; [|split]].
  - intros pm E. unfold set_bandwidth; simpl; unfold_py. rewrite E.
    destruct (pm_set_lpass_state pm 1 w) as [[msg|[]] w1]; simpl; eauto.
  - intros pm E. unfold set_bandwidth; simpl; unfold_py. rewrite E.
    destruct (pm_set_lpass_state pm 0 w) as [[msg|[]] w1]; simpl; eauto.
  - intros s H1 H2. unfold set_bandwidth.
    destruct (dict_mem s bandwidth) eqn:E; [|reflexivity].
    apply bandwidth_keys in E; tauto.
  - intros s. unfold set_bandwidth.
    destruct (dict_mem s bandwidth) eqn:E; simpl; [|unfold print; eauto].
    apply bandwidth_keys in E.
    destruct E as [-> | ->]; simpl; unfold_py;
      (destruct (power_meter o) as [pm|]; simpl; [|eauto]);
      match goal with
      | |- context [pm_set_lpass_state pm ?v w] =>
          destruct (pm_set_lpass_state pm v w) as [[msg|[]] w1]
      end; simpl; eauto.
Qed.

(** C10. A single measurement prints its rounded reading whatever the
    verbose flag is: whenever [measure] with a type other than ['average']
    returns, exactly the "Power reading" line has been printed, and it does
    return when the meter answers.  [average] prints its two lines only
    when verbose: with [verbose = False] neither [average] nor
    [measure('average')] prints anything. *)
Theorem single_reading_printed_regardless o w :
  (forall type sample_rate n x o1 w1 evs,
     String.eqb type "average" = false ->
     measure type sample_rate n o w = (Normal x, o1, w1, evs) ->
     exists d, x = VFloat d /\ printed evs = [single_report d (unit o)]) /\
  (forall type sample_rate n pm w1 w2 raw w3 c,
     String.eqb type "average" = false ->
     power_meter o = Some pm ->
     pm_set_average_count pm sample_rate w = (inr tt, w1) ->
     pm_configure_scalar_power pm w1 = (inr tt, w2) ->
     pm_read pm w2 = (inr raw, w3) ->
     conversion o = Some c -> pynum_is_zero c = false ->
     exists d o1 evs,
       measure type sample_rate n o w = (Normal (VFloat d), o1, w3, evs) /\
       printed evs = [single_report d (unit o)]) /\
  (verbose o = false ->
   forall r o1 w1 evs, average o w = (r, o1, w1, evs) -> printed evs = []) /\
  (verbose o = false ->
   forall sample_rate n r o1 w1 evs,
     measure "average" sample_rate n o w = (r, o1, w1, evs) -> printed evs = []) /\
  (verbose o = true ->
   forall data o1 w1 evs,
     average o w = (Normal data, o1, w1, evs) ->
     printed evs = average_report data (unit o)).
Proof.
  split; [|split; [|split; [|split]]].
  - intros type sr n x o1 w1 evs T Hm.
    destruct (measure_inv _ _ _ _ _ _ _ _ _ Hm) as (_ & _ & V).
    destruct (V x eq_refl) as (_ & V'). rewrite T in V'.
    destruct V' as (raw & c & _ & -> & _ & _ & P). eauto.
  - intros type sr n pm w1 w2 raw w3 c T E S P R C Z.
    rewrite (measure_single_ok type sr n o w pm w1 w2 raw w3 c T E S P R C Z).
    do 3 eexists; split; reflexivity.
  - intros Q r o1 w1 evs A.
    destruct (average_inv _ _ _ _ _ _ A) as (_ & _ & _ & P & _). auto.
  - intros Q sr n r o1 w1 evs Hm.
    destruct (measure_inv _ _ _ _ _ _ _ _ _ Hm) as (_ & P & _). auto.
  - intros Q data o1 w1 evs A.
    destruct (average_inv _ _ _ _ _ _ A) as (_ & _ & _ & _ & V).
    destruct (V data eq_refl) as (N & _ & _ & _ & _ & P & _).
    now rewrite Q in P.
Qed.

End Properties.

(** * The properties at work on the scripted world *)

Import Mock.

Lemma calm_read_run (pm : string) (l : list float) :
  read_run pm (calm l) l (calm []).
Proof.
  induction l as [|x l IH]; [constructor|].
  now apply (read_run_cons pm (calm (x :: l)) x (calm l) l (calm [])).
Qed.

(** [close] on a controller that never connected, and on a connected one
    whose handle refuses to be released. *)
Lemma close_never_raises_witness :
  close (fresh true) (calm []) =
    (Normal tt, fresh true, calm [], [Console "No device connected!"]) /\
  close (connected true) (faulty [true]) =
    (Normal tt, connected true, faulty [],
     [CloseHandle; Console "No device connected!"]).
Proof.
  split.
  - apply (proj1 (proj2 (close_never_raises (fresh true) (calm [])))).
    reflexivity.
  - apply (proj1 (proj2 (proj2 (close_never_raises (connected true)
                                  (faulty [true]))))
             "USB0" "VI_ERROR_TMO" (faulty [])); reflexivity.
Defined.

(** ['low'] on a connected controller, and a state that is neither. *)
Lemma set_bandwidth_writes_witness :
  (exists r evs,
     set_bandwidth "low" (connected true) (calm []) =
       (r, connected true, calm [], evs) /\
     device_writes evs = [SetLpassState 1]) /\
  set_bandwidth "medium" (connected true) (calm []) =
    (Normal tt, connected true, calm [],
     [Console "Invalid state 'medium'. Please enter either 'low' or 'high'"]).
Proof.
  split.
  - exact (proj1 (set_bandwidth_writes (connected true) (calm [])) "USB0"
             eq_refl).
  - apply (proj1 (proj2 (proj2 (set_bandwidth_writes (connected true) (calm []))))
             "medium"); discriminate.
Defined.

(** [set_units('dBm')] on a connected controller. *)
Lemma set_units_pushes_native_mode_witness :
  exists o1 evs,
    set_units (Some "dBm") (connected true) (calm []) =
      (Normal tt, o1, calm [], evs) /\
    device_writes evs = [SetUnit "DBM"].
Proof.
  destruct (set_units_pushes_native_mode "dBm" (connected true) (calm []) "USB0"
              eq_refl eq_refl) as (o1 & evs & R & W & _).
  exists o1, evs. split; [exact R | exact W].
Defined.

(** After [set_units('mW')], a raw reading of 0.0025 W is handed back by
    a single measurement as 0.0025 / 1e-3, and three readings by
    [measure('average')] and by [average] as their quotients by 1e-3. *)
Lemma readings_scaled_by_unit_witness :
  let o1 := with_units "mW" (Some (PFloat 1e-3)) (connected true) in
  let raws := [0.0025; 0.0035; 0.005]%float in
  In ("mW", 1e-3%float)
     [("nW", 1e-9); ("uW", 1e-6); ("mW", 1e-3); ("W", 1); ("dBm", 1)]%float /\
  (exists o1' evs1,
     set_units (Some "mW") (connected true) (calm []) =
       (Normal tt, o1', calm [], evs1) /\
     conversion o1' = Some (PFloat 1e-3)) /\
  measure "single" 5 10 o1 (calm [0.0025%float]) =
    (Normal (VFloat 2.5), set_n_averages 10 o1, calm [],
     [SetAverageCount 5; ConfigureScalarPower; Read (inr 0.0025%float);
      Console "Power reading: 2.50mW"]) /\
  (exists raw,
     readings [SetAverageCount 5; ConfigureScalarPower;
               Read (inr 0.0025%float); Console "Power reading: 2.50mW"]
     = [raw] /\
     VFloat 2.5 = VFloat (PrimFloat.div raw 1e-3)) /\
  (exists o3 evs,
     measure "average" 5 3 o1 (calm raws) =
       (Normal (VArray [2.5; 3.5; 5]%float), o3, calm [], evs) /\
     readings evs = raws) /\
  (exists evs,
     average (set_n_averages 3 o1) (calm raws) =
       (Normal [2.5; 3.5; 5]%float, set_n_averages 3 o1, calm [], evs) /\
     readings evs = raws).
Proof.
  intros o1 raws.
  destruct (readings_scaled_by_unit (INS := instrument) (NUM := numerics)
              "mW" (PFloat 1e-3) (connected true)
              (calm []) "USB0" (calm []) eq_refl eq_refl eq_refl)
    as (T & S & _ & R & X).
  split; [exact T|]. split; [exact S|]. split; [reflexivity|].
  split; [|split].
  - exact (proj1 (R o1 eq_refl) "single" 5%Z 10%Z (calm [0.0025%float])
             (VFloat 2.5) _ _ _ eq_refl eq_refl).
  - exact (proj1 (proj2 (X o1 "USB0" eq_refl eq_refl))
             5%Z 3%Z (calm raws) (calm raws) (calm raws) raws (calm [])
             eq_refl eq_refl (calm_read_run "USB0" raws) eq_refl).
  - exact (proj2 (proj2 (X (set_n_averages 3 o1) "USB0" eq_refl eq_refl))
             3%Z (calm raws) raws (calm []) eq_refl
             (calm_read_run "USB0" raws) eq_refl).
Defined.

(** Three averages on a verbose controller in mW. *)
Lemma average_reads_and_reports_witness :
  let o :=
    set_n_averages 3 (with_units "mW" (Some (PFloat 1e-3)) (connected true)) in
  let data := [2.5; 3.5; 5]%float in
  let evs :=
    [Read (inr 0.0025%float); Read (inr 0.0035%float); Read (inr 0.005%float);
     Console "Average value : 3.67 mW"; Console "Standard Deviation : 1.03 mW"] in
  average o (calm [0.0025; 0.0035; 0.005]%float) = (Normal data, o, calm [], evs) /\
  Z.of_nat (read_count evs) = 3%Z /\
  Z.of_nat (length data) = 3%Z /\
  printed evs = average_report data "mW".
Proof.
  intros o data evs.
  assert (R : average o (calm [0.0025; 0.0035; 0.005]%float)
              = (Normal data, o, calm [], evs)) by reflexivity.
  split; [exact R|].
  exact (proj1 (proj1 (average_reads_and_reports (INS := instrument)
                         (NUM := numerics) 3 ltac:(lia)) o
                  (calm [0.0025; 0.0035; 0.005]%float) eq_refl)
           data o (calm []) evs R).
Defined.

(** A single measurement on a controller that is not verbose. *)
Lemma single_reading_printed_regardless_witness :
  let o := with_units "mW" (Some (PFloat 1e-3)) (connected false) in
  exists d,
    VFloat 2.5 = VFloat d /\
    printed [SetAverageCount 5; ConfigureScalarPower;
             Read (inr 0.0025%float); Console "Power reading: 2.50mW"]
    = [single_report d "mW"].
Proof.
  intros o.
  exact (proj1 (single_reading_printed_regardless (INS := instrument)
                  (NUM := numerics) o (calm [0.0025%float]))
           "single" 5%Z 10%Z (VFloat 2.5) _ _ _ eq_refl eq_refl).
Defined.

(** The operator answers the prompt with another symbol that is not in
    the table. *)
Lemma set_units_single_prompt_witness :
  set_units (Some "kW") (connected true) (typing ["MW"]) =
    (Normal tt, with_units "MW" None (connected true), typing [],
     [Input unit_prompt; SetUnit "W"; Console "Error changing unit type: 'MW'"]).
Proof.
  exact (proj2 (set_units_single_prompt (INS := instrument)
                  (Some "kW") (connected true)
                  (typing ["MW"]) "MW" (typing []) eq_refl eq_refl)
           eq_refl "USB0" (typing []) eq_refl eq_refl).
Defined.

(** A write that fails while switching from W to dBm. *)
Lemma set_units_failed_write_witness :
  let o := with_units "W" (Some (PInt 1)) (connected true) in
  exists o1 evs,
    set_units (Some "dBm") o (faulty [true]) = (Normal tt, o1, faulty [], evs) /\
    In (Console "Error changing unit type: VI_ERROR_TMO") evs /\
    conversion o1 = Some (PInt 1) /\
    unit o1 = "dBm" /\
    unit_to_measure o1 = Some "DBM".
Proof.
  intros o.
  exact (set_units_failed_write (INS := instrument)
           (Some "dBm") o (faulty [true]) "dBm"
           (faulty [true]) [] "USB0" "VI_ERROR_TMO" (faulty [])
           (selected_valid (Some "dBm") o (faulty [true]) eq_refl)
           eq_refl eq_refl).
Defined.

(** C4, as stated, fails: on a controller in W, a [set_units('dBm')] whose
    write to the meter fails leaves the scale factor alone but has already
    replaced the stored native mode ['W'] by ['DBM']. *)
Lemma set_units_failed_write_changes_mode :
  let o := with_units "W" (Some (PInt 1)) (connected true) in
  let o1 := with_units "dBm" (Some (PInt 1)) (connected true) in
  pm_set_unit "USB0" "DBM" (faulty [true]) = (inl "VI_ERROR_TMO", faulty []) /\
  set_units (Some "dBm") o (faulty [true]) =
    (Normal tt, o1, faulty [],
     [SetUnit "DBM"; Console "Error changing unit type: VI_ERROR_TMO"]) /\
  unit_to_measure o = Some "W" /\
  unit_to_measure o1 = Some "DBM" /\
  unit_to_measure o1 <> unit_to_measure o.
Proof.
  intros o o1. repeat split. discriminate.
Qed.

Lemma connected_reachable (verbose : bool) : reachable (connected verbose).
Proof.
  apply (reach_call (Initialise None) (fresh verbose) (calm []) (Normal VNone)
           (connected verbose) (calm [])
           (OpenResource "USB0" 2500 :: WrapDriver
            :: if verbose then [Console "Connection to device USB0 succesful!"]
               else [])).
  - now apply (reach_init verbose (calm []) (fresh verbose) (calm [])
                 [ResourceManager; ListResources]).
  - destruct verbose; reflexivity.
Qed.

(** [initialise()] with no device, with one, and with one that cannot be
    opened. *)
Lemma initialise_selection_and_failure_witness :
  initialise None (listing [] true) (calm []) =
    (Raised (SystemExit "Could not find device"), listing [] true, calm [], []) /\
  (exists o1 w1 evs,
     initialise None (fresh true) (calm []) =
       (Normal tt, o1, w1, OpenResource "USB0" 2500 :: evs) /\
     forall p, ~ In (Input p) evs) /\
  (exists o1 evs,
     initialise None (fresh true) (faulty [true]) = (Normal tt, o1, faulty [], evs) /\
     In (Console "Connection to device unsuccesful VI_ERROR_TMO") evs /\
     inst o1 = None /\ power_meter o1 = None).
Proof.
  split; [|split].
  - exact (proj1 (initialise_selection_and_failure (INS := instrument)
                    (listing [] true) (calm [])) eq_refl).
  - exact (proj1 (proj2 (initialise_selection_and_failure (INS := instrument)
                           (fresh true) (calm []))) "USB0" eq_refl).
  - exact (proj1 (proj1 (proj2 (proj2 (proj2
             (initialise_selection_and_failure (INS := instrument)
                (fresh true) (faulty [true])))))
             None (set_device "USB0" (fresh true)) (faulty [true]) [] "USB0"
             eq_refl eq_refl)
             "VI_ERROR_TMO" (faulty []) eq_refl).
Defined.

(** C3, as stated, fails in its last part: a failed [initialise] does not
    always leave the controller without a usable handle.  When the wrap
    fails on a fresh controller, the handle just opened stays stored and
    [close] releases it; when the open fails on a connected controller,
    the driver from the earlier connection stays and still answers. *)
Lemma initialise_failure_keeps_handle :
  let half := set_inst "USB0" (set_device "USB0" (fresh true)) in
  let other := set_device "USB1" (connected true) in
  (initialise None (fresh true) (faulty [false; true]) =
     (Normal tt, half, faulty [],
      [OpenResource "USB0" 2500; WrapDriver;
       Console "Connection to device unsuccesful VI_ERROR_TMO"]) /\
   inst half = Some "USB0" /\
   close half (calm []) =
     (Normal tt, half, calm [],
      [CloseHandle; Console "Connection to device USB0 ended"])) /\
  (reachable (connected true) /\
   initialise (Some "USB1") (connected true) (faulty [true]) =
     (Normal tt, other, faulty [],
      [OpenResource "USB1" 2500;
       Console "Connection to device unsuccesful VI_ERROR_TMO"]) /\
   inst other = Some "USB0" /\ power_meter other = Some "USB0" /\
   get_max_power other (calm []) = (Normal 1%float, other, calm [], [GetRangeUpper])).
Proof.
  intros half other. split.
  - repeat split.
  - split; [apply connected_reachable | repeat split].
Qed.



(** * Further properties of the methods *)

Section Further.

Context {World Handle Meter : Type}.
Context {NUM : Numerics} {INS : Instrument World Handle Meter}.

Implicit Types (o : PM100 Handle Meter) (w : World).

(** ** Footprints: events *)

Lemma bind_events {A B : Type} (P : event -> bool)
    (c : M World Handle Meter A) (k : A -> M World Handle Meter B) o w :
  forallb P (snd (c o w)) = true ->
  (forall a o1 w1, forallb P (snd (k a o1 w1)) = true) ->
  forallb P (snd (bind c k o w)) = true.
Proof.
  unfold bind. destruct (c o w) as [[[r o1] w1] evs1]. simpl. intros H K.
  destruct r as [a|e]; [|exact H].
  specialize (K a o1 w1). destruct (k a o1 w1) as [[[r2 o2] w2] evs2].
  simpl in *. rewrite forallb_app, H, K. reflexivity.
Qed.

Lemma try_except_events {A : Type} (P : event -> bool)
    (c : M World Handle Meter A) (h : exn -> M World Handle Meter A) o w :
  forallb P (snd (c o w)) = true ->
  (forall e o1 w1, forallb P (snd (h e o1 w1)) = true) ->
  forallb P (snd (try_except c h o w)) = true.
Proof.
  unfold try_except. destruct (c o w) as [[[r o1] w1] evs1]. simpl. intros H K.
  destruct r as [a|e]; [exact H|].
  destruct (is_Exception e); [|exact H].
  specialize (K e o1 w1). destruct (h e o1 w1) as [[[r2 o2] w2] evs2].
  simpl in *. rewrite forallb_app, H, K. reflexivity.
Qed.

Lemma comprehension_events {A : Type} (P : event -> bool)
    (body : M World Handle Meter A) (n : nat) :
  (forall o w, forallb P (snd (body o w)) = true) ->
  forall o w, forallb P (snd (comprehension n body o w)) = true.
Proof.
  intros H. induction n as [|n IH]; intros o w; simpl; [reflexivity|].
  apply bind_events; [apply H|]. intros a o1 w1.
  apply bind_events; [apply IH|]. reflexivity.
Qed.

(** Splits a method body along its binds and branches, down to the
    collaborator calls. *)
Ltac footprint :=
  repeat first
    [ apply bind_events; [|intros ? ? ?]
    | apply try_except_events; [|intros ? ? ?]
    | apply comprehension_events; intros ? ?
    | match goal with
      | |- context [match ?x with _ => _ end] => destruct x
      end
    | progress (unfold when, getattr, attr, setattr, ext, ext_read, print,
                sleep, ret, raise, truediv; simpl) ];
  rewrite ?Z.eqb_refl; try reflexivity.

Lemma invoke_events (c : call) o w :
  forallb (may_cause c) (snd (invoke c o w)) = true.
Proof.
  destruct c; unfold invoke.
  - unfold close. footprint.
  - unfold initialise, select_device. footprint.
  - unfold average, scaled_read. footprint.
  - unfold auto_range. footprint.
  - unfold get_max_power. footprint.
  - unfold measure, set_samples, average, scaled_read. footprint.
  - unfold set_bandwidth. footprint.
  - unfold set_samples. footprint.
  - unfold set_units, push_unit. footprint.
  - unfold set_wavelength. footprint.
Qed.


(** X1. The footprint of a call.  Every event of a call is one its method
    can cause ([may_cause]); in particular only [close] releases a handle,
    only [initialise] opens a resource (always with the timeout 2500) or
    wraps it in a driver, only [initialise] and [set_units] prompt the
    operator, and only [measure] and [average] query a reading. *)
Theorem call_footprint (c : call) o w r o1 w1 evs :
  invoke c o w = (r, o1, w1, evs) ->
  forallb (may_cause c) evs = true /\
  (In CloseHandle evs -> c = Close) /\
  (forall d t, In (OpenResource d t) evs ->
     t = 2500%Z /\ exists dev, c = Initialise dev) /\
  (In WrapDriver evs -> exists dev, c = Initialise dev) /\
  (forall p, In (Input p) evs ->
     (exists dev, c = Initialise dev) \/ (exists u, c = SetUnits u)) /\
  (forall a, In (Read a) evs ->
     c = Average \/ exists type sample_rate n, c = Measure type sample_rate n).
Proof.
  intros H. pose proof (invoke_events c o w) as F. rewrite H in F. simpl in F.
  split; [exact F|].
  rewrite forallb_forall in F.
  split; [|split; [|split; [|split]]].
  - intros I. specialize (F _ I). destruct c; try discriminate F. reflexivity.
  - intros d t I. specialize (F _ I). destruct c; try discriminate F.
    simpl in F. apply Z.eqb_eq in F. eauto.
  - intros I. specialize (F _ I). destruct c; try discriminate F. eauto.
  - intros p I. specialize (F _ I). destruct c; try discriminate F; eauto.
  - intros a I. specialize (F _ I). destruct c; try discriminate F; eauto.
Qed.

(** ** Footprints: attributes *)

Lemma select_device_frame (dev : option string) o w r o0 w0 evs0 :
  select_device dev o w = (r, o0, w0, evs0) ->
  o0 = o \/ exists d, o0 = set_device d o.
Proof.
  unfold select_device; unfold_py. destruct dev as [d|].
  - intros H; inversion H; eauto.
  - destruct (Nat.eqb (length (devices o)) 1);
      [intros H; inversion H; eauto|].
    destruct (Nat.ltb 1 (length (devices o))); simpl;
      [|intros H; inversion H; auto].
    destruct (input device_prompt w) as [[msg|typed] w2]; simpl;
      intros H; inversion H; eauto.
Qed.

Lemma initialise_frame (dev : option string) o w r o1 w1 evs :
  initialise dev o w = (r, o1, w1, evs) ->
  devices o1 = devices o /\ verbose o1 = verbose o /\
  n_averages o1 = n_averages o.
Proof.
  destruct (select_device dev o w) as [[[r0 o0] w0] evs0] eqn:S.
  destruct (select_device_inv _ _ _ _ _ _ _ S) as (_ & _ & _ & _ & DV & _).
  assert (F : devices o0 = devices o /\ verbose o0 = verbose o /\
              n_averages o0 = n_averages o).
  { destruct (select_device_frame _ _ _ _ _ _ _ S) as [-> | [d ->]]; auto. }
  destruct r0 as [[]|e].
  - destruct (DV eq_refl) as [d D].
    rewrite (initialise_after_select dev o w o0 w0 evs0 d S D).
    destruct (rm_open_resource d 2500 w0) as [[msg|h] w2];
      [|destruct (ThorlabsPM100 h w2) as [[msg|pm] w3]];
      intros H; inversion H; subst; exact F.
  - rewrite (initialise_select_raised dev o w e o0 w0 evs0 S).
    destruct (is_Exception e); intros H; inversion H; subst; exact F.
Qed.

Lemma push_unit_frame o w r o1 w1 evs :
  push_unit o w = (r, o1, w1, evs) ->
  o1 = o \/ exists c, o1 = set_conversion c o.
Proof.
  unfold push_unit; unfold_py.
  destruct (unit_to_measure o) as [m|]; simpl;
    [|intros H; inversion H; auto].
  destruct (power_meter o) as [pm|]; simpl;
    [|intros H; inversion H; auto].
  destruct (pm_set_unit pm m w) as [[msg|[]] w2]; simpl;
    [intros H; inversion H; auto|].
  destruct (dict_get (unit o) unit_types) as [c|]; simpl;
    [|intros H; inversion H; auto].
  destruct (verbose o); simpl; intros H; inversion H; eauto.
Qed.

Lemma set_units_frame (u : option string) o w r o1 w1 evs :
  set_units u o w = (r, o1, w1, evs) ->
  devices o1 = devices o /\ verbose o1 = verbose o /\
  n_averages o1 = n_averages o /\ link_fields o1 = link_fields o.
Proof.
  intros H.
  destruct (selected_total u o w)
    as [(cur & w0 & evs0 & S) | (V & msg & w0 & I)].
  - rewrite (set_units_head u o w cur w0 evs0 S) in H.
    destruct (push_unit (with_units cur (conversion o) o) w0)
      as [[[r2 o2] w2] evs2] eqn:P.
    inversion H; subst; clear H.
    destruct (push_unit_frame _ _ _ _ _ _ P) as [-> | [c ->]]; auto.
  - rewrite (set_units_prompt_raises u o w msg w0 V I) in H.
    inversion H; subst; auto.
Qed.

Lemma measure_frame (type : string) (sample_rate n : Z) o w r o1 w1 evs :
  measure type sample_rate n o w = (r, o1, w1, evs) ->
  o1 = o \/ o1 = set_n_averages n o.
Proof.
  unfold measure, set_samples.
  unfold bind at 1. unfold bind at 1, getattr.
  destruct (power_meter o) as [pm|] eqn:E;
    [|intros H; inversion H; auto].
  unfold ext at 1.
  destruct (pm_set_average_count pm sample_rate w) as [[msg|[]] w2];
    [intros H; inversion H; auto|].
  unfold bind at 1, setattr at 1. unfold bind at 1. simpl power_meter. rewrite E.
  unfold bind at 1, ext at 1.
  destruct (pm_configure_scalar_power pm w2) as [[msg|[]] w3];
    [intros H; inversion H; auto|].
  destruct (String.eqb type "average").
  - unfold bind at 1.
    destruct (average (set_n_averages n o) w3) as [[[r0 o0] w0] evs0] eqn:AV.
    destruct (average_inv _ _ _ _ _ _ AV) as (-> & _).
    destruct r0; unfold ret; intros H; inversion H; auto.
  - unfold bind at 1.
    destruct (scaled_read (set_n_averages n o) w3) as [[[r0 o0] w0] evs0] eqn:SR.
    destruct (scaled_read_inv _ _ _ _ _ _ SR) as (-> & _).
    destruct r0; unfold_py; intros H; inversion H; auto.
Qed.

Lemma invoke_links (c : call) o w r o1 w1 evs :
  invoke c o w = (r, o1, w1, evs) ->
  (forall dev, c <> Initialise dev) ->
  link_fields o1 = link_fields o.
Proof.
  intros H NI. destruct c; simpl in H;
    try (apply bind_ret_attrs in H; destruct H as [r' H]).
  - now rewrite (close_attrs _ _ _ _ _ _ H).
  - now elim (NI dev).
  - now destruct (average_inv _ _ _ _ _ _ H) as (-> & _).
  - now rewrite (auto_range_attrs _ _ _ _ _ _ _ H).
  - now rewrite (get_max_power_attrs _ _ _ _ _ _ H).
  - now destruct (measure_frame _ _ _ _ _ _ _ _ _ H) as [-> | ->].
  - now rewrite (set_bandwidth_attrs _ _ _ _ _ _ _ H).
  - now rewrite (set_samples_attrs _ _ _ _ _ _ _ H).
  - now destruct (set_units_frame _ _ _ _ _ _ _ H) as (_ & _ & _ & D).
  - now rewrite (set_wavelength_attrs _ _ _ _ _ _ _ H).
Qed.

(** X2. What a call can change.  No method changes the list of devices or
    the verbose flag; only [initialise] changes the device name, the
    handle or the driver (so [close] leaves all three in place); only
    [measure] changes [n_averages]. *)
Theorem call_attribute_frame (c : call) o w r o1 w1 evs :
  invoke c o w = (r, o1, w1, evs) ->
  devices o1 = devices o /\
  verbose o1 = verbose o /\
  ((forall dev, c <> Initialise dev) -> link_fields o1 = link_fields o) /\
  ((forall type sample_rate n, c <> Measure type sample_rate n) ->
   n_averages o1 = n_averages o).
Proof.
  intros H. destruct c; simpl in H;
    try (apply bind_ret_attrs in H; destruct H as [r' H]).
  - rewrite (close_attrs _ _ _ _ _ _ H). auto.
  - destruct (initialise_frame _ _ _ _ _ _ _ H) as (A & B & C).
    repeat split; auto. intros N. now elim (N dev).
  - destruct (average_inv _ _ _ _ _ _ H) as (-> & _). auto.
  - rewrite (auto_range_attrs _ _ _ _ _ _ _ H). auto.
  - rewrite (get_max_power_attrs _ _ _ _ _ _ H). auto.
  - destruct (measure_frame _ _ _ _ _ _ _ _ _ H) as [-> | ->];
      repeat split; auto.
    intros N. now elim (N type sample_rate n_avg).
  - rewrite (set_bandwidth_attrs _ _ _ _ _ _ _ H). auto.
  - rewrite (set_samples_attrs _ _ _ _ _ _ _ H). auto.
  - destruct (set_units_frame _ _ _ _ _ _ _ H) as (A & B & C & D). auto.
  - rewrite (set_wavelength_attrs _ _ _ _ _ _ _ H). auto.
Qed.


(** ** Connecting and disconnecting *)

(** X3. With a device argument [initialise] skips the discovery: whatever
    the list of devices holds, even nothing, it does not exit and does not
    prompt; it stores the argument as the device, tries to open exactly
    that resource and returns normally. *)
Theorem initialise_given_device (d : string) o w :
  exists o1 w1 evs,
    initialise (Some d) o w = (Normal tt, o1, w1, OpenResource d 2500 :: evs) /\
    device o1 = Some d /\
    (forall p, ~ In (Input p) evs) /\
    (forall d' t, ~ In (OpenResource d' t) evs).
Proof.
  rewrite (initialise_after_select (Some d) o w (set_device d o) w [] d
             (select_device_given d o w) eq_refl).
  destruct (rm_open_resource d 2500 w) as [[msg|h] w1];
    [|destruct (ThorlabsPM100 h w1) as [[msg|pm] w2];
      [|destruct (verbose (set_device d o))]];
    simpl; do 3 eexists; (split; [reflexivity|]); (split; [reflexivity|]);
    split; intros; simpl; intuition discriminate.
Qed.

(** X4. When several devices are listed and the prompt for one raises,
    [initialise] prints the failure and returns normally without trying
    to open anything; no attribute has changed. *)
Theorem initialise_prompt_failure o w msg w0 :
  2 <= length (devices o) ->
  input device_prompt w = (inl msg, w0) ->
  initialise None o w =
    (Normal tt, o, w0,
     [Console ("Found the following devices: " ++ newline ++ " "
               ++ repr_tuple (devices o));
      Sleep; Input device_prompt;
      Console ("Connection to device unsuccesful " ++ msg)]).
Proof.
  intros L I. pose proof (select_device_many o w L) as S. rewrite I in S.
  now rewrite (initialise_select_raised None o w _ _ _ _ S).
Qed.

(** X5. After a successful [initialise] the device name, the handle and
    the driver are stored.  A [close] then releases that very handle and,
    when verbose, prints the name of the device; it clears nothing, so the
    handle and the driver are still stored afterwards and a second
    [close] asks for the release of the same handle again. *)
Theorem initialise_then_close (dev : option string) o w o0 w0 evs0 d h w1 pm w2 :
  select_device dev o w = (Normal tt, o0, w0, evs0) ->
  device o0 = Some d ->
  rm_open_resource d 2500 w0 = (inr h, w1) ->
  ThorlabsPM100 h w1 = (inr pm, w2) ->
  exists o1 evs,
    initialise dev o w = (Normal tt, o1, w2, evs) /\
    link_fields o1 = (Some d, Some h, Some pm) /\
    forall w3 w4,
      inst_close h w3 = (inr tt, w4) ->
      close o1 w3 =
        (Normal tt, o1, w4,
         CloseHandle ::
           if verbose o
           then [Console ("Connection to device " ++ d ++ " ended")]
           else []) /\
      forall w5, exists evs', close o1 w5 =
        (Normal tt, o1, snd (inst_close h w5), CloseHandle :: evs').
Proof.
  intros S D O W.
  rewrite (initialise_after_select dev o w o0 w0 evs0 d S D), O, W.
  assert (V : verbose o0 = verbose o)
    by (destruct (select_device_frame _ _ _ _ _ _ _ S) as [-> | [d' ->]];
        reflexivity).
  do 2 eexists; split; [reflexivity|].
  split; [unfold link_fields; simpl; now rewrite D|].
  intros w3 w4 C. split.
  - unfold close; unfold_py; simpl. rewrite C. simpl. rewrite V.
    destruct (verbose o); simpl; [rewrite D|]; reflexivity.
  - intros w5. unfold close; unfold_py; simpl.
    destruct (inst_close h w5) as [[m|[]] w6]; simpl; [eauto|].
    destruct (verbose o0); simpl; [rewrite D|]; simpl; eauto.
Qed.

Lemma initialise_links (dev : option string) o w r o1 w1 evs :
  initialise dev o w = (r, o1, w1, evs) ->
  link_fields o1 = link_fields o \/
  (exists d, link_fields o1 = (Some d, inst o, power_meter o)) \/
  (exists d h, link_fields o1 = (Some d, Some h, power_meter o)) \/
  (exists d h pm, link_fields o1 = (Some d, Some h, Some pm)).
Proof.
  destruct (select_device dev o w) as [[[r0 o0] w0] evs0] eqn:S.
  destruct (select_device_inv _ _ _ _ _ _ _ S) as (I0 & P0 & _ & _ & DV & EX).
  destruct r0 as [[]|e].
  - destruct (DV eq_refl) as [d D].
    rewrite (initialise_after_select dev o w o0 w0 evs0 d S D).
    destruct (rm_open_resource d 2500 w0) as [[msg|h] w2];
      [|destruct (ThorlabsPM100 h w2) as [[msg|pm] w3]];
      intros H; inversion H; subst; unfold link_fields; simpl;
      rewrite ?D, ?I0, ?P0; eauto 10.
  - rewrite (initialise_select_raised dev o w e o0 w0 evs0 S).
    destruct (EX e eq_refl) as [[X ->] | (-> & -> & E & -> & -> & ->)].
    + rewrite X. intros H; inversion H; subst; auto.
    + simpl. intros H; inversion H; subst; auto.
Qed.

(** X6. In every reachable state a stored driver comes with a stored
    handle, and a stored handle with a stored device name.  So on a
    reachable controller a [close] whose release goes through never ends
    in the "No device connected!" branch: it prints the name of the
    device when verbose and nothing otherwise. *)
Theorem reachable_links o :
  reachable o ->
  (power_meter o <> None -> inst o <> None) /\
  (inst o <> None -> device o <> None) /\
  (forall h w w1,
     inst o = Some h -> inst_close h w = (inr tt, w1) ->
     exists d,
       device o = Some d /\
       close o w =
         (Normal tt, o, w1,
          CloseHandle ::
            if verbose o
            then [Console ("Connection to device " ++ d ++ " ended")]
            else [])).
Proof.
  intros R.
  assert (L : (power_meter o <> None -> inst o <> None) /\
              (inst o <> None -> device o <> None)).
  { induction R as [vb w o w1 evs I | c o w r o1 w1 evs R [IH1 IH2] H].
    - unfold PM100_init in I.
      destruct (visa_ResourceManager w) as [[msg|[]] w0]; [discriminate I|].
      destruct (rm_list_resources w0) as [[msg|devs] w2];
        inversion I; subst; simpl; split; congruence.
    - destruct c;
        try (assert (U : link_fields o1 = link_fields o)
               by (eapply invoke_links; [exact H | discriminate]);
             unfold link_fields in U; inversion U as [[U1 U2 U3]];
             rewrite U1, U2, U3; auto).
      simpl in H. apply bind_ret_attrs in H. destruct H as [r' H].
      destruct (initialise_links _ _ _ _ _ _ _ H)
        as [U | [[d U] | [(d & h & U) | (d & h & pm & U)]]];
        unfold link_fields in U; inversion U as [[U1 U2 U3]];
        rewrite ?U1, ?U2, ?U3; split; try congruence; auto. }
  destruct L as [L1 L2]. split; [exact L1|]. split; [exact L2|].
  intros h w w1 E C.
  destruct (device o) as [d|] eqn:D; [|elim L2; congruence].
  exists d. split; [reflexivity|].
  unfold close; unfold_py. rewrite E, C. simpl.
  destruct (verbose o); simpl; [rewrite D|]; reflexivity.
Qed.


(** ** Without a driver, and with a device that fails *)

(** X7. On a controller that holds no driver, [set_samples],
    [set_wavelength], [auto_range], [get_max_power] and [measure] raise
    [AttributeError] at once: nothing is sent, printed or stored
    ([measure] does not even store [n_averages]), and so does [average]
    once it is asked for at least one reading.  [set_bandwidth] and
    [set_units] catch the same error: they print it and return normally,
    and [set_units] has by then stored the symbol and its mode. *)
Theorem methods_without_driver o w :
  power_meter o = None ->
  (forall n, set_samples n o w =
     (Raised (AttributeError "power_meter"), o, w, [])) /\
  (forall nm, set_wavelength nm o w =
     (Raised (AttributeError "power_meter"), o, w, [])) /\
  (forall state, auto_range state o w =
     (Raised (AttributeError "power_meter"), o, w, [])) /\
  get_max_power o w = (Raised (AttributeError "power_meter"), o, w, []) /\
  (forall type sample_rate n, measure type sample_rate n o w =
     (Raised (AttributeError "power_meter"), o, w, [])) /\
  (forall N, n_averages o = Some N -> (1 <= N)%Z ->
     average o w = (Raised (AttributeError "power_meter"), o, w, [])) /\
  (forall state, dict_mem state bandwidth = true ->
     set_bandwidth state o w =
       (Normal tt, o, w,
        [Console "An error occurred: 'PM100' object has no attribute 'power_meter'"])) /\
  (forall u cur w0 evs0,
     selected u o w cur w0 evs0 ->
     set_units u o w =
       (Normal tt, with_units cur (conversion o) o, w0,
        (evs0 ++ [Console "Error changing unit type: 'PM100' object has no attribute 'power_meter'"])%list)).
Proof.
  intros E.
  split; [|split; [|split; [|split; [|split; [|split; [|split]]]]]].
  - intros n. unfold set_samples; unfold_py. now rewrite E.
  - intros nm. unfold set_wavelength; unfold_py. now rewrite E.
  - intros [|]; unfold auto_range; unfold_py; now rewrite E.
  - unfold get_max_power; unfold_py. now rewrite E.
  - intros type sr n. unfold measure, set_samples; unfold_py. now rewrite E.
  - intros N EN HN. unfold average. unfold bind at 1, getattr. rewrite EN.
    destruct (Z.to_nat N) as [|k] eqn:K; [lia|].
    simpl. unfold scaled_read; unfold_py. now rewrite E.
  - intros state V. unfold set_bandwidth. rewrite V. simpl.
    apply dict_mem_get in V. destruct V as [v V].
    unfold_py. now rewrite V, E.
  - intros u cur w0 evs0 S. rewrite (set_units_head u o w cur w0 evs0 S).
    rewrite push_unit_no_driver; [reflexivity | exact E | discriminate].
Qed.

(** X8. The four pass-through methods on a controller with a driver.
    [set_samples] and [set_wavelength] hand their argument to the driver
    unchecked, [auto_range] writes ['ON'] or ['OFF'] and prints its line
    after the write, [get_max_power] hands back what the driver reports.
    When the driver raises, the exception leaves the method: nothing is
    printed (not even the line of [auto_range]) and no attribute
    changes. *)
Theorem pass_through_methods o w pm :
  power_meter o = Some pm ->
  (forall n,
     set_samples n o w =
       match pm_set_average_count pm n w with
       | (inr _, w1) => (Normal tt, o, w1, [SetAverageCount n])
       | (inl msg, w1) => (Raised (ExtError msg), o, w1, [SetAverageCount n])
       end) /\
  (forall nm,
     set_wavelength nm o w =
       match pm_set_wavelength pm nm w with
       | (inr _, w1) => (Normal tt, o, w1, [SetWavelength nm])
       | (inl msg, w1) => (Raised (ExtError msg), o, w1, [SetWavelength nm])
       end) /\
  (forall state : bool,
     auto_range state o w =
       let s := if state then "ON" else "OFF" in
       match pm_set_range_auto pm s w with
       | (inr _, w1) =>
           (Normal tt, o, w1, [SetRangeAuto s; Console ("Auto-Range " ++ s)])
       | (inl msg, w1) => (Raised (ExtError msg), o, w1, [SetRangeAuto s])
       end) /\
  get_max_power o w =
    match pm_get_range_upper pm w with
    | (inr x, w1) => (Normal x, o, w1, [GetRangeUpper])
    | (inl msg, w1) => (Raised (ExtError msg), o, w1, [GetRangeUpper])
    end.
Proof.
  intros E. split; [|split; [|split]].
  - intros n. unfold set_samples; unfold_py. rewrite E.
    destruct (pm_set_average_count pm n w) as [[msg|[]] w1]; reflexivity.
  - intros nm. unfold set_wavelength; unfold_py. rewrite E.
    destruct (pm_set_wavelength pm nm w) as [[msg|[]] w1]; reflexivity.
  - intros [|]; unfold auto_range; unfold_py; rewrite E; simpl;
      match goal with
      | |- context [pm_set_range_auto pm ?s w] =>
          destruct (pm_set_range_auto pm s w) as [[msg|[]] w1]
      end; reflexivity.
  - unfold get_max_power; unfold_py. rewrite E.
    destruct (pm_get_range_upper pm w) as [[msg|x] w1]; reflexivity.
Qed.

(** X9. [set_bandwidth] with a valid state on a controller with a
    driver: after a successful write it prints "bandwidth set to" and the
    state; a failing write is caught and printed after "An error
    occurred: ".  In both cases it returns normally and changes no
    attribute. *)
Theorem set_bandwidth_outcomes (state : string) (v : Z) o w pm :
  dict_get state bandwidth = Some v ->
  power_meter o = Some pm ->
  set_bandwidth state o w =
    match pm_set_lpass_state pm v w with
    | (inr _, w1) =>
        (Normal tt, o, w1,
         [SetLpassState v; Console ("bandwidth set to " ++ state)])
    | (inl msg, w1) =>
        (Normal tt, o, w1,
         [SetLpassState v; Console ("An error occurred: " ++ msg)])
    end.
Proof.
  intros D E. unfold set_bandwidth.
  assert (V : dict_mem state bandwidth = true) by (apply dict_mem_get; eauto).
  rewrite V. simpl. unfold_py. rewrite D, E. simpl.
  destruct (pm_set_lpass_state pm v w) as [[msg|[]] w1]; reflexivity.
Qed.

(** X10. Where [measure] can fail.  If the write of the sample count
    fails, the exception leaves [measure] and [n_averages] has not been
    stored.  If the configuration for a power reading fails, or the
    single reading itself, the exception leaves [measure] too, but
    [n_averages] has already been stored; no reading is printed. *)
Theorem measure_failure_points (type : string) (sample_rate n : Z) o w pm :
  power_meter o = Some pm ->
  (forall msg w1,
     pm_set_average_count pm sample_rate w = (inl msg, w1) ->
     measure type sample_rate n o w =
       (Raised (ExtError msg), o, w1, [SetAverageCount sample_rate])) /\
  (forall w1 msg w2,
     pm_set_average_count pm sample_rate w = (inr tt, w1) ->
     pm_configure_scalar_power pm w1 = (inl msg, w2) ->
     measure type sample_rate n o w =
       (Raised (ExtError msg), set_n_averages n o, w2,
        [SetAverageCount sample_rate; ConfigureScalarPower])) /\
  (forall w1 w2 msg w3,
     String.eqb type "average" = false ->
     pm_set_average_count pm sample_rate w = (inr tt, w1) ->
     pm_configure_scalar_power pm w1 = (inr tt, w2) ->
     pm_read pm w2 = (inl msg, w3) ->
     measure type sample_rate n o w =
       (Raised (ExtError msg), set_n_averages n o, w3,
        [SetAverageCount sample_rate; ConfigureScalarPower; Read (inl msg)])).
Proof.
  intros E. split; [|split].
  - intros msg w1 S. unfold measure, set_samples; unfold_py.
    now rewrite E, S.
  - intros w1 msg w2 S P. unfold measure, set_samples; unfold_py.
    rewrite E, S. simpl. rewrite E. now rewrite P.
  - intros w1 w2 msg w3 T S P R.
    unfold measure, set_samples, scaled_read; unfold_py.
    repeat (rewrite ?E, ?S, ?P, ?T, ?R; simpl). reflexivity.
Qed.


(** ** Order and edge cases of the measurements *)

(** X11. The order inside [measure].  Whatever happens, the first thing
    sent is the sample count, the second the configuration for a power
    reading, and only then readings are taken: the events are a prefix
    of these two writes, followed by events that are no device writes.
    A single measurement queries the meter at most once, an averaged one
    at most [n_averages] times. *)
Theorem measure_order (type : string) (sample_rate n : Z) o w r o1 w1 evs :
  measure type sample_rate n o w = (r, o1, w1, evs) ->
  (evs = [] \/
   evs = [SetAverageCount sample_rate] \/
   exists rest,
     evs = SetAverageCount sample_rate :: ConfigureScalarPower :: rest /\
     device_writes rest = []) /\
  (String.eqb type "average" = false -> read_count evs <= 1) /\
  (String.eqb type "average" = true -> read_count evs <= Z.to_nat n).
Proof.
  unfold measure, set_samples.
  unfold bind at 1. unfold bind at 1, getattr.
  destruct (power_meter o) as [pm|] eqn:E;
    [|intros H; inversion H; subst; simpl;
      split; [auto|split; intros; lia]].
  unfold ext at 1.
  destruct (pm_set_average_count pm sample_rate w) as [[msg|[]] w2];
    [intros H; inversion H; subst; simpl;
      split; [auto|split; intros; lia]|].
  unfold bind at 1, setattr at 1. unfold bind at 1. simpl power_meter. rewrite E.
  unfold bind at 1, ext at 1.
  destruct (pm_configure_scalar_power pm w2) as [[msg|[]] w3];
    [intros H; inversion H; subst; simpl;
      split; [right; right; eexists; split; reflexivity
             |split; intros; lia]|].
  destruct (String.eqb type "average").
  - unfold bind at 1.
    destruct (average (set_n_averages n o) w3) as [[[r0 o0] w0] evs0] eqn:AV.
    destruct (average_inv _ _ _ _ _ _ AV) as (-> & D0 & C0 & _).
    specialize (C0 n eq_refl).
    destruct r0 as [data|e]; unfold ret;
      intros H; inversion H; subst; clear H; simpl; rewrite ?app_nil_r;
      (split; [right; right; eexists; split; [reflexivity | exact D0]|]);
      split; intros; try discriminate; lia.
  - unfold bind at 1.
    destruct (scaled_read (set_n_averages n o) w3) as [[[r0 o0] w0] evs0] eqn:SR.
    destruct (scaled_read_inv _ _ _ _ _ _ SR) as (-> & P0 & D0 & C0 & V0).
    destruct r0 as [x|e]; unfold_py;
      intros H; inversion H; subst; clear H; simpl;
      rewrite ?read_count_app; simpl;
      (split;
       [right; right; eexists; split; [reflexivity|];
        rewrite ?device_writes_app, ?D0; reflexivity|]);
      split; intros; try discriminate; lia.
Qed.

Lemma comprehension_fails o pm c (n : nat) w raws msg w2 :
  power_meter o = Some pm ->
  conversion o = Some c ->
  pynum_is_zero c = false ->
  read_run_failing pm w raws msg w2 ->
  length raws < n ->
  comprehension n scaled_read o w =
    (Raised (ExtError msg), o, w2,
     (map (fun raw => Read (inr raw)) raws ++ [Read (inl msg)])%list).
Proof.
  intros E C Z (w1 & R & F). revert n.
  induction R as [w | w raw w1 raws w3 R1 R2 IH]; intros n L;
    (destruct n as [|n]; [simpl in L; lia|]); simpl.
  - unfold bind at 1. unfold scaled_read; unfold_py. now rewrite E, F.
  - unfold bind at 1. rewrite (scaled_read_ok o w pm raw w1 c E R1 C Z).
    unfold bind at 1. rewrite (IH F n) by (simpl in L; lia). reflexivity.
Qed.

(** X12. [average] stops at the first reading that fails.  When the meter
    answers some readings and then fails before [n_averages] of them are
    in, the exception leaves [average]: the meter has been queried once
    more than it answered, nothing is printed and the readings taken so
    far are lost.  The same holds for [measure('average')]. *)
Theorem average_stops_at_failure o pm c (N : Z) w raws msg w2 :
  power_meter o = Some pm ->
  conversion o = Some c ->
  pynum_is_zero c = false ->
  read_run_failing pm w raws msg w2 ->
  (Z.of_nat (length raws) < N)%Z ->
  (n_averages o = Some N ->
   average o w =
     (Raised (ExtError msg), o, w2,
      (map (fun raw => Read (inr raw)) raws ++ [Read (inl msg)])%list)) /\
  (forall sample_rate w0 w1,
     pm_set_average_count pm sample_rate w0 = (inr tt, w1) ->
     pm_configure_scalar_power pm w1 = (inr tt, w) ->
     measure "average" sample_rate N o w0 =
       (Raised (ExtError msg), set_n_averages N o, w2,
        (SetAverageCount sample_rate :: ConfigureScalarPower
         :: map (fun raw => Read (inr raw)) raws ++ [Read (inl msg)])%list)).
Proof.
  intros E C Z F L.
  assert (A : forall o', power_meter o' = Some pm -> conversion o' = Some c ->
              n_averages o' = Some N ->
              average o' w =
                (Raised (ExtError msg), o', w2,
                 (map (fun raw => Read (inr raw)) raws ++ [Read (inl msg)])%list)).
  { intros o' E' C' EN. unfold average. unfold bind at 1, getattr. rewrite EN.
    unfold bind at 1.
    now rewrite (comprehension_fails o' pm c (Z.to_nat N) w raws msg w2)
      by (auto; lia). }
  split; [now apply A|].
  intros sr w0 w1 S P. unfold measure, set_samples.
  unfold bind at 1. unfold bind at 1, getattr. rewrite E. unfold ext at 1.
  rewrite S. unfold bind at 1, setattr at 1. unfold bind at 1.
  simpl power_meter. rewrite E. unfold bind at 1, ext at 1. rewrite P.
  rewrite String.eqb_refl. unfold bind at 1.
  now rewrite (A (set_n_averages N o)).
Qed.

(** X13. Edge cases of [average].  Before any [measure] has stored
    [n_averages] it raises [AttributeError] without querying the meter.
    With [n_averages] zero or negative it queries nothing and hands back
    an empty array, whether or not a driver or a scale factor is stored
    (the report of an empty array is still printed when verbose).  With
    at least one reading asked for and no scale factor stored, the first
    reading is taken and then [AttributeError] is raised. *)
Theorem average_edge_cases o w :
  (n_averages o = None ->
   average o w = (Raised (AttributeError "n_averages"), o, w, [])) /\
  (forall N,
     n_averages o = Some N -> (N <= 0)%Z ->
     average o w =
       (Normal [], o, w, if verbose o then average_report [] (unit o) else [])) /\
  (forall N pm raw w1,
     n_averages o = Some N -> (1 <= N)%Z ->
     power_meter o = Some pm -> pm_read pm w = (inr raw, w1) ->
     conversion o = None ->
     average o w =
       (Raised (AttributeError "conversion"), o, w1, [Read (inr raw)])).
Proof.
  split; [|split].
  - intros EN. unfold average. unfold bind at 1, getattr. now rewrite EN.
  - intros N EN L. unfold average. unfold bind at 1, getattr. rewrite EN.
    replace (Z.to_nat N) with 0 by lia. simpl. unfold_py.
    unfold average_report. destruct (verbose o); reflexivity.
  - intros N pm raw w1 EN L E R C.
    unfold average. unfold bind at 1, getattr. rewrite EN.
    destruct (Z.to_nat N) as [|k] eqn:K; [lia|].
    simpl. unfold scaled_read; unfold_py. now rewrite E, R, C.
Qed.

(** X14. [measure] stores its [n_averages] argument whatever the type of
    the measurement, so after any [measure] that returned, the next
    [average] takes as many readings as that argument says (none when it
    is not positive): a single measurement with the default 10 resets an
    earlier choice. *)
Theorem measure_then_average (type : string) (sample_rate N : Z)
    o w x o1 w1 evs :
  measure type sample_rate N o w = (Normal x, o1, w1, evs) ->
  n_averages o1 = Some N /\
  forall w2 data o2 w3 evs2,
    average o1 w2 = (Normal data, o2, w3, evs2) ->
    length data = Z.to_nat N /\ read_count evs2 = Z.to_nat N.
Proof.
  intros H.
  destruct (measure_inv _ _ _ _ _ _ _ _ _ H) as (_ & _ & V).
  destruct (V x eq_refl) as (-> & _).
  split; [reflexivity|].
  intros w2 data o2 w3 evs2 A.
  destruct (average_inv _ _ _ _ _ _ A) as (_ & _ & _ & _ & V').
  destruct (V' data eq_refl) as (N' & EN & R & L & _).
  simpl in EN. inversion EN; subst. auto.
Qed.



(** ** Footprints: exceptions *)

Lemma bind_raises {A B : Type} (P : exn -> bool)
    (c : M World Handle Meter A) (k : A -> M World Handle Meter B) o w :
  (forall e, outcome (c o w) = Raised e -> P e = true) ->
  (forall a o1 w1 e, outcome (k a o1 w1) = Raised e -> P e = true) ->
  forall e, outcome (bind c k o w) = Raised e -> P e = true.
Proof.
  unfold bind, outcome. destruct (c o w) as [[[r o1] w1] evs1]. simpl.
  intros H K e.
  destruct r as [a|e0]; [|simpl; intros E; inversion E; subst; now apply H].
  specialize (K a o1 w1 e). destruct (k a o1 w1) as [[[r2 o2] w2] evs2].
  exact K.
Qed.

Lemma try_except_raises {A : Type} (P : exn -> bool)
    (c : M World Handle Meter A) (h : exn -> M World Handle Meter A) o w :
  (forall e, outcome (c o w) = Raised e -> (is_Exception e || P e) = true) ->
  (forall e0 o1 w1 e, outcome (h e0 o1 w1) = Raised e -> P e = true) ->
  forall e, outcome (try_except c h o w) = Raised e -> P e = true.
Proof.
  unfold try_except, outcome. destruct (c o w) as [[[r o1] w1] evs1]. simpl.
  intros H K e. destruct r as [a|e0]; [discriminate|].
  destruct (is_Exception e0) eqn:X.
  - specialize (K e0 o1 w1 e). destruct (h e0 o1 w1) as [[[r2 o2] w2] evs2].
    exact K.
  - simpl. intros E; inversion E; subst.
    specialize (H e eq_refl). now rewrite X in H.
Qed.

Lemma comprehension_raises {A : Type} (P : exn -> bool)
    (body : M World Handle Meter A) (n : nat) :
  (forall o w e, outcome (body o w) = Raised e -> P e = true) ->
  forall o w e, outcome (comprehension n body o w) = Raised e -> P e = true.
Proof.
  intros H. induction n as [|n IH]; intros o w; simpl.
  - unfold outcome; simpl. discriminate.
  - apply bind_raises; [apply H|]. intros a o1 w1.
    apply bind_raises; [apply IH|]. unfold outcome; simpl. discriminate.
Qed.

(** Splits a method body along its binds and branches, and looks at the
    exception of each leaf. *)
Ltac exceptions :=
  repeat first
    [ apply bind_raises; [|intros ? ? ?]
    | apply try_except_raises; [|intros ? ? ?]
    | apply comprehension_raises; intros ? ?
    | match goal with
      | |- context [match ?x with _ => _ end] => destruct x
      end
    | progress (unfold when, getattr, attr, setattr, ext, ext_read, print,
                sleep, ret, raise, truediv, outcome; simpl) ];
  try (let e := fresh "e" in let E := fresh "E" in
       intros e E; inversion E; reflexivity).

Lemma scaled_reads_raise (n : nat) o w e :
  outcome (comprehension n scaled_read o w) = Raised e ->
  may_raise (Measure "" 0 0) e = true.
Proof.
  revert o w e. apply comprehension_raises. intros o w.
  unfold scaled_read. exceptions.
Qed.

(** [average] with [n_averages] stored, as [measure] calls it. *)
Lemma average_raises_stored (N : Z) o w e :
  n_averages o = Some N ->
  outcome (average o w) = Raised e ->
  may_raise (Measure "" 0 0) e = true.
Proof.
  intros EN. unfold average. unfold bind at 1, getattr. rewrite EN.
  unfold bind at 1.
  destruct (comprehension (Z.to_nat N) scaled_read o w)
    as [[[r0 o0] w0] evs0] eqn:CR.
  destruct r0 as [data|e0].
  - unfold_py. destruct (verbose o0); discriminate.
  - unfold outcome; simpl. intros E; inversion E; subst.
    apply (scaled_reads_raise (Z.to_nat N) o w). now rewrite CR.
Qed.

Lemma measure_raises (type : string) (sample_rate n : Z) o w e :
  outcome (measure type sample_rate n o w) = Raised e ->
  may_raise (Measure type sample_rate n) e = true.
Proof.
  unfold measure, set_samples.
  unfold bind at 1. unfold bind at 1, getattr.
  destruct (power_meter o) as [pm|] eqn:E;
    [|unfold outcome; simpl; intros X; inversion X; reflexivity].
  unfold ext at 1.
  destruct (pm_set_average_count pm sample_rate w) as [[msg|[]] w2];
    [unfold outcome; simpl; intros X; inversion X; reflexivity|].
  unfold bind at 1, setattr at 1. unfold bind at 1. simpl power_meter. rewrite E.
  unfold bind at 1, ext at 1.
  destruct (pm_configure_scalar_power pm w2) as [[msg|[]] w3];
    [unfold outcome; simpl; intros X; inversion X; reflexivity|].
  destruct (String.eqb type "average").
  - unfold bind at 1.
    destruct (average (set_n_averages n o) w3) as [[[r0 o0] w0] evs0] eqn:AV.
    destruct r0 as [data|e0]; [discriminate|].
    unfold outcome; simpl. intros X; inversion X; subst.
    apply (average_raises_stored n (set_n_averages n o) w3 e eq_refl).
    now rewrite AV.
  - unfold bind at 1.
    destruct (scaled_read (set_n_averages n o) w3) as [[[r0 o0] w0] evs0] eqn:SR.
    destruct r0 as [x|e0]; [unfold_py; discriminate|].
    unfold outcome; simpl. intros X; inversion X; subst.
    apply (scaled_reads_raise 1 (set_n_averages n o) w3). simpl.
    unfold bind at 1. now rewrite SR.
Qed.

Lemma invoke_raises (c : call) o w e :
  outcome (invoke c o w) = Raised e -> may_raise c e = true.
Proof.
  revert e. destruct c; unfold invoke.
  - unfold close. exceptions.
  - unfold initialise, select_device. destruct dev; exceptions.
  - unfold average, scaled_read. exceptions.
  - unfold auto_range. exceptions.
  - unfold get_max_power. exceptions.
  - intros e. apply measure_raises.
  - unfold set_bandwidth. exceptions.
  - unfold set_samples. exceptions.
  - unfold set_units, push_unit. exceptions.
  - unfold set_wavelength. exceptions.
Qed.


(** ** No division by zero *)

Lemma scaled_read_zero_division o w o1 w1 evs :
  scaled_read o w = (Raised ZeroDivisionError, o1, w1, evs) ->
  exists c, conversion o = Some c /\ pynum_is_zero c = true.
Proof.
  unfold scaled_read; unfold_py.
  destruct (power_meter o) as [pm|]; simpl; [|discriminate].
  destruct (pm_read pm w) as [[msg|raw] w2]; simpl; [discriminate|].
  destruct (conversion o) as [c|]; simpl; [|discriminate].
  destruct (pynum_is_zero c) eqn:Zc; simpl; [eauto | discriminate].
Qed.

Lemma comprehension_zero_division (n : nat) o w o1 w1 evs :
  comprehension n scaled_read o w = (Raised ZeroDivisionError, o1, w1, evs) ->
  exists c, conversion o = Some c /\ pynum_is_zero c = true.
Proof.
  revert w o1 w1 evs. induction n as [|n IH]; intros w o1 w1 evs; simpl.
  - discriminate.
  - unfold bind at 1.
    destruct (scaled_read o w) as [[[r0 o0] w0] evs0] eqn:SR.
    destruct r0 as [x|e].
    + destruct (scaled_read_inv _ _ _ _ _ _ SR) as (-> & _).
      unfold bind at 1.
      destruct (comprehension n scaled_read o w0) as [[[r1 o2] w2] evs1] eqn:CR.
      destruct r1 as [xs|e]; [discriminate|].
      intros H; inversion H; subst. eapply IH; exact CR.
    + intros H; inversion H; subst. eapply scaled_read_zero_division; exact SR.
Qed.

Lemma average_zero_division o w o1 w1 evs :
  average o w = (Raised ZeroDivisionError, o1, w1, evs) ->
  exists c, conversion o = Some c /\ pynum_is_zero c = true.
Proof.
  unfold average. unfold bind at 1, getattr.
  destruct (n_averages o) as [N|]; [|discriminate].
  unfold bind at 1.
  destruct (comprehension (Z.to_nat N) scaled_read o w)
    as [[[r0 o0] w0] evs0] eqn:CR.
  destruct r0 as [data|e].
  - unfold_py. destruct (verbose o0); discriminate.
  - intros H; inversion H; subst. eapply comprehension_zero_division; exact CR.
Qed.

Lemma measure_zero_division (type : string) (sample_rate n : Z) o w o1 w1 evs :
  measure type sample_rate n o w = (Raised ZeroDivisionError, o1, w1, evs) ->
  exists c, conversion o = Some c /\ pynum_is_zero c = true.
Proof.
  unfold measure, set_samples.
  unfold bind at 1. unfold bind at 1, getattr.
  destruct (power_meter o) as [pm|] eqn:E; [|discriminate].
  unfold ext at 1.
  destruct (pm_set_average_count pm sample_rate w) as [[msg|[]] w2];
    [discriminate|].
  unfold bind at 1, setattr at 1. unfold bind at 1. simpl power_meter. rewrite E.
  unfold bind at 1, ext at 1.
  destruct (pm_configure_scalar_power pm w2) as [[msg|[]] w3]; [discriminate|].
  destruct (String.eqb type "average").
  - unfold bind at 1.
    destruct (average (set_n_averages n o) w3) as [[[r0 o0] w0] evs0] eqn:AV.
    destruct r0 as [data|e]; [discriminate|].
    intros H; inversion H; subst.
    exact (average_zero_division _ _ _ _ _ AV).
  - unfold bind at 1.
    destruct (scaled_read (set_n_averages n o) w3) as [[[r0 o0] w0] evs0] eqn:SR.
    destruct r0 as [x|e]; [unfold_py; discriminate|].
    intros H; inversion H; subst.
    exact (scaled_read_zero_division _ _ _ _ _ SR).
Qed.

Lemma bind_ret_raised {A B : Type} (c : M World Handle Meter A) (f : A -> B)
    o w e o1 w1 evs :
  bind c (fun x => ret (f x)) o w = (Raised e, o1, w1, evs) ->
  c o w = (Raised e, o1, w1, evs).
Proof.
  unfold bind, ret. destruct (c o w) as [[[r0 o0] w0] evs0].
  destruct r0; intros H; inversion H; subst; reflexivity.
Qed.

Ltac now_missing :=
  unfold missing;
  first [ left; split; [reflexivity | congruence]
        | right; left; split; [reflexivity | congruence]
        | right; right; split; [reflexivity | congruence] ].

Lemma scaled_read_missing o w a o1 w1 evs :
  scaled_read o w = (Raised (AttributeError a), o1, w1, evs) -> missing a o.
Proof.
  unfold scaled_read, missing; unfold_py.
  destruct (power_meter o) as [pm|] eqn:E; simpl;
    [|intros H; inversion H; subst; now_missing].
  destruct (pm_read pm w) as [[msg|raw] w2]; simpl; [discriminate|].
  destruct (conversion o) as [c|] eqn:C; simpl;
    [|intros H; inversion H; subst; now_missing].
  destruct (pynum_is_zero c); simpl; discriminate.
Qed.

Lemma comprehension_missing (n : nat) o w a o1 w1 evs :
  comprehension n scaled_read o w = (Raised (AttributeError a), o1, w1, evs) ->
  missing a o.
Proof.
  revert w o1 w1 evs. induction n as [|n IH]; intros w o1 w1 evs; simpl.
  - discriminate.
  - unfold bind at 1.
    destruct (scaled_read o w) as [[[r0 o0] w0] evs0] eqn:SR.
    destruct r0 as [x|e].
    + destruct (scaled_read_inv _ _ _ _ _ _ SR) as (-> & _).
      unfold bind at 1.
      destruct (comprehension n scaled_read o w0) as [[[r1 o2] w2] evs1] eqn:CR.
      destruct r1 as [xs|e]; [discriminate|].
      intros H; inversion H; subst. eapply IH; exact CR.
    + intros H; inversion H; subst. eapply scaled_read_missing; exact SR.
Qed.

Lemma average_missing o w a o1 w1 evs :
  average o w = (Raised (AttributeError a), o1, w1, evs) -> missing a o.
Proof.
  unfold average. unfold bind at 1, getattr.
  destruct (n_averages o) as [N|] eqn:EN;
    [|intros H; inversion H; subst; now_missing].
  unfold bind at 1.
  destruct (comprehension (Z.to_nat N) scaled_read o w)
    as [[[r0 o0] w0] evs0] eqn:CR.
  destruct r0 as [data|e].
  - unfold_py. destruct (verbose o0); discriminate.
  - intros H; inversion H; subst. eapply comprehension_missing; exact CR.
Qed.

Lemma measure_missing (type : string) (sample_rate n : Z) o w a o1 w1 evs :
  measure type sample_rate n o w = (Raised (AttributeError a), o1, w1, evs) ->
  missing a o.
Proof.
  assert (K : missing a (set_n_averages n o) -> missing a o).
  { intros [M | [M | [_ M]]]; unfold missing; auto. discriminate M. }
  unfold measure, set_samples.
  unfold bind at 1. unfold bind at 1, getattr.
  destruct (power_meter o) as [pm|] eqn:E;
    [|intros H; inversion H; subst; now_missing].
  unfold ext at 1.
  destruct (pm_set_average_count pm sample_rate w) as [[msg|[]] w2];
    [discriminate|].
  unfold bind at 1, setattr at 1. unfold bind at 1. simpl power_meter. rewrite E.
  unfold bind at 1, ext at 1.
  destruct (pm_configure_scalar_power pm w2) as [[msg|[]] w3]; [discriminate|].
  destruct (String.eqb type "average").
  - unfold bind at 1.
    destruct (average (set_n_averages n o) w3) as [[[r0 o0] w0] evs0] eqn:AV.
    destruct r0 as [data|e]; [discriminate|].
    intros H; inversion H; subst.
    apply K. exact (average_missing _ _ _ _ _ _ AV).
  - unfold bind at 1.
    destruct (scaled_read (set_n_averages n o) w3) as [[[r0 o0] w0] evs0] eqn:SR.
    destruct r0 as [x|e]; [unfold_py; discriminate|].
    intros H; inversion H; subst.
    apply K. exact (scaled_read_missing _ _ _ _ _ _ SR).
Qed.

Lemma invoke_missing (c : call) o w a o1 w1 evs :
  invoke c o w = (Raised (AttributeError a), o1, w1, evs) -> missing a o.
Proof.
  intros H.
  pose proof (invoke_raises c o w (AttributeError a)) as F.
  rewrite H in F. specialize (F eq_refl).
  destruct c as [|[d|]| | | | | | | |]; try discriminate F; simpl in H;
    try apply bind_ret_raised in H.
  - exact (average_missing _ _ _ _ _ _ H).
  - revert H. unfold auto_range, missing; destruct state; unfold_py;
      (destruct (power_meter o) as [pm|]; simpl;
       [match goal with
        | |- context [pm_set_range_auto pm ?s w] =>
            destruct (pm_set_range_auto pm s w) as [[msg|[]] w2]
        end; simpl; discriminate
       |intros H; inversion H; subst; now_missing]).
  - revert H. unfold get_max_power, missing; unfold_py.
    destruct (power_meter o) as [pm|]; simpl;
      [destruct (pm_get_range_upper pm w) as [[msg|x] w2]; simpl; discriminate
      |intros H; inversion H; subst; now_missing].
  - exact (measure_missing _ _ _ _ _ _ _ _ _ H).
  - revert H. unfold set_samples, missing; unfold_py.
    destruct (power_meter o) as [pm|]; simpl;
      [destruct (pm_set_average_count pm n_samples w) as [[msg|[]] w2];
       simpl; discriminate
      |intros H; inversion H; subst; now_missing].
  - revert H. unfold set_wavelength, missing; unfold_py.
    destruct (power_meter o) as [pm|]; simpl;
      [destruct (pm_set_wavelength pm wavelength w) as [[msg|[]] w2];
       simpl; discriminate
      |intros H; inversion H; subst; now_missing].
Qed.

(** X15. The exceptions a call can let through ([may_raise]).  [close]
    and [set_bandwidth] let none through.  [initialise] lets through only
    [SystemExit], and only without a device argument and with an empty
    list of devices.  [set_units] lets through only an exception of its
    prompt: the symbol it started from is not in the table, [input]
    raised that very exception, and the prompt is the only event of the
    call.  An [AttributeError] names [power_meter], [conversion] or
    [n_averages], and that attribute is indeed unassigned; the other
    exceptions of [set_samples], [set_wavelength], [auto_range],
    [get_max_power], [measure] and [average] are exceptions of a
    collaborator or, for the last two, [ZeroDivisionError]. *)
Theorem call_exceptions (c : call) o w e o1 w1 evs :
  invoke c o w = (Raised e, o1, w1, evs) ->
  may_raise c e = true /\
  c <> Close /\
  (forall state, c <> SetBandwidth state) /\
  (is_Exception e = false -> c = Initialise None /\ devices o = []) /\
  (forall u,
     c = SetUnits u ->
     dict_mem (adopted u o) unit_types = false /\
     evs = [Input unit_prompt] /\
     exists msg, e = ExtError msg /\ input unit_prompt w = (inl msg, w1)) /\
  (forall a, e = AttributeError a -> missing a o).
Proof.
  intros H.
  assert (R : may_raise c e = true)
    by (apply (invoke_raises c o w); now rewrite H).
  split; [exact R|].
  split; [intros ->; discriminate R|].
  split; [intros state ->; discriminate R|].
  split; [|split].
  - intros X. destruct e; try discriminate X.
    destruct c as [|[d|]| | | | | | | |]; try discriminate R.
    split; [reflexivity|].
    simpl in H. apply bind_ret_raised in H.
    destruct (initialise_outcome None o w _ o1 w1 evs H)
      as [_ [N | (_ & _ & E)]]; [discriminate N | exact E].
  - intros u ->. simpl in H. apply bind_ret_raised in H.
    destruct (selected_total u o w)
      as [(cur & w0 & evs0 & S) | (V & msg & w0 & I)].
    + rewrite (set_units_head u o w cur w0 evs0 S) in H.
      destruct (push_unit_cases (with_units cur (conversion o) o) w0
                  (native_mode cur) eq_refl) as (o2 & w2 & evs2 & P & _).
      rewrite P in H. discriminate H.
    + rewrite (set_units_prompt_raises u o w msg w0 V I) in H.
      inversion H; subst. split; [exact V|]. split; [reflexivity|].
      exists msg. split; [reflexivity | exact I].
  - intros a ->. exact (invoke_missing c o w a o1 w1 evs H).
Qed.

(** X16. The scale factors of the table are all different from zero, and
    a reachable controller stores no other: so no call on a reachable
    controller ever raises [ZeroDivisionError], whatever the meter
    reads. *)
Theorem no_zero_division o :
  reachable o ->
  (forall c, conversion o = Some c -> pynum_is_zero c = false) /\
  forall k w r o1 w1 evs,
    invoke k o w = (r, o1, w1, evs) -> r <> Raised ZeroDivisionError.
Proof.
  intros R.
  assert (S : forall c, conversion o = Some c -> pynum_is_zero c = false).
  { intros c C. destruct (reachable_units o R) as [_ T].
    destruct (T c C) as [symbol D]. now apply (unit_types_scales symbol c). }
  split; [exact S|].
  intros k w r o1 w1 evs H ->.
  assert (Z : exists c, conversion o = Some c /\ pynum_is_zero c = true).
  { pose proof (invoke_raises k o w ZeroDivisionError) as F.
    rewrite H in F. specialize (F eq_refl).
    destruct k as [|[d|]| | | | | | | |]; try discriminate F; simpl in H.
    - apply bind_ret_raised in H.
      exact (average_zero_division _ _ _ _ _ H).
    - exact (measure_zero_division _ _ _ _ _ _ _ _ H). }
  destruct Z as (c & C & Zc). rewrite (S c C) in Zc. discriminate Zc.
Qed.


(** ** More on [set_units] *)

Lemma unit_types_keys (s : string) :
  dict_mem s unit_types = true <->
  s = "nW" \/ s = "uW" \/ s = "mW" \/ s = "W" \/ s = "dBm".
Proof.
  cbv [dict_mem dict_get unit_types].
  destruct (String.eqb_spec s "nW"); [tauto|].
  destruct (String.eqb_spec s "uW"); [tauto|].
  destruct (String.eqb_spec s "mW"); [tauto|].
  destruct (String.eqb_spec s "W"); [tauto|].
  destruct (String.eqb_spec s "dBm"); [tauto|].
  split; [discriminate | tauto].
Qed.

(** X17. [set_units] without an argument, or with the empty string,
    applies the symbol that is stored: it does what [set_units] with that
    symbol as argument does. *)
Theorem set_units_without_argument o w :
  set_units None o w = set_units (Some (unit o)) o w /\
  set_units (Some "") o w = set_units None o w.
Proof.
  destruct o as [dv un vb dc ins pm na um cv].
  split; [|reflexivity].
  unfold set_units, truthy; simpl.
  destruct (String.eqb un ""); reflexivity.
Qed.

(** X18. [set_units] prompts exactly when the symbol it starts from is
    none of nW, uW, mW, W, dBm, spelled like this (the ['DBM'] of the
    docstring is not one of them), and then exactly once, before
    anything is sent to the meter. *)
Theorem set_units_prompts_iff_unknown (u : option string) o w r o1 w1 evs :
  set_units u o w = (r, o1, w1, evs) ->
  let s := adopted u o in
  ((s = "nW" \/ s = "uW" \/ s = "mW" \/ s = "W" \/ s = "dBm") ->
   forall p, ~ In (Input p) evs) /\
  (~ (s = "nW" \/ s = "uW" \/ s = "mW" \/ s = "W" \/ s = "dBm") ->
   exists rest,
     evs = Input unit_prompt :: rest /\ forall p, ~ In (Input p) rest) /\
  dict_mem "DBM" unit_types = false.
Proof.
  intros H s. split; [|split; [|reflexivity]].
  - intros V. apply unit_types_keys in V.
    assert (S : selected u o w s w []) by now constructor.
    rewrite (set_units_head u o w s w [] S) in H.
    destruct (push_unit_cases (with_units s (conversion o) o) w
                (native_mode s) eq_refl) as (o2 & w2 & evs2 & P & NI & _).
    rewrite P in H. inversion H; subst. exact NI.
  - intros NV.
    assert (V : dict_mem s unit_types = false).
    { destruct (dict_mem s unit_types) eqn:V; [|reflexivity].
      apply unit_types_keys in V. contradiction. }
    destruct (input unit_prompt w) as [[msg|typed] w0] eqn:I.
    + rewrite (set_units_prompt_raises u o w msg w0 V I) in H.
      inversion H; subst. exists []. split; [reflexivity | intros p []].
    + assert (S : selected u o w typed w0 [Input unit_prompt])
        by now constructor.
      rewrite (set_units_head u o w typed w0 _ S) in H.
      destruct (push_unit_cases (with_units typed (conversion o) o) w0
                  (native_mode typed) eq_refl) as (o2 & w2 & evs2 & P & NI & _).
      rewrite P in H. inversion H; subst. exists evs2. auto.
Qed.

(** X19. The prompt of [set_units] is outside its [try] statement: when
    [input] raises, the exception leaves [set_units].  The symbol that was
    rejected is then stored as the unit, next to the mode and the scale
    factor from before, and nothing has been sent to the meter. *)
Theorem set_units_prompt_failure (u : option string) o w msg w0 :
  dict_mem (adopted u o) unit_types = false ->
  input unit_prompt w = (inl msg, w0) ->
  exists o1,
    set_units u o w = (Raised (ExtError msg), o1, w0, [Input unit_prompt]) /\
    unit o1 = adopted u o /\
    unit_to_measure o1 = unit_to_measure o /\
    conversion o1 = conversion o /\
    link_fields o1 = link_fields o.
Proof.
  intros V I. rewrite (set_units_prompt_raises u o w msg w0 V I).
  eexists; split; [reflexivity|]. repeat split.
Qed.

(** X20. A prompt answered with a symbol of the table repairs the call:
    apart from the prompt itself, [set_units] then does exactly what it
    does when that symbol is given as the argument. *)
Theorem set_units_prompt_recovers (u : option string) o w typed w0 :
  dict_mem (adopted u o) unit_types = false ->
  input unit_prompt w = (inr typed, w0) ->
  dict_mem typed unit_types = true ->
  exists r o1 w1 evs,
    set_units (Some typed) o w0 = (r, o1, w1, evs) /\
    set_units u o w = (r, o1, w1, Input unit_prompt :: evs).
Proof.
  intros V I T.
  assert (S : selected u o w typed w0 [Input unit_prompt]) by now constructor.
  assert (S' : selected (Some typed) o w0 typed w0 []).
  { rewrite <- (adopted_some typed o T) at 2. constructor.
    now rewrite adopted_some. }
  rewrite (set_units_head u o w typed w0 _ S).
  rewrite (set_units_head (Some typed) o w0 typed w0 _ S').
  destruct (push_unit (with_units typed (conversion o) o) w0)
    as [[[r o1] w1] evs].
  exists r, o1, w1, evs. split; reflexivity.
Qed.

(** X21. The last [set_units] wins.  When two calls with symbols of the
    table both get their write through, the attributes after the second
    are what the second call alone would have left: nothing of the first
    symbol, its mode or its scale factor remains. *)
Theorem set_units_last_call_wins (u1 u2 : string) (c1 c2 : pynum)
    o w pm w1 w2 w3 :
  dict_get u1 unit_types = Some c1 ->
  dict_get u2 unit_types = Some c2 ->
  power_meter o = Some pm ->
  pm_set_unit pm (native_mode u1) w = (inr tt, w1) ->
  pm_set_unit pm (native_mode u2) w2 = (inr tt, w3) ->
  exists o1 evs1 evs2,
    set_units (Some u1) o w = (Normal tt, o1, w1, evs1) /\
    set_units (Some u2) o1 w2 =
      (Normal tt, with_units u2 (Some c2) o, w3, evs2) /\
    set_units (Some u2) o w2 =
      (Normal tt, with_units u2 (Some c2) o, w3, evs2).
Proof.
  intros D1 D2 E P1 P2.
  assert (Sel : forall u c o' w', dict_get u unit_types = Some c ->
                  selected (Some u) o' w' u w' []).
  { intros u c o' w' D.
    assert (V : dict_mem u unit_types = true) by (apply dict_mem_get; eauto).
    rewrite <- (adopted_some u o' V) at 2. constructor.
    now rewrite adopted_some. }
  exists (with_units u1 (Some c1) o).
  rewrite (set_units_stored (Some u1) o w u1 w [] pm w1 c1
             (Sel u1 c1 o w D1) E P1 D1).
  rewrite (set_units_stored (Some u2) o w2 u2 w2 [] pm w3 c2
             (Sel u2 c2 o w2 D2) E P2 D2).
  rewrite (set_units_stored (Some u2) (with_units u1 (Some c1) o) w2 u2 w2 []
             pm w3 c2 (Sel u2 c2 _ w2 D2) E P2 D2).
  do 2 eexists. split; [reflexivity|]. split; reflexivity.
Qed.


(** ** The example script *)

Lemma bind_normal {A B : Type} (c : M World Handle Meter A)
    (k : A -> M World Handle Meter B) o w a o1 w1 evs1 :
  c o w = (Normal a, o1, w1, evs1) ->
  bind c k o w =
    match k a o1 w1 with
    | (r, o2, w2, evs2) => (r, o2, w2, (evs1 ++ evs2)%list)
    end.
Proof. intros H. unfold bind. now rewrite H. Qed.

Lemma bind_raised {A B : Type} (c : M World Handle Meter A)
    (k : A -> M World Handle Meter B) o w e o1 w1 evs1 :
  c o w = (Raised e, o1, w1, evs1) ->
  bind c k o w = (Raised e, o1, w1, evs1).
Proof. intros H. unfold bind. now rewrite H. Qed.

(** X22. The example script when the connection fails.  If the resource
    cannot be opened, or cannot be wrapped in the driver, [initialise],
    [set_units] and [set_bandwidth] each print their error and go on, and
    the script then ends in the [AttributeError] of [auto_range]: no
    measurement is taken and [close] is never reached, so a handle that
    was opened before the wrap failed is not released. *)
Theorem example_without_connection w wa devs wb :
  visa_ResourceManager w = (inr tt, wa) ->
  rm_list_resources wa = (inr devs, wb) ->
  let PM := mkPM100 devs "W" true None None None None None None in
  let d := "enter deivce ID here" in
  let no_driver := "'PM100' object has no attribute 'power_meter'" in
  (forall msg wc,
     rm_open_resource d 2500 wb = (inl msg, wc) ->
     PM100_example w =
       (Raised (AttributeError "power_meter"),
        Some (with_units "mW" None (set_device d PM)), wc,
        [ResourceManager; ListResources; OpenResource d 2500;
         Console ("Connection to device unsuccesful " ++ msg);
         Console ("Error changing unit type: " ++ no_driver);
         Console ("An error occurred: " ++ no_driver)])) /\
  (forall h wc msg wd,
     rm_open_resource d 2500 wb = (inr h, wc) ->
     ThorlabsPM100 h wc = (inl msg, wd) ->
     PM100_example w =
       (Raised (AttributeError "power_meter"),
        Some (with_units "mW" None (set_inst h (set_device d PM))), wd,
        [ResourceManager; ListResources; OpenResource d 2500; WrapDriver;
         Console ("Connection to device unsuccesful " ++ msg);
         Console ("Error changing unit type: " ++ no_driver);
         Console ("An error occurred: " ++ no_driver)])).
Proof.
  intros V L PM d no_driver.
  assert (T : forall o1 w1 evs1,
            power_meter o1 = None -> unit o1 = "W" -> conversion o1 = None ->
            initialise (Some d) PM wb = (Normal tt, o1, w1, evs1) ->
            PM100_example w =
              (Raised (AttributeError "power_meter"),
               Some (with_units "mW" None o1), w1,
               ([ResourceManager; ListResources] ++ evs1 ++
                [Console ("Error changing unit type: " ++ no_driver);
                 Console ("An error occurred: " ++ no_driver)])%list)).
  { intros o1 w1 evs1 E U C I.
    unfold PM100_example, PM100_init. rewrite V, L. fold PM.
    unfold example_calls. fold d.
    rewrite (bind_normal _ _ _ _ _ _ _ _ I). cbv beta.
    assert (S : selected (Some "mW") o1 w1 "mW" w1 [])
      by (apply (selected_valid (Some "mW") o1 w1); reflexivity).
    assert (SU : set_units (Some "mW") o1 w1 =
                 (Normal tt, with_units "mW" None o1, w1,
                  [Console ("Error changing unit type: " ++ no_driver)])).
    { rewrite (set_units_head _ o1 w1 "mW" w1 [] S). rewrite C.
      now rewrite push_unit_no_driver by (simpl; congruence). }
    rewrite (bind_normal _ _ _ _ _ _ _ _ SU). cbv beta.
    assert (SB : set_bandwidth "high" (with_units "mW" None o1) w1 =
                 (Normal tt, with_units "mW" None o1, w1,
                  [Console ("An error occurred: " ++ no_driver)])).
    { unfold set_bandwidth; simpl; unfold_py; simpl. now rewrite E. }
    rewrite (bind_normal _ _ _ _ _ _ _ _ SB). cbv beta.
    assert (AR : auto_range true (with_units "mW" None o1) w1 =
                 (Raised (AttributeError "power_meter"),
                  with_units "mW" None o1, w1, [])).
    { unfold auto_range; unfold_py; simpl. now rewrite E. }
    rewrite (bind_raised _ _ _ _ _ _ _ _ AR).
    simpl. rewrite ?app_nil_r, <- ?app_assoc. reflexivity. }
  split.
  - intros msg wc O.
    rewrite (T (set_device d PM) wc
               [OpenResource d 2500;
                Console ("Connection to device unsuccesful " ++ msg)]);
      try reflexivity.
    rewrite (initialise_after_select (Some d) PM wb (set_device d PM) wb [] d
               (select_device_given d PM wb) eq_refl).
    now rewrite O.
  - intros h wc msg wd O W.
    rewrite (T (set_inst h (set_device d PM)) wd
               [OpenResource d 2500; WrapDriver;
                Console ("Connection to device unsuccesful " ++ msg)]);
      try reflexivity.
    rewrite (initialise_after_select (Some d) PM wb (set_device d PM) wb [] d
               (select_device_given d PM wb) eq_refl).
    now rewrite O, W.
Qed.


(** X23. The example script when every call goes through.  It never
    prompts.  Its calls to the collaborators are, in this order and no
    others: create the resource manager, list the resources, open the
    device of its argument with a timeout of 2500, wrap the handle, set
    the unit to 'W', set the filter to 0, set auto-range to 'ON', set the
    wavelength to 606, set the sample count to 5, configure for power,
    one reading, set the sample count to 5, configure for power, a
    hundred readings, release the handle.  The lines it prints stand
    between them as listed.  Its single reading is the raw one divided by
    1e-3, its averaged readings are the hundred raw ones divided by 1e-3
    each; the controller ends with the unit 'mW', the mode 'W', the
    factor 1e-3 and 100 as [n_averages]. *)
Theorem example_with_connection
    w wa devs wb h wc pm wd we wf wg wh wi wj raw wk wl wm raws wn wz :
  let d := "enter deivce ID here" in
  visa_ResourceManager w = (inr tt, wa) ->
  rm_list_resources wa = (inr devs, wb) ->
  rm_open_resource d 2500 wb = (inr h, wc) ->
  ThorlabsPM100 h wc = (inr pm, wd) ->
  pm_set_unit pm "W" wd = (inr tt, we) ->
  pm_set_lpass_state pm 0 we = (inr tt, wf) ->
  pm_set_range_auto pm "ON" wf = (inr tt, wg) ->
  pm_set_wavelength pm (PInt 606) wg = (inr tt, wh) ->
  pm_set_average_count pm 5 wh = (inr tt, wi) ->
  pm_configure_scalar_power pm wi = (inr tt, wj) ->
  pm_read pm wj = (inr raw, wk) ->
  pm_set_average_count pm 5 wk = (inr tt, wl) ->
  pm_configure_scalar_power pm wl = (inr tt, wm) ->
  read_run pm wm raws wn ->
  length raws = 100 ->
  inst_close h wn = (inr tt, wz) ->
  let single := PrimFloat.div raw 1e-3 in
  let data := map (fun x => PrimFloat.div x 1e-3) raws in
  PM100_example w =
    (Normal (VFloat single, VArray data),
     Some (mkPM100 devs "mW" true (Some d) (Some h) (Some pm) (Some 100%Z)
                   (Some "W") (Some (PFloat 1e-3))),
     wz,
     ([ResourceManager; ListResources; OpenResource d 2500; WrapDriver;
       Console ("Connection to device " ++ d ++ " succesful!");
       SetUnit "W"; Console "Units set to mW";
       SetLpassState 0; Console "bandwidth set to high";
       SetRangeAuto "ON"; Console "Auto-Range ON";
       SetWavelength (PInt 606);
       SetAverageCount 5; ConfigureScalarPower; Read (inr raw);
       single_report single "mW";
       SetAverageCount 5; ConfigureScalarPower]
      ++ map (fun x => Read (inr x)) raws
      ++ average_report data "mW"
      ++ [CloseHandle; Console ("Connection to device " ++ d ++ " ended")])%list).
Proof.
  intros d V L O W SU SB SA SW S1 P1 R1 S2 P2 RR LR CL single data.
  set (PM := mkPM100 devs "W" true None None None None None None
             : PM100 Handle Meter).
  set (o1 := set_power_meter pm (set_inst h (set_device d PM))).
  set (o2 := with_units "mW" (Some (PFloat 1e-3)) o1).
  unfold PM100_example, PM100_init. rewrite V, L. fold PM.
  unfold example_calls. fold d.
  assert (I : initialise (Some d) PM wb =
              (Normal tt, o1, wd,
               [OpenResource d 2500; WrapDriver;
                Console ("Connection to device " ++ d ++ " succesful!")])).
  { rewrite (initialise_after_select (Some d) PM wb (set_device d PM) wb [] d
               (select_device_given d PM wb) eq_refl).
    now rewrite O, W. }
  rewrite (bind_normal _ _ _ _ _ _ _ _ I). cbv beta.
  assert (U : set_units (Some "mW") o1 wd =
              (Normal tt, o2, we, [SetUnit "W"; Console "Units set to mW"])).
  { apply (set_units_stored (Some "mW") o1 wd "mW" wd [] pm we (PFloat 1e-3));
      try reflexivity; [|exact SU].
    apply (selected_valid (Some "mW") o1 wd). reflexivity. }
  rewrite (bind_normal _ _ _ _ _ _ _ _ U). cbv beta.
  assert (B : set_bandwidth "high" o2 we =
              (Normal tt, o2, wf,
               [SetLpassState 0; Console "bandwidth set to high"])).
  { unfold set_bandwidth; simpl; unfold_py; simpl. now rewrite SB. }
  rewrite (bind_normal _ _ _ _ _ _ _ _ B). cbv beta.
  assert (A : auto_range true o2 wf =
              (Normal tt, o2, wg, [SetRangeAuto "ON"; Console "Auto-Range ON"])).
  { unfold auto_range; unfold_py; simpl. now rewrite SA. }
  rewrite (bind_normal _ _ _ _ _ _ _ _ A). cbv beta.
  assert (WL : set_wavelength (PInt 606) o2 wg =
               (Normal tt, o2, wh, [SetWavelength (PInt 606)])).
  { unfold set_wavelength; unfold_py; simpl. now rewrite SW. }
  rewrite (bind_normal _ _ _ _ _ _ _ _ WL). cbv beta.
  rewrite (bind_normal _ _ _ _ _ _ _ _
             (measure_single_ok "single" 5 10 o2 wh pm wi wj raw wk
                (PFloat 1e-3) eq_refl eq_refl S1 P1 R1 eq_refl eq_refl)).
  cbv beta.
  rewrite (bind_normal _ _ _ _ _ _ _ _
             (measure_average_ok 5 100 (set_n_averages 10 o2) wk pm wl wm raws
                wn (PFloat 1e-3) eq_refl S2 P2 RR LR eq_refl eq_refl)).
  cbv beta.
  assert (C : close (set_n_averages 100 (set_n_averages 10 o2)) wn =
              (Normal tt, set_n_averages 100 (set_n_averages 10 o2), wz,
               [CloseHandle; Console ("Connection to device " ++ d ++ " ended")])).
  { unfold close; unfold_py; simpl. now rewrite CL. }
  rewrite (bind_normal _ _ _ _ _ _ _ _ C). cbv beta.
  unfold ret. simpl. rewrite ?app_nil_r, <- ?app_assoc. reflexivity.
Qed.

End Further.

(** * The further properties at work on the scripted world *)

(** A failed [initialise('USB1')] on a connected controller. *)
Lemma call_footprint_witness :
  forallb (may_cause (Initialise (Some "USB1")))
    [OpenResource "USB1" 2500;
     Console "Connection to device unsuccesful VI_ERROR_TMO"] = true.
Proof.
  exact (proj1 (call_footprint (INS := instrument) (NUM := numerics)
                  (Initialise (Some "USB1")) (connected true) (faulty [true])
                  (Normal VNone) (set_device "USB1" (connected true))
                  (faulty []) _ eq_refl)).
Defined.

(** A single measurement changes [n_averages] and nothing else. *)
Lemma call_attribute_frame_witness :
  let o := with_units "mW" (Some (PFloat 1e-3)) (connected true) in
  link_fields (set_n_averages 10 o) = link_fields o.
Proof.
  intros o.
  refine (proj1 (proj2 (proj2
            (call_attribute_frame (INS := instrument) (NUM := numerics)
               (Measure "single" 5 10) o (calm [0.0025%float])
               (Normal (VFloat 2.5)) (set_n_averages 10 o) (calm []) _
               eq_refl))) _).
  discriminate.
Defined.

(** Two devices listed and the terminal closed. *)
Lemma initialise_prompt_failure_witness :
  initialise None (listing ["USB0"; "USB1"] true) (typing []) =
    (Normal tt, listing ["USB0"; "USB1"] true, typing [],
     [Console ("Found the following devices: " ++ newline
               ++ " ('USB0', 'USB1')");
      Sleep; Input device_prompt;
      Console "Connection to device unsuccesful EOF when reading a line"]).
Proof.
  exact (initialise_prompt_failure (INS := instrument)
           (listing ["USB0"; "USB1"] true) (typing [])
           "EOF when reading a line" (typing [])
           ltac:(simpl; lia) eq_refl).
Defined.

(** [initialise()] with the one device, then [close]. *)
Lemma initialise_then_close_witness :
  exists o1 evs,
    initialise None (fresh true) (calm []) = (Normal tt, o1, calm [], evs) /\
    link_fields o1 = (Some "USB0", Some "USB0", Some "USB0") /\
    close o1 (calm []) =
      (Normal tt, o1, calm [],
       [CloseHandle; Console "Connection to device USB0 ended"]).
Proof.
  destruct (initialise_then_close (INS := instrument) None (fresh true)
              (calm []) (set_device "USB0" (fresh true)) (calm []) []
              "USB0" "USB0" (calm []) "USB0" (calm [])
              eq_refl eq_refl eq_refl eq_refl) as (o1 & evs & I & L & C).
  exists o1, evs. split; [exact I|]. split; [exact L|].
  exact (proj1 (C (calm []) (calm []) eq_refl)).
Defined.

(** The connected controller is reachable. *)
Lemma reachable_links_witness :
  exists d,
    device (connected true) = Some d /\
    close (connected true) (calm []) =
      (Normal tt, connected true, calm [],
       [CloseHandle; Console ("Connection to device " ++ d ++ " ended")]).
Proof.
  exact (proj2 (proj2 (reachable_links (INS := instrument) (NUM := numerics)
                         (connected true) (connected_reachable true)))
           "USB0" (calm []) (calm []) eq_refl eq_refl).
Defined.

(** A controller that was only constructed. *)
Lemma methods_without_driver_witness :
  measure "single" 5 10 (fresh true) (calm []) =
    (Raised (AttributeError "power_meter"), fresh true, calm [], []) /\
  set_bandwidth "high" (fresh true) (calm []) =
    (Normal tt, fresh true, calm [],
     [Console "An error occurred: 'PM100' object has no attribute 'power_meter'"]).
Proof.
  pose proof (methods_without_driver (INS := instrument) (NUM := numerics)
                (fresh true) (calm []) eq_refl)
    as (_ & _ & _ & _ & M & _ & B & _).
  split; [exact (M "single" 5%Z 10%Z) | exact (B "high" eq_refl)].
Defined.

(** [auto_range] on a meter that answers and on one that does not. *)
Lemma pass_through_methods_witness :
  auto_range true (connected true) (calm []) =
    (Normal tt, connected true, calm [],
     [SetRangeAuto "ON"; Console "Auto-Range ON"]) /\
  auto_range false (connected true) (faulty [true]) =
    (Raised (ExtError "VI_ERROR_TMO"), connected true, faulty [],
     [SetRangeAuto "OFF"]).
Proof.
  split.
  - exact (proj1 (proj2 (proj2 (pass_through_methods (INS := instrument)
                                  (connected true) (calm []) "USB0" eq_refl)))
             true).
  - exact (proj1 (proj2 (proj2 (pass_through_methods (INS := instrument)
                                  (connected true) (faulty [true]) "USB0"
                                  eq_refl)))
             false).
Defined.

(** ['low'] on a meter that does not answer. *)
Lemma set_bandwidth_outcomes_witness :
  set_bandwidth "low" (connected true) (faulty [true]) =
    (Normal tt, connected true, faulty [],
     [SetLpassState 1; Console "An error occurred: VI_ERROR_TMO"]).
Proof.
  exact (set_bandwidth_outcomes (INS := instrument) "low" 1 (connected true)
           (faulty [true]) "USB0" eq_refl eq_refl).
Defined.

(** The configuration for a power reading fails. *)
Lemma measure_failure_points_witness :
  measure "single" 5 7 (connected true) (faulty [false; true]) =
    (Raised (ExtError "VI_ERROR_TMO"), set_n_averages 7 (connected true),
     faulty [], [SetAverageCount 5; ConfigureScalarPower]).
Proof.
  exact (proj1 (proj2 (measure_failure_points (INS := instrument)
                         (NUM := numerics) "single" 5 7 (connected true)
                         (faulty [false; true]) "USB0" eq_refl))
           (faulty [true]) "VI_ERROR_TMO" (faulty []) eq_refl eq_refl).
Defined.

(** A single measurement in mW. *)
Lemma measure_order_witness :
  exists rest,
    [SetAverageCount 5; ConfigureScalarPower; Read (inr 0.0025%float);
     Console "Power reading: 2.50mW"]
    = SetAverageCount 5 :: ConfigureScalarPower :: rest /\
    device_writes rest = [].
Proof.
  destruct (proj1 (measure_order (INS := instrument) (NUM := numerics)
                     "single" 5 10
                     (with_units "mW" (Some (PFloat 1e-3)) (connected true))
                     (calm [0.0025%float]) (Normal (VFloat 2.5)) _ (calm []) _
                     eq_refl))
    as [E | [E | E]]; [discriminate E | discriminate E | exact E].
Defined.

(** Five readings asked for; the meter delivers two and then fails. *)
Lemma average_stops_at_failure_witness :
  let o :=
    set_n_averages 5 (with_units "mW" (Some (PFloat 1e-3)) (connected true)) in
  average o (mkWorld ["USB0"] [] [false; false; true] [0.0025; 0.0035]%float) =
    (Raised (ExtError "VI_ERROR_TMO"), o, faulty [],
     [Read (inr 0.0025%float); Read (inr 0.0035%float);
      Read (inl "VI_ERROR_TMO")]).
Proof.
  intros o.
  refine (proj1 (average_stops_at_failure (INS := instrument)
                   (NUM := numerics) o "USB0" (PFloat 1e-3) 5
                   (mkWorld ["USB0"] [] [false; false; true]
                      [0.0025; 0.0035]%float)
                   [0.0025; 0.0035]%float "VI_ERROR_TMO" (faulty [])
                   eq_refl eq_refl eq_refl _ ltac:(simpl; lia)) eq_refl).
  exists (faulty [true]). split; [|reflexivity].
  apply (read_run_cons "USB0" _ _
           (mkWorld ["USB0"] [] [false; true] [0.0035%float])); [reflexivity|].
  apply (read_run_cons "USB0" _ _ (faulty [true])); [reflexivity|].
  constructor.
Defined.

(** [average] before any [measure], and with [n_averages] zero on a
    controller that was only constructed. *)
Lemma average_edge_cases_witness :
  average (connected true) (calm []) =
    (Raised (AttributeError "n_averages"), connected true, calm [], []) /\
  average (set_n_averages 0 (fresh false)) (calm []) =
    (Normal [], set_n_averages 0 (fresh false), calm [], []).
Proof.
  split.
  - exact (proj1 (average_edge_cases (INS := instrument) (NUM := numerics)
                    (connected true) (calm [])) eq_refl).
  - exact (proj1 (proj2 (average_edge_cases (INS := instrument)
                           (NUM := numerics) (set_n_averages 0 (fresh false))
                           (calm [])))
             0%Z eq_refl ltac:(lia)).
Defined.

(** A single measurement with [n_averages = 2], then [average]. *)
Lemma measure_then_average_witness :
  let o := with_units "mW" (Some (PFloat 1e-3)) (connected false) in
  length [2.5; 3.5]%float = Z.to_nat 2 /\
  read_count [Read (inr 0.0025%float); Read (inr 0.0035%float)] = Z.to_nat 2.
Proof.
  intros o.
  exact (proj2 (measure_then_average (INS := instrument) (NUM := numerics)
                  "single" 5 2 o (calm [0.001%float]) (VFloat 1)
                  (set_n_averages 2 o) (calm []) _ eq_refl)
           (calm [0.0025; 0.0035]%float) [2.5; 3.5]%float
           (set_n_averages 2 o) (calm []) _ eq_refl).
Defined.

(** [initialise()] with nothing to choose from, and [set_units] with an
    unknown symbol and the terminal closed. *)
Lemma call_exceptions_witness :
  (may_raise (Initialise None) (SystemExit "Could not find device") = true /\
   (is_Exception (SystemExit "Could not find device") = false ->
    Initialise None = Initialise None /\ devices (listing [] true) = [])) /\
  (dict_mem (adopted (Some "kW") (connected true)) unit_types = false /\
   [Input unit_prompt] = [Input unit_prompt] /\
   exists msg,
     ExtError "EOF when reading a line" = ExtError msg /\
     input unit_prompt (typing []) = (inl msg, typing [])) /\
  missing "power_meter" (fresh true).
Proof.
  pose proof (call_exceptions (INS := instrument) (NUM := numerics)
                (Initialise None) (listing [] true) (calm [])
                (SystemExit "Could not find device") (listing [] true)
                (calm []) [] eq_refl) as (R & _ & _ & X & _).
  pose proof (call_exceptions (INS := instrument) (NUM := numerics)
                (SetUnits (Some "kW")) (connected true) (typing [])
                (ExtError "EOF when reading a line")
                (set_unit "kW" (connected true)) (typing [])
                [Input unit_prompt] eq_refl) as (_ & _ & _ & _ & U & _).
  pose proof (call_exceptions (INS := instrument) (NUM := numerics)
                (SetSamples 5) (fresh true) (calm [])
                (AttributeError "power_meter") (fresh true) (calm []) []
                eq_refl) as (_ & _ & _ & _ & _ & A).
  split; [split; [exact R | exact X]|].
  split; [exact (U (Some "kW") eq_refl) | exact (A "power_meter" eq_refl)].
Defined.

(** A reading on the reachable controller in mW. *)
Lemma no_zero_division_witness :
  reachable (with_units "mW" (Some (PFloat 1e-3)) (connected true)) /\
  Normal (VFloat 2.5) <> Raised ZeroDivisionError.
Proof.
  assert (R : reachable (with_units "mW" (Some (PFloat 1e-3)) (connected true))).
  { apply (reach_call (SetUnits (Some "mW")) (connected true) (calm [])
             (Normal VNone)
             (with_units "mW" (Some (PFloat 1e-3)) (connected true)) (calm [])
             [SetUnit "W"; Console "Units set to mW"]); [|reflexivity].
    apply connected_reachable. }
  split; [exact R|].
  exact (proj2 (no_zero_division (INS := instrument) (NUM := numerics) _ R)
           (Measure "single" 5 10) (calm [0.0025%float]) (Normal (VFloat 2.5))
           _ (calm []) _ eq_refl).
Defined.

(** The spelling of the docstring makes [set_units] prompt. *)
Lemma set_units_prompts_iff_unknown_witness :
  exists rest,
    [Input unit_prompt; SetUnit "DBM"; Console "Units set to dBm"]
    = Input unit_prompt :: rest /\
    forall p, ~ In (Input p) rest.
Proof.
  refine (proj1 (proj2 (set_units_prompts_iff_unknown (INS := instrument)
                          (Some "DBM") (connected true) (typing ["dBm"])
                          (Normal tt)
                          (with_units "dBm" (Some (PInt 1)) (connected true))
                          (typing []) _ eq_refl)) _).
  simpl. intros [H | [H | [H | [H | H]]]]; discriminate H.
Defined.

(** An unknown symbol and the terminal closed. *)
Lemma set_units_prompt_failure_witness :
  exists o1,
    set_units (Some "kW") (connected true) (typing []) =
      (Raised (ExtError "EOF when reading a line"), o1, typing [],
       [Input unit_prompt]) /\
    unit o1 = "kW" /\
    unit_to_measure o1 = None /\
    conversion o1 = None /\
    link_fields o1 = link_fields (connected true).
Proof.
  exact (set_units_prompt_failure (INS := instrument) (Some "kW")
           (connected true) (typing []) "EOF when reading a line" (typing [])
           eq_refl eq_refl).
Defined.

(** An unknown symbol corrected at the prompt. *)
Lemma set_units_prompt_recovers_witness :
  exists r o1 w1 evs,
    set_units (Some "mW") (connected true) (typing []) = (r, o1, w1, evs) /\
    set_units (Some "milliwatt") (connected true) (typing ["mW"]) =
      (r, o1, w1, Input unit_prompt :: evs).
Proof.
  exact (set_units_prompt_recovers (INS := instrument) (Some "milliwatt")
           (connected true) (typing ["mW"]) "mW" (typing [])
           eq_refl eq_refl eq_refl).
Defined.

(** nW, then dBm. *)
Lemma set_units_last_call_wins_witness :
  exists o1 evs1 evs2,
    set_units (Some "nW") (connected true) (calm []) =
      (Normal tt, o1, calm [], evs1) /\
    set_units (Some "dBm") o1 (calm []) =
      (Normal tt, with_units "dBm" (Some (PInt 1)) (connected true), calm [],
       evs2) /\
    set_units (Some "dBm") (connected true) (calm []) =
      (Normal tt, with_units "dBm" (Some (PInt 1)) (connected true), calm [],
       evs2).
Proof.
  exact (set_units_last_call_wins (INS := instrument) "nW" "dBm"
           (PFloat 1e-9) (PInt 1) (connected true) (calm []) "USB0"
           (calm []) (calm []) (calm [])
           eq_refl eq_refl eq_refl eq_refl eq_refl).
Defined.

(** The script on a world where the resource cannot be opened. *)
Lemma example_without_connection_witness :
  PM100_example (faulty [true]) =
    (Raised (AttributeError "power_meter"),
     Some (with_units "mW" None
             (set_device "enter deivce ID here" (fresh true))),
     faulty [],
     [ResourceManager; ListResources;
      OpenResource "enter deivce ID here" 2500;
      Console "Connection to device unsuccesful VI_ERROR_TMO";
      Console "Error changing unit type: 'PM100' object has no attribute 'power_meter'";
      Console "An error occurred: 'PM100' object has no attribute 'power_meter'"]).
Proof.
  exact (proj1 (example_without_connection (INS := instrument)
                  (NUM := numerics) (faulty [true]) (faulty [true])
                  ["USB0"] (faulty [true]) eq_refl eq_refl)
           "VI_ERROR_TMO" (faulty []) eq_refl).
Defined.

(** The script on a world where everything goes through: a first reading
    of 0.0025 W, then a hundred of 0.002 W. *)
Lemma example_with_connection_witness :
  exists o evs,
    PM100_example (calm (0.0025%float :: repeat 0.002%float 100)) =
      (Normal (VFloat 2.5, VArray (repeat 2%float 100)), Some o, calm [], evs).
Proof.
  do 2 eexists.
  exact (example_with_connection (INS := instrument) (NUM := numerics)
           (calm (0.0025%float :: repeat 0.002%float 100))
           (calm (0.0025%float :: repeat 0.002%float 100)) ["USB0"]
           (calm (0.0025%float :: repeat 0.002%float 100)) "enter deivce ID here"
           (calm (0.0025%float :: repeat 0.002%float 100)) "enter deivce ID here"
           (calm (0.0025%float :: repeat 0.002%float 100))
           (calm (0.0025%float :: repeat 0.002%float 100))
           (calm (0.0025%float :: repeat 0.002%float 100))
           (calm (0.0025%float :: repeat 0.002%float 100))
           (calm (0.0025%float :: repeat 0.002%float 100))
           (calm (0.0025%float :: repeat 0.002%float 100))
           (calm (0.0025%float :: repeat 0.002%float 100))
           0.0025%float
           (calm (repeat 0.002%float 100))
           (calm (repeat 0.002%float 100))
           (calm (repeat 0.002%float 100))
           (repeat 0.002%float 100) (calm []) (calm [])
           eq_refl eq_refl eq_refl eq_refl eq_refl eq_refl eq_refl eq_refl
           eq_refl eq_refl eq_refl eq_refl eq_refl
           (calm_read_run _ (repeat 0.002%float 100)) eq_refl eq_refl).
Defined.
